(** * The shader registry and program set-up of [src/graphics/shaders.cpp]

    A shallow embedding of the file: every function that is modelled is a
    computation in one small monad that reads the answers of the code's
    collaborators (the GL driver, [irr_driver], [file_manager]) from an
    environment, threads the mutable state of the file (static data
    members, the [Shaders] object) and records, oldest first, the calls
    that leave the file. *)

From Stdlib Require Import ZArith QArith Lia.
From stdpp Require Import base list strings gmap.

Local Open Scope string_scope.
Local Open Scope list_scope.
Local Open Scope Z_scope.

(** ** Machine integers *)

(** [GLuint] is an unsigned and [GLint] a signed 32-bit integer.  Both are
    carried by [Z]; the conversions C++ performs on assignment and on
    argument passing are written out. *)
Definition GLuint := Z.
Definition GLint := Z.

Definition to_GLuint (z : Z) : GLuint := z mod 2 ^ 32.

Definition to_GLint (z : Z) : GLint :=
  let u := z mod 2 ^ 32 in
  if u <? 2 ^ 31 then u else u - 2 ^ 32.

Definition is_GLint (z : Z) : Prop := - 2 ^ 31 <= z < 2 ^ 31.
Definition is_GLuint (z : Z) : Prop := 0 <= z < 2 ^ 32.

(** ** Values that travel to the driver *)

(** Floating-point data is only handed on to GL: the modelled functions do
    no arithmetic on it.  A [float] is the number its literal denotes. *)
Definition float := Q.

(** [core::matrix4]: [pointer()] exposes its sixteen entries. *)
Definition matrix4 := list float.

Definition IdentityMatrix : matrix4 :=
  [1; 0; 0; 0;
   0; 1; 0; 0;
   0; 0; 1; 0;
   0; 0; 0; 1]%Q.

Record vector2df := Vector2df { X : float; Y : float }.

(** [video::SColor], through its four accessors. *)
Record SColor := MkSColor {
  getAlpha : Z; getRed : Z; getGreen : Z; getBlue : Z
}.

(** ** GL enumerators used by the file *)

Inductive SHADER_TYPE :=
  GL_VERTEX_SHADER | GL_FRAGMENT_SHADER | GL_GEOMETRY_SHADER | GL_COMPUTE_SHADER.

Inductive buffer_target :=
  GL_ARRAY_BUFFER | GL_ELEMENT_ARRAY_BUFFER | GL_UNIFORM_BUFFER.

Inductive buffer_usage := GL_STATIC_DRAW | GL_DYNAMIC_DRAW.

Inductive attrib_type := GL_FLOAT | GL_UNSIGNED_INT.

Definition GL_FALSE := false.

(** The data argument of [glBufferData]. *)
Inductive buffer_data :=
| null_data
| float_data (d : list float)
| int_data (d : list Z).

Definition sizeof_float : Z := 4.
Definition sizeof_int : Z := 4.
Definition sizeof_unsigned : Z := 4.

(** One stage of a [LoadProgram] call: its kind and the resolved path. *)
Definition stage := (SHADER_TYPE * string)%type.

#[global] Instance SHADER_TYPE_eq_dec : EqDecision SHADER_TYPE.
Proof. solve_decision. Defined.

(** ** Calls that leave the file *)

Inductive call :=
(* irr_driver capability queries *)
| irr_getGLSLVersion
| irr_hasVSLayerExtension
| irr_needUBOWorkaround
(* glwrap *)
| call_initGL
| call_LoadProgram (stages : list stage)
| call_LoadTFBProgram (path : string) (varyings : list string) (count : Z)
(* programs, uniforms, uniform blocks *)
| glUseProgram_ (program : GLuint)
| glGetUniformLocation_ (program : GLuint) (name : string)
| glGetAttribLocation_ (program : GLuint) (name : string)
| glGetUniformBlockIndex_ (program : GLuint) (name : string)
| glUniformBlockBinding_ (program : GLuint) (index : GLuint) (binding : GLuint)
| glUniform1i_ (location : GLint) (v0 : GLint)
| glUniform1f_ (location : GLint) (v0 : float)
| glUniform2f_ (location : GLint) (v0 v1 : float)
| glUniform4i_ (location : GLint) (v0 v1 v2 v3 : GLint)
| glUniformMatrix4fv_ (location : GLint) (count : Z) (transpose : bool)
                      (value : matrix4)
(* buffers and vertex arrays *)
| glGenBuffers_ (n : Z)
| glBindBuffer_ (target : buffer_target) (buffer : GLuint)
| glBufferData_ (target : buffer_target) (size : Z) (data : buffer_data)
                (usage : buffer_usage)
| glGenVertexArrays_ (n : Z)
| glBindVertexArray_ (array : GLuint)
| glEnableVertexAttribArray_ (index : GLuint)
| glVertexAttribPointer_ (index : GLuint) (size : Z) (type : attrib_type)
                         (normalized : bool) (stride : Z) (offset : Z)
| glVertexAttribIPointer_ (index : GLuint) (size : Z) (type : attrib_type)
                          (stride : Z) (offset : Z)
| glVertexAttribDivisor_ (index : GLuint) (divisor : GLuint).

(** ** The environment: what the collaborators answer *)

(** The kinds of the registry.  [shaders.hpp], which declares the
    enumeration [ShaderType], its last enumerator [ES_COUNT] and the table
    [shader_names], is not part of the sources at hand: the enumerators
    below are those [loadShaders] names, and their numbering, [ES_COUNT]
    and the table are parameters of the model (fields of [Env]). *)
Inductive ShaderType :=
| ES_NORMAL_MAP | ES_NORMAL_MAP_LIGHTMAP | ES_SKYBOX | ES_SPLATTING
| ES_WATER | ES_WATER_SURFACE | ES_SPHERE_MAP | ES_GRASS | ES_GRASS_REF
| ES_BUBBLES | ES_MOTIONBLUR | ES_GAUSSIAN3H | ES_GAUSSIAN3V | ES_MIPVIZ
| ES_COLORIZE | ES_OBJECTPASS | ES_OBJECT_UNLIT | ES_OBJECTPASS_REF
| ES_OBJECTPASS_RIMLIT | ES_SUNLIGHT | ES_DISPLACE | ES_PASSFAR.

#[global] Instance ShaderType_eq_dec : EqDecision ShaderType.
Proof. solve_decision. Defined.

Record Env := MkEnv {
  (* shaders.hpp *)
  ES_COUNT : nat;
  enum_value : ShaderType → nat;
  shader_names : nat → string;
  (* gpuparticles.hpp, light.hpp *)
  MAXLIGHT : Z;
  sizeof_PointLightInfo : Z;
  (* the platform macro tested by #if *)
  WIN32 : bool;
  (* file_manager: getAsset(name) and getAsset(FileManager::SHADER, name) *)
  getAsset : string → string;
  getAsset_SHADER : string → string;
  (* irr_driver *)
  getGLSLVersion : Z;
  hasVSLayerExtension : bool;
  needUBOWorkaround : bool;
  getViewMatrix : matrix4;
  getProjMatrix : matrix4;
  getInvViewMatrix : matrix4;
  getInvProjMatrix : matrix4;
  getCurrentScreenSize : vector2df;
  (* IGPUProgrammingServices::addHighLevelShaderMaterialFromFiles: what
     the n-th call made since the driver started returns *)
  material_of : nat → Z;
  (* glwrap and the GL driver *)
  program_of : list stage → GLuint;
  tfb_program_of : string → list string → GLuint;
  uniform_location : GLuint → string → GLint;
  attrib_location : GLuint → string → GLint;
  uniform_block_index : GLuint → string → GLuint;
  (* the name handed out by the n-th glGen* call *)
  gen_name : nat → GLuint;
}.

(** ** The monad *)

Inductive failure :=
| assertion_failed (* assert(...) does not hold: the process aborts *)
| out_of_bounds.   (* an array is indexed outside its extent *)

Inductive Res (S E A : Type) :=
| Done (a : A) (s : S) (out : list E)
| Failed (why : failure) (out : list E).
Arguments Done {S E A} a s out.
Arguments Failed {S E A} why out.

Definition Comp (S E A : Type) : Type := Env → S → Res S E A.

Definition ret {S E A} (a : A) : Comp S E A :=
  λ _ s, Done a s [].

Definition bind {S E A B} (m : Comp S E A) (k : A → Comp S E B) : Comp S E B :=
  λ env s,
    match m env s with
    | Done a s1 out1 =>
        match k a env s1 with
        | Done b s2 out2 => Done b s2 (out1 ++ out2)
        | Failed why out2 => Failed why (out1 ++ out2)
        end
    | Failed why out1 => Failed why out1
    end.

Declare Scope comp_scope.
Delimit Scope comp_scope with comp.
Notation "x <- m ; k" := (bind m (λ x, k))
  (at level 20, m at level 100, k at level 200, only parsing) : comp_scope.
Notation "m ;; k" := (bind m (λ _, k))
  (at level 100, k at level 200, only parsing, right associativity) : comp_scope.
Local Open Scope comp_scope.

Definition ask {S E A} (f : Env → A) : Comp S E A :=
  λ env s, Done (f env) s [].

Definition get {S E} : Comp S E S :=
  λ _ s, Done s s [].

Definition gets {S E A} (f : S → A) : Comp S E A :=
  λ _ s, Done (f s) s [].

Definition put {S E} (s : S) : Comp S E unit :=
  λ _ _, Done tt s [].

Definition modify {S E} (f : S → S) : Comp S E unit :=
  λ _ s, Done tt (f s) [].

Definition emit {S E} (e : E) : Comp S E unit :=
  λ _ s, Done tt s [e].

Definition fail {S E A} (why : failure) : Comp S E A :=
  λ _ _, Failed why [].

(** [assert(c)] of <assert.h>. *)
Definition assert {S E} (c : bool) : Comp S E unit :=
  if c then ret tt else fail assertion_failed.

(** [for (i = 0; i < n; i++) body(i)] *)
Fixpoint for_range {St E} (i : nat) (n : nat) (body : nat → Comp St E unit)
  : Comp St E unit :=
  match n with
  | O => ret tt
  | S n' => body i ;; for_range (S i) n' body
  end.

(** Running a computation on a part [T] of the state [S], its calls being
    embedded in the larger event type. *)
Definition lift {S T E F A} (proj : S → T) (upd : T → S → S) (inj : E → F)
    (m : Comp T E A) : Comp S F A :=
  λ env s,
    match m env (proj s) with
    | Done a t out => Done a (upd t s) (inj <$> out)
    | Failed why out => Failed why (inj <$> out)
    end.

(** ** The state of the file outside the [Shaders] object *)

(** Static data members and file-scope globals ([quad_vbo], [tri_vbo],
    [SharedObject::cubevbo], [BubbleShader::uniform_MVP], ...) are kept in
    one store, by their qualified names.  [gens] counts the names the
    driver has generated so far. *)
Record Statics := MkStatics {
  vars : string → Z;
  gens : nat;
}.

(** Objects of static storage duration are zero-initialised. *)
Definition Statics_at_start : Statics := MkStatics (λ _, 0) 0.

Definition G := Comp Statics call.

Definition load (x : string) : G Z :=
  λ _ s, Done (vars s x) s [].

Definition store (x : string) (v : Z) : G unit :=
  λ _ s, Done tt (MkStatics (λ y, if String.eqb y x then v else vars s y) (gens s)) [].

(** [x = m]: the result of [m] is stored in [x], converted to the 32-bit
    unsigned type every such variable of the file has, and is the value
    of the assignment. *)
Definition into (x : string) (m : G Z) : G Z :=
  v <- m; store x (to_GLuint v);; ret (to_GLuint v).

Notation "x :== m" := (into x m) (at level 70, no associativity) : comp_scope.

(** The same assignment as a statement. *)
Definition assign (x : string) (m : G Z) : G unit :=
  v <- m; store x (to_GLuint v).

Notation "x ::= m" := (assign x m) (at level 70, no associativity) : comp_scope.

(** ** The collaborators, as computations *)

Definition irr_driver_getGLSLVersion : G Z :=
  emit irr_getGLSLVersion;; ask getGLSLVersion.

Definition irr_driver_hasVSLayerExtension : G bool :=
  emit irr_hasVSLayerExtension;; ask hasVSLayerExtension.

Definition irr_driver_needUBOWorkaround : G bool :=
  emit irr_needUBOWorkaround;; ask needUBOWorkaround.

Definition initGL : G unit := emit call_initGL.

Definition LoadProgram (stages : list stage) : G GLuint :=
  emit (call_LoadProgram stages);; ask (λ env, program_of env stages).

Definition LoadTFBProgram (path : string) (varyings : list string) (count : Z)
  : G GLuint :=
  emit (call_LoadTFBProgram path varyings count);;
  ask (λ env, tfb_program_of env path (take (Z.to_nat count) varyings)).

Definition glUseProgram (program : GLuint) : G unit :=
  emit (glUseProgram_ program).

Definition glGetUniformLocation (program : GLuint) (name : string) : G GLint :=
  emit (glGetUniformLocation_ program name);;
  ask (λ env, uniform_location env program name).

Definition glGetAttribLocation (program : GLuint) (name : string) : G GLint :=
  emit (glGetAttribLocation_ program name);;
  ask (λ env, attrib_location env program name).

Definition glGetUniformBlockIndex (program : GLuint) (name : string) : G GLuint :=
  emit (glGetUniformBlockIndex_ program name);;
  ask (λ env, uniform_block_index env program name).

Definition glUniformBlockBinding (program index binding : GLuint) : G unit :=
  emit (glUniformBlockBinding_ program index binding).

(** The [glUniform*] entry points take a [GLint] location; the file keeps
    locations in [GLuint] variables, so the argument is converted. *)
Definition glUniform1i (location : Z) (v0 : Z) : G unit :=
  emit (glUniform1i_ (to_GLint location) (to_GLint v0)).

Definition glUniform1f (location : Z) (v0 : float) : G unit :=
  emit (glUniform1f_ (to_GLint location) v0).

Definition glUniform2f (location : Z) (v0 v1 : float) : G unit :=
  emit (glUniform2f_ (to_GLint location) v0 v1).

Definition glUniform4i (location : Z) (v0 v1 v2 v3 : Z) : G unit :=
  emit (glUniform4i_ (to_GLint location) (to_GLint v0) (to_GLint v1)
                     (to_GLint v2) (to_GLint v3)).

Definition glUniformMatrix4fv (location : Z) (count : Z) (transpose : bool)
    (value : matrix4) : G unit :=
  emit (glUniformMatrix4fv_ (to_GLint location) count transpose value).

Definition fresh_name (c : call) : G GLuint :=
  λ env s, Done (gen_name env (gens s)) (MkStatics (vars s) (S (gens s))) [c].

(** [glGenBuffers(1, &x)] and [glGenVertexArrays(1, &x)]: the generated
    name is the result. *)
Definition glGenBuffers (n : Z) : G GLuint := fresh_name (glGenBuffers_ n).
Definition glGenVertexArrays (n : Z) : G GLuint := fresh_name (glGenVertexArrays_ n).

Definition glBindBuffer (target : buffer_target) (buffer : GLuint) : G unit :=
  emit (glBindBuffer_ target buffer).

Definition glBufferData (target : buffer_target) (size : Z) (data : buffer_data)
    (usage : buffer_usage) : G unit :=
  emit (glBufferData_ target size data usage).

Definition glBindVertexArray (array : GLuint) : G unit :=
  emit (glBindVertexArray_ array).

Definition glEnableVertexAttribArray (index : GLuint) : G unit :=
  emit (glEnableVertexAttribArray_ index).

Definition glVertexAttribPointer (index : GLuint) (size : Z) (type : attrib_type)
    (normalized : bool) (stride : Z) (offset : Z) : G unit :=
  emit (glVertexAttribPointer_ index size type normalized stride offset).

Definition glVertexAttribIPointer (index : GLuint) (size : Z) (type : attrib_type)
    (stride : Z) (offset : Z) : G unit :=
  emit (glVertexAttribIPointer_ index size type stride offset).

Definition glVertexAttribDivisor (index divisor : GLuint) : G unit :=
  emit (glVertexAttribDivisor_ index divisor).

(** ** File-scope functions of shaders.cpp *)

(** [GLuint x = m]: a local unsigned variable initialised from [m]. *)
Definition as_GLuint (m : G Z) : G GLuint :=
  v <- m; ret (to_GLuint v).

Definition getUniformLocation (program : GLuint) (name : string) : G GLuint :=
  as_GLuint (glGetUniformLocation program name).

Definition quad_vbo := "quad_vbo".
Definition tri_vbo := "tri_vbo".
Definition quad_buffer := "quad_buffer".

Module SharedObject.
Definition billboardvbo := "SharedObject::billboardvbo".
Definition cubevbo := "SharedObject::cubevbo".
Definition cubeindexes := "SharedObject::cubeindexes".
Definition frustrumvbo := "SharedObject::frustrumvbo".
Definition frustrumindexes := "SharedObject::frustrumindexes".
Definition ViewProjectionMatrixesUBO := "SharedObject::ViewProjectionMatrixesUBO".
End SharedObject.

Definition initQuadVBO : G unit :=
  let quad_vertex := [
    -1; -1; 0; 0;
    -1; 1; 0; 1;
    1; -1; 1; 0;
    1; 1; 1; 1 ]%Q in
  b <- quad_vbo :== glGenBuffers 1;
  glBindBuffer GL_ARRAY_BUFFER b;;
  glBufferData GL_ARRAY_BUFFER (16 * sizeof_float) (float_data quad_vertex) GL_STATIC_DRAW;;
  glBindBuffer GL_ARRAY_BUFFER 0;;
  let tri_vertex := [
    -1; -1;
    -1; 3;
    3; -1 ]%Q in
  b <- tri_vbo :== glGenBuffers 1;
  glBindBuffer GL_ARRAY_BUFFER b;;
  glBufferData GL_ARRAY_BUFFER (6 * sizeof_float) (float_data tri_vertex) GL_STATIC_DRAW;;
  glBindBuffer GL_ARRAY_BUFFER 0.

Definition initQuadBuffer : G unit :=
  let quad_vertex := [
    -1; -1; -1; 1;
    -1; 1; -1; -1;
    1; -1; 1; 1;
    1; 1; 1; -1 ]%Q in
  b <- quad_buffer :== glGenBuffers 1;
  glBindBuffer GL_ARRAY_BUFFER b;;
  glBufferData GL_ARRAY_BUFFER (16 * sizeof_float) (float_data quad_vertex) GL_STATIC_DRAW.

Definition initBillboardVBO : G unit :=
  let quad := [
    -0.5; -0.5; 0; 1;
    -0.5; 0.5; 0; 0;
    0.5; -0.5; 1; 1;
    0.5; 0.5; 1; 0 ]%Q in
  b <- SharedObject.billboardvbo :== glGenBuffers 1;
  glBindBuffer GL_ARRAY_BUFFER b;;
  glBufferData GL_ARRAY_BUFFER (16 * sizeof_float) (float_data quad) GL_STATIC_DRAW.

Definition initCubeVBO : G unit :=
  let corners := [
    (* top side *)
    1; 1; -1;
    1; 1; 1;
    -1; 1; 1;
    -1; 1; -1;
    (* bottom side *)
    1; -1; 1;
    1; -1; -1;
    -1; -1; -1;
    -1; -1; 1;
    (* right side *)
    1; -1; -1;
    1; -1; 1;
    1; 1; 1;
    1; 1; -1;
    (* left side *)
    -1; -1; 1;
    -1; -1; -1;
    -1; 1; -1;
    -1; 1; 1;
    (* back side *)
    -1; -1; -1;
    1; -1; -1;
    1; 1; -1;
    -1; 1; -1;
    (* front side *)
    1; -1; 1;
    -1; -1; 1;
    -1; 1; 1;
    1; 1; 1 ]%Q in
  let indices := [
    0; 1; 2; 2; 3; 0;
    4; 5; 6; 6; 7; 4;
    8; 9; 10; 10; 11; 8;
    12; 13; 14; 14; 15; 12;
    16; 17; 18; 18; 19; 16;
    20; 21; 22; 22; 23; 20 ] in
  b <- SharedObject.cubevbo :== glGenBuffers 1;
  glBindBuffer GL_ARRAY_BUFFER b;;
  glBufferData GL_ARRAY_BUFFER (6 * 4 * 3 * sizeof_float) (float_data corners) GL_STATIC_DRAW;;
  b <- SharedObject.cubeindexes :== glGenBuffers 1;
  glBindBuffer GL_ELEMENT_ARRAY_BUFFER b;;
  glBufferData GL_ELEMENT_ARRAY_BUFFER (6 * 6 * sizeof_int) (int_data indices) GL_STATIC_DRAW.

Definition initFrustrumVBO : G unit :=
  b <- SharedObject.frustrumvbo :== glGenBuffers 1;
  glBindBuffer GL_ARRAY_BUFFER b;;
  glBufferData GL_ARRAY_BUFFER (8 * 3 * sizeof_float) null_data GL_DYNAMIC_DRAW;;
  let indices := [
    0; 1; 1; 3; 3; 2; 2; 0;
    4; 5; 5; 7; 7; 6; 6; 4;
    0; 4; 1; 5; 2; 6; 3; 7 ] in
  b <- SharedObject.frustrumindexes :== glGenBuffers 1;
  glBindBuffer GL_ELEMENT_ARRAY_BUFFER b;;
  glBufferData GL_ELEMENT_ARRAY_BUFFER (12 * 2 * sizeof_int) (int_data indices) GL_STATIC_DRAW.

Definition initShadowVPMUBO : G unit :=
  b <- SharedObject.ViewProjectionMatrixesUBO :== glGenBuffers 1;
  glBindBuffer GL_UNIFORM_BUFFER b;;
  glBufferData GL_UNIFORM_BUFFER ((16 * 8 + 2) * sizeof_float) null_data GL_STATIC_DRAW;;
  glBindBuffer GL_UNIFORM_BUFFER 0.

Definition bypassUBO (Program : GLuint) : G unit :=
  VM <- glGetUniformLocation Program "ViewMatrix";
  m <- ask getViewMatrix;
  glUniformMatrix4fv VM 1 GL_FALSE m;;
  PM <- glGetUniformLocation Program "ProjectionMatrix";
  m <- ask getProjMatrix;
  glUniformMatrix4fv PM 1 GL_FALSE m;;
  IVM <- glGetUniformLocation Program "InverseViewMatrix";
  m <- ask getInvViewMatrix;
  glUniformMatrix4fv IVM 1 GL_FALSE m;;
  IPM <- glGetUniformLocation Program "InverseProjectionMatrix";
  m <- ask getInvProjMatrix;
  glUniformMatrix4fv IPM 1 GL_FALSE m;;
  Screen <- glGetUniformLocation Program "screen";
  size <- ask getCurrentScreenSize;
  glUniform2f Screen (X size) (Y size).

Definition needsUBO : G bool := irr_driver_needUBOWorkaround.

(** ** namespace UtilShader *)

Module UtilShader.

Module ColoredLine.
Definition Program := "UtilShader::ColoredLine::Program".
Definition uniform_color := "UtilShader::ColoredLine::uniform_color".
Definition vao := "UtilShader::ColoredLine::vao".
Definition vbo := "UtilShader::ColoredLine::vbo".

Definition init : G unit :=
  getAsset <- ask getAsset;
  P <- Program :== LoadProgram [
    (GL_VERTEX_SHADER, getAsset "shaders/object_pass.vert");
    (GL_FRAGMENT_SHADER, getAsset "shaders/coloredquad.frag")];
  a <- vao :== glGenVertexArrays 1;
  glBindVertexArray a;;
  b <- vbo :== glGenBuffers 1;
  glBindBuffer GL_ARRAY_BUFFER b;;
  glBufferData GL_ARRAY_BUFFER (6 * 1024 * sizeof_float) null_data GL_DYNAMIC_DRAW;;
  attrib_position <- as_GLuint (glGetAttribLocation P "Position");
  glEnableVertexAttribArray attrib_position;;
  glVertexAttribPointer attrib_position 3 GL_FLOAT GL_FALSE (3 * sizeof_float) 0;;
  (uniform_color ::= glGetUniformLocation P "color");;
  uniform_ViewProjectionMatrixesUBO <- glGetUniformBlockIndex P "MatrixesData";
  glUniformBlockBinding P uniform_ViewProjectionMatrixesUBO 0.

Definition setUniforms (col : SColor) : G unit :=
  workaround <- irr_driver_needUBOWorkaround;
  P <- load Program;
  (if workaround : bool then bypassUBO P else ret tt);;
  c <- load uniform_color;
  glUniform4i c (getRed col) (getGreen col) (getBlue col) (getAlpha col);;
  P <- load Program;
  l <- glGetUniformLocation P "ModelMatrix";
  glUniformMatrix4fv l 1 GL_FALSE IdentityMatrix.
End ColoredLine.

Record TexUnit := MkTexUnit {
  m_index : GLuint;
  m_uniform : string;
}.

(** [TexUnits(curr, rest...)] and [VTexUnits(v, curr, rest...)]: the
    arguments are pushed onto the vector in order. *)
Fixpoint VTexUnits (v : list TexUnit) (args : list TexUnit) : list TexUnit :=
  match args with
  | [] => v
  | curr :: rest => VTexUnits (v ++ [curr]) rest
  end.

Definition TexUnits (curr : TexUnit) (rest : list TexUnit) : list TexUnit :=
  VTexUnits ([] ++ [curr]) rest.

(** [AssignTextureUnit_Sub(Program, rest...)]: the overload without a
    texture unit does nothing, the variadic one handles the first unit
    and recurses on the others. *)
Fixpoint AssignTextureUnit_Sub (Program : GLuint) (args : list TexUnit) : G unit :=
  match args with
  | [] => ret tt
  | texUnit :: rest =>
      uniform <- as_GLuint (glGetUniformLocation Program (m_uniform texUnit));
      glUniform1i uniform (m_index texUnit);;
      AssignTextureUnit_Sub Program rest
  end.

(** [AssignTextureUnit(Program, texUnit)] *)
Definition AssignTextureUnit1 (Program : GLuint) (texUnit : TexUnit) : G unit :=
  glUseProgram Program;;
  uniform <- as_GLuint (glGetUniformLocation Program (m_uniform texUnit));
  glUniform1i uniform (m_index texUnit);;
  glUseProgram 0.

(** [AssignTextureUnit(Program, texUnit, rest...)] *)
Definition AssignTextureUnitN (Program : GLuint) (texUnit : TexUnit)
    (rest : list TexUnit) : G unit :=
  glUseProgram Program;;
  uniform <- as_GLuint (glGetUniformLocation Program (m_uniform texUnit));
  glUniform1i uniform (m_index texUnit);;
  AssignTextureUnit_Sub Program rest;;
  glUseProgram 0.

(** Overload resolution: a call with one texture unit selects the
    non-template function, a call with more the variadic template. *)
Definition AssignTextureUnit (Program : GLuint) (texUnit : TexUnit)
    (rest : list TexUnit) : G unit :=
  match rest with
  | [] => AssignTextureUnit1 Program texUnit
  | _ :: _ => AssignTextureUnitN Program texUnit rest
  end.

End UtilShader.
Export UtilShader.

(** ** Shader classes derived from ShaderHelper *)

(** The classes whose constructor this file defines are singletons derived
    from the template [ShaderHelper] of shaders.hpp.  An object is given by
    the members its constructor assigns: [Program], the vector [uniforms],
    the texture-unit members [TU_*] (by name) and [vao].  [None] stands for
    a member that the constructor left unassigned. *)
Record Shader := MkShader {
  Program : option GLuint;
  uniforms : list GLuint;
  TU : list (string * GLuint);
  vao : option GLuint;
}.

(** The object a constructor leaves behind when it returns at once. *)
Definition unassigned : Shader := MkShader None [] [] None.

(** Modelled from the spec: [ShaderHelper::AssignUniforms] is declared in
    shaders.hpp, which is not among the sources.  Following section 4.2,
    "given a built program and an ordered list of uniform names, resolves
    and caches their locations, preserving the declaration order": each
    name is looked up with [getUniformLocation] and its location is pushed
    onto [uniforms]. *)
Fixpoint AssignUniforms_from (Program : GLuint) (names : list string)
    (uniforms : list GLuint) : G (list GLuint) :=
  match names with
  | [] => ret uniforms
  | name :: rest =>
      l <- getUniformLocation Program name;
      AssignUniforms_from Program rest (uniforms ++ [l])
  end.

Definition AssignUniforms (Program : GLuint) (names : list string)
  : G (list GLuint) :=
  AssignUniforms_from Program names [].

(** ** namespace MeshShader *)

Module MeshShader.
Definition ObjectPass1Shader : G Shader :=
  getAsset <- ask getAsset;
  Program <- LoadProgram [
    (GL_VERTEX_SHADER, getAsset "shaders/object_pass.vert");
    (GL_FRAGMENT_SHADER, getAsset "shaders/utils/encode_normal.frag");
    (GL_FRAGMENT_SHADER, getAsset "shaders/object_pass1.frag")];
  uniforms <- AssignUniforms Program ["ModelMatrix"; "InverseModelMatrix"];
  uniform_ViewProjectionMatrixesUBO <- glGetUniformBlockIndex Program "MatrixesData";
  glUniformBlockBinding Program uniform_ViewProjectionMatrixesUBO 0;;
  let TU_tex := 0 in
  AssignTextureUnit Program (MkTexUnit TU_tex "tex") [];;
  ret (MkShader (Some Program) uniforms [("TU_tex", TU_tex)] None).

Definition ObjectRefPass1Shader : G Shader :=
  getAsset <- ask getAsset;
  Program <- LoadProgram [
    (GL_VERTEX_SHADER, getAsset "shaders/object_pass.vert");
    (GL_FRAGMENT_SHADER, getAsset "shaders/utils/encode_normal.frag");
    (GL_FRAGMENT_SHADER, getAsset "shaders/objectref_pass1.frag")];
  uniforms <- AssignUniforms Program ["ModelMatrix"; "InverseModelMatrix"; "TextureMatrix"];
  uniform_ViewProjectionMatrixesUBO <- glGetUniformBlockIndex Program "MatrixesData";
  glUniformBlockBinding Program uniform_ViewProjectionMatrixesUBO 0;;
  let TU_tex := 0 in
  AssignTextureUnit Program (MkTexUnit TU_tex "tex") [];;
  ret (MkShader (Some Program) uniforms [("TU_tex", TU_tex)] None).

Definition GrassPass1Shader : G Shader :=
  getAsset <- ask getAsset;
  Program <- LoadProgram [
    (GL_VERTEX_SHADER, getAsset "shaders/grass_pass.vert");
    (GL_FRAGMENT_SHADER, getAsset "shaders/utils/encode_normal.frag");
    (GL_FRAGMENT_SHADER, getAsset "shaders/objectref_pass1.frag")];
  uniforms <- AssignUniforms Program ["ModelMatrix"; "InverseModelMatrix"; "windDir"];
  let TU_tex := 0 in
  AssignTextureUnit Program (MkTexUnit TU_tex "tex") [];;
  ret (MkShader (Some Program) uniforms [("TU_tex", TU_tex)] None).

Definition NormalMapShader : G Shader :=
  getAsset <- ask getAsset;
  Program <- LoadProgram [
    (GL_VERTEX_SHADER, getAsset "shaders/normalmap.vert");
    (GL_FRAGMENT_SHADER, getAsset "shaders/utils/encode_normal.frag");
    (GL_FRAGMENT_SHADER, getAsset "shaders/normalmap.frag")];
  uniforms <- AssignUniforms Program ["ModelMatrix"; "InverseModelMatrix"];
  uniform_ViewProjectionMatrixesUBO <- glGetUniformBlockIndex Program "MatrixesData";
  glUniformBlockBinding Program uniform_ViewProjectionMatrixesUBO 0;;
  let TU_normalmap := 1 in
  let TU_glossy := 0 in
  AssignTextureUnit Program
    (MkTexUnit TU_normalmap "normalMap")
    [MkTexUnit TU_glossy "DiffuseForAlpha"];;
  ret (MkShader (Some Program) uniforms [("TU_normalmap", TU_normalmap); ("TU_glossy", TU_glossy)] None).

Definition InstancedObjectPass1Shader : G Shader :=
  getAsset <- ask getAsset;
  Program <- LoadProgram [
    (GL_VERTEX_SHADER, getAsset "shaders/utils/getworldmatrix.vert");
    (GL_VERTEX_SHADER, getAsset "shaders/instanced_object_pass.vert");
    (GL_FRAGMENT_SHADER, getAsset "shaders/utils/encode_normal.frag");
    (GL_FRAGMENT_SHADER, getAsset "shaders/object_pass1.frag")];
  let TU_tex := 0 in
  AssignTextureUnit Program (MkTexUnit TU_tex "tex") [];;
  uniform_ViewProjectionMatrixesUBO <- glGetUniformBlockIndex Program "MatrixesData";
  glUniformBlockBinding Program uniform_ViewProjectionMatrixesUBO 0;;
  ret (MkShader (Some Program) [] [("TU_tex", TU_tex)] None).

Definition InstancedObjectRefPass1Shader : G Shader :=
  getAsset <- ask getAsset;
  Program <- LoadProgram [
    (GL_VERTEX_SHADER, getAsset "shaders/utils/getworldmatrix.vert");
    (GL_VERTEX_SHADER, getAsset "shaders/instanced_object_pass.vert");
    (GL_FRAGMENT_SHADER, getAsset "shaders/utils/encode_normal.frag");
    (GL_FRAGMENT_SHADER, getAsset "shaders/objectref_pass1.frag")];
  let TU_tex := 0 in
  AssignTextureUnit Program (MkTexUnit TU_tex "tex") [];;
  uniform_ViewProjectionMatrixesUBO <- glGetUniformBlockIndex Program "MatrixesData";
  glUniformBlockBinding Program uniform_ViewProjectionMatrixesUBO 0;;
  ret (MkShader (Some Program) [] [("TU_tex", TU_tex)] None).

Definition InstancedGrassPass1Shader : G Shader :=
  getAsset <- ask getAsset;
  Program <- LoadProgram [
    (GL_VERTEX_SHADER, getAsset "shaders/utils/getworldmatrix.vert");
    (GL_VERTEX_SHADER, getAsset "shaders/instanced_grass.vert");
    (GL_FRAGMENT_SHADER, getAsset "shaders/utils/encode_normal.frag");
    (GL_FRAGMENT_SHADER, getAsset "shaders/objectref_pass1.frag")];
  uniforms <- AssignUniforms Program ["windDir"];
  let TU_tex := 0 in
  AssignTextureUnit Program (MkTexUnit TU_tex "tex") [];;
  uniform_ViewProjectionMatrixesUBO <- glGetUniformBlockIndex Program "MatrixesData";
  glUniformBlockBinding Program uniform_ViewProjectionMatrixesUBO 0;;
  ret (MkShader (Some Program) uniforms [("TU_tex", TU_tex)] None).

Definition ObjectPass2Shader : G Shader :=
  getAsset <- ask getAsset;
  Program <- LoadProgram [
    (GL_VERTEX_SHADER, getAsset "shaders/object_pass.vert");
    (GL_FRAGMENT_SHADER, getAsset "shaders/utils/getLightFactor.frag");
    (GL_FRAGMENT_SHADER, getAsset "shaders/object_pass2.frag")];
  uniforms <- AssignUniforms Program ["ModelMatrix"; "TextureMatrix"];
  uniform_ViewProjectionMatrixesUBO <- glGetUniformBlockIndex Program "MatrixesData";
  glUniformBlockBinding Program uniform_ViewProjectionMatrixesUBO 0;;
  let TU_Albedo := 3 in
  AssignTextureUnit Program
    (MkTexUnit 0 "DiffuseMap")
    [MkTexUnit 1 "SpecularMap";
     MkTexUnit 2 "SSAO";
     MkTexUnit TU_Albedo "Albedo"];;
  ret (MkShader (Some Program) uniforms [("TU_Albedo", TU_Albedo)] None).

Definition InstancedObjectPass2Shader : G Shader :=
  getAsset <- ask getAsset;
  Program <- LoadProgram [
    (GL_VERTEX_SHADER, getAsset "shaders/utils/getworldmatrix.vert");
    (GL_VERTEX_SHADER, getAsset "shaders/instanced_object_pass.vert");
    (GL_FRAGMENT_SHADER, getAsset "shaders/utils/getLightFactor.frag");
    (GL_FRAGMENT_SHADER, getAsset "shaders/object_pass2.frag")];
  uniforms <- AssignUniforms Program [];
  let TU_Albedo := 3 in
  AssignTextureUnit Program
    (MkTexUnit 0 "DiffuseMap")
    [MkTexUnit 1 "SpecularMap";
     MkTexUnit 2 "SSAO";
     MkTexUnit TU_Albedo "Albedo"];;
  uniform_ViewProjectionMatrixesUBO <- glGetUniformBlockIndex Program "MatrixesData";
  glUniformBlockBinding Program uniform_ViewProjectionMatrixesUBO 0;;
  ret (MkShader (Some Program) uniforms [("TU_Albedo", TU_Albedo)] None).

Definition InstancedObjectRefPass2Shader : G Shader :=
  getAsset <- ask getAsset;
  Program <- LoadProgram [
    (GL_VERTEX_SHADER, getAsset "shaders/utils/getworldmatrix.vert");
    (GL_VERTEX_SHADER, getAsset "shaders/instanced_object_pass.vert");
    (GL_FRAGMENT_SHADER, getAsset "shaders/utils/getLightFactor.frag");
    (GL_FRAGMENT_SHADER, getAsset "shaders/objectref_pass2.frag")];
  uniforms <- AssignUniforms Program [];
  let TU_Albedo := 3 in
  AssignTextureUnit Program
    (MkTexUnit 0 "DiffuseMap")
    [MkTexUnit 1 "SpecularMap";
     MkTexUnit 2 "SSAO";
     MkTexUnit TU_Albedo "Albedo"];;
  uniform_ViewProjectionMatrixesUBO <- glGetUniformBlockIndex Program "MatrixesData";
  glUniformBlockBinding Program uniform_ViewProjectionMatrixesUBO 0;;
  ret (MkShader (Some Program) uniforms [("TU_Albedo", TU_Albedo)] None).

Definition DetailledObjectPass2Shader : G Shader :=
  getAsset <- ask getAsset;
  Program <- LoadProgram [
    (GL_VERTEX_SHADER, getAsset "shaders/object_pass.vert");
    (GL_FRAGMENT_SHADER, getAsset "shaders/utils/getLightFactor.frag");
    (GL_FRAGMENT_SHADER, getAsset "shaders/detailledobject_pass2.frag")];
  uniforms <- AssignUniforms Program ["ModelMatrix"];
  uniform_ViewProjectionMatrixesUBO <- glGetUniformBlockIndex Program "MatrixesData";
  glUniformBlockBinding Program uniform_ViewProjectionMatrixesUBO 0;;
  let TU_Albedo := 3 in
  let TU_detail := 4 in
  AssignTextureUnit Program
    (MkTexUnit 0 "DiffuseMap")
    [MkTexUnit 1 "SpecularMap";
     MkTexUnit 2 "SSAO";
     MkTexUnit TU_Albedo "Albedo";
     MkTexUnit TU_detail "Detail"];;
  ret (MkShader (Some Program) uniforms [("TU_Albedo", TU_Albedo); ("TU_detail", TU_detail)] None).

Definition ObjectUnlitShader : G Shader :=
  getAsset <- ask getAsset;
  Program <- LoadProgram [
    (GL_VERTEX_SHADER, getAsset "shaders/object_pass.vert");
    (GL_FRAGMENT_SHADER, getAsset "shaders/object_unlit.frag")];
  uniforms <- AssignUniforms Program ["ModelMatrix"];
  uniform_ViewProjectionMatrixesUBO <- glGetUniformBlockIndex Program "MatrixesData";
  glUniformBlockBinding Program uniform_ViewProjectionMatrixesUBO 0;;
  let TU_tex := 3 in
  AssignTextureUnit Program (MkTexUnit TU_tex "tex") [];;
  ret (MkShader (Some Program) uniforms [("TU_tex", TU_tex)] None).

Definition ObjectRefPass2Shader : G Shader :=
  getAsset <- ask getAsset;
  Program <- LoadProgram [
    (GL_VERTEX_SHADER, getAsset "shaders/object_pass.vert");
    (GL_FRAGMENT_SHADER, getAsset "shaders/utils/getLightFactor.frag");
    (GL_FRAGMENT_SHADER, getAsset "shaders/objectref_pass2.frag")];
  uniforms <- AssignUniforms Program ["ModelMatrix"; "TextureMatrix"];
  uniform_ViewProjectionMatrixesUBO <- glGetUniformBlockIndex Program "MatrixesData";
  glUniformBlockBinding Program uniform_ViewProjectionMatrixesUBO 0;;
  let TU_Albedo := 3 in
  AssignTextureUnit Program
    (MkTexUnit 0 "DiffuseMap")
    [MkTexUnit 1 "SpecularMap";
     MkTexUnit 2 "SSAO";
     MkTexUnit TU_Albedo "Albedo"];;
  ret (MkShader (Some Program) uniforms [("TU_Albedo", TU_Albedo)] None).

Definition GrassPass2Shader : G Shader :=
  getAsset <- ask getAsset;
  Program <- LoadProgram [
    (GL_VERTEX_SHADER, getAsset "shaders/grass_pass.vert");
    (GL_FRAGMENT_SHADER, getAsset "shaders/utils/getLightFactor.frag");
    (GL_FRAGMENT_SHADER, getAsset "shaders/grass_pass2.frag")];
  uniforms <- AssignUniforms Program ["ModelMatrix"; "windDir"];
  let TU_Albedo := 3 in
  AssignTextureUnit Program
    (MkTexUnit 0 "DiffuseMap")
    [MkTexUnit 1 "SpecularMap";
     MkTexUnit 2 "SSAO";
     MkTexUnit TU_Albedo "Albedo"];;
  ret (MkShader (Some Program) uniforms [("TU_Albedo", TU_Albedo)] None).

Definition InstancedGrassPass2Shader : G Shader :=
  getAsset <- ask getAsset;
  Program <- LoadProgram [
    (GL_VERTEX_SHADER, getAsset "shaders/utils/getworldmatrix.vert");
    (GL_VERTEX_SHADER, getAsset "shaders/instanced_grass.vert");
    (GL_FRAGMENT_SHADER, getAsset "shaders/utils/getLightFactor.frag");
    (GL_FRAGMENT_SHADER, getAsset "shaders/grass_pass2.frag")];
  uniforms <- AssignUniforms Program ["windDir"; "SunDir"];
  let TU_Albedo := 3 in
  let TU_dtex := 4 in
  AssignTextureUnit Program
    (MkTexUnit 0 "DiffuseMap")
    [MkTexUnit 1 "SpecularMap";
     MkTexUnit 2 "SSAO";
     MkTexUnit TU_Albedo "Albedo";
     MkTexUnit TU_dtex "dtex"];;
  uniform_ViewProjectionMatrixesUBO <- glGetUniformBlockIndex Program "MatrixesData";
  glUniformBlockBinding Program uniform_ViewProjectionMatrixesUBO 0;;
  ret (MkShader (Some Program) uniforms [("TU_Albedo", TU_Albedo); ("TU_dtex", TU_dtex)] None).

Definition SphereMapShader : G Shader :=
  getAsset <- ask getAsset;
  Program <- LoadProgram [
    (GL_VERTEX_SHADER, getAsset "shaders/object_pass.vert");
    (GL_FRAGMENT_SHADER, getAsset "shaders/utils/getLightFactor.frag");
    (GL_FRAGMENT_SHADER, getAsset "shaders/utils/getPosFromUVDepth.frag");
    (GL_FRAGMENT_SHADER, getAsset "shaders/objectpass_spheremap.frag")];
  uniforms <- AssignUniforms Program ["ModelMatrix"; "InverseModelMatrix"];
  uniform_ViewProjectionMatrixesUBO <- glGetUniformBlockIndex Program "MatrixesData";
  glUniformBlockBinding Program uniform_ViewProjectionMatrixesUBO 0;;
  let TU_tex := 3 in
  AssignTextureUnit Program
    (MkTexUnit 0 "DiffuseMap")
    [MkTexUnit 1 "SpecularMap";
     MkTexUnit 2 "SSAO";
     MkTexUnit TU_tex "tex"];;
  ret (MkShader (Some Program) uniforms [("TU_tex", TU_tex)] None).

Definition SplattingShader : G Shader :=
  getAsset <- ask getAsset;
  Program <- LoadProgram [
    (GL_VERTEX_SHADER, getAsset "shaders/object_pass.vert");
    (GL_FRAGMENT_SHADER, getAsset "shaders/utils/getLightFactor.frag");
    (GL_FRAGMENT_SHADER, getAsset "shaders/splatting.frag")];
  uniforms <- AssignUniforms Program ["ModelMatrix"];
  let TU_tex_layout := 3 in
  let TU_tex_detail0 := 4 in
  let TU_tex_detail1 := 5 in
  let TU_tex_detail2 := 6 in
  let TU_tex_detail3 := 7 in
  AssignTextureUnit Program
    (MkTexUnit 0 "DiffuseMap")
    [MkTexUnit 1 "SpecularMap";
     MkTexUnit 2 "SSAO";
     MkTexUnit TU_tex_layout "tex_layout";
     MkTexUnit TU_tex_detail0 "tex_detail0";
     MkTexUnit TU_tex_detail1 "tex_detail1";
     MkTexUnit TU_tex_detail2 "tex_detail2";
     MkTexUnit TU_tex_detail3 "tex_detail3"];;
  ret (MkShader (Some Program) uniforms [("TU_tex_layout", TU_tex_layout); ("TU_tex_detail0", TU_tex_detail0); ("TU_tex_detail1", TU_tex_detail1); ("TU_tex_detail2", TU_tex_detail2); ("TU_tex_detail3", TU_tex_detail3)] None).

Module BubbleShader.
Definition Program := "MeshShader::BubbleShader::Program".
Definition uniform_MVP := "MeshShader::BubbleShader::uniform_MVP".
Definition uniform_tex := "MeshShader::BubbleShader::uniform_tex".
Definition uniform_time := "MeshShader::BubbleShader::uniform_time".
Definition uniform_transparency := "MeshShader::BubbleShader::uniform_transparency".

Definition init : G unit :=
  getAsset <- ask getAsset;
  Program' <- Program :== LoadProgram [
    (GL_VERTEX_SHADER, getAsset "shaders/bubble.vert");
    (GL_FRAGMENT_SHADER, getAsset "shaders/bubble.frag")];
  (uniform_MVP ::= glGetUniformLocation Program' "ModelViewProjectionMatrix");;
  (uniform_tex ::= glGetUniformLocation Program' "tex");;
  (uniform_time ::= glGetUniformLocation Program' "time");;
  (uniform_transparency ::= glGetUniformLocation Program' "transparency").

Definition setUniforms (ModelViewProjectionMatrix : matrix4) (TU_tex : Z)
    (time transparency : float) : G unit :=
  uniform_MVP' <- load uniform_MVP;
  glUniformMatrix4fv uniform_MVP' 1 GL_FALSE ModelViewProjectionMatrix;;
  uniform_tex' <- load uniform_tex;
  glUniform1i uniform_tex' TU_tex;;
  uniform_time' <- load uniform_time;
  glUniform1f uniform_time' time;;
  uniform_transparency' <- load uniform_transparency;
  glUniform1f uniform_transparency' transparency.
End BubbleShader.

Definition TransparentShader : G Shader :=
  getAsset <- ask getAsset;
  Program <- LoadProgram [
    (GL_VERTEX_SHADER, getAsset "shaders/object_pass.vert");
    (GL_FRAGMENT_SHADER, getAsset "shaders/transparent.frag")];
  uniforms <- AssignUniforms Program ["ModelMatrix"; "TextureMatrix"];
  uniform_ViewProjectionMatrixesUBO <- glGetUniformBlockIndex Program "MatrixesData";
  glUniformBlockBinding Program uniform_ViewProjectionMatrixesUBO 0;;
  let TU_tex := 0 in
  AssignTextureUnit Program (MkTexUnit TU_tex "tex") [];;
  ret (MkShader (Some Program) uniforms [("TU_tex", TU_tex)] None).

Definition TransparentFogShader : G Shader :=
  getAsset <- ask getAsset;
  Program <- LoadProgram [
    (GL_VERTEX_SHADER, getAsset "shaders/object_pass.vert");
    (GL_FRAGMENT_SHADER, getAsset "shaders/transparentfog.frag")];
  uniforms <- AssignUniforms Program ["ModelMatrix"; "TextureMatrix"; "fogmax"; "startH"; "endH"; "start"; "end"; "col"];
  uniform_ViewProjectionMatrixesUBO <- glGetUniformBlockIndex Program "MatrixesData";
  glUniformBlockBinding Program uniform_ViewProjectionMatrixesUBO 0;;
  let TU_tex := 0 in
  AssignTextureUnit Program (MkTexUnit TU_tex "tex") [];;
  ret (MkShader (Some Program) uniforms [("TU_tex", TU_tex)] None).

Definition BillboardShader : G Shader :=
  getAsset <- ask getAsset;
  Program <- LoadProgram [
    (GL_VERTEX_SHADER, getAsset "shaders/billboard.vert");
    (GL_FRAGMENT_SHADER, getAsset "shaders/billboard.frag")];
  uniform_ViewProjectionMatrixesUBO <- glGetUniformBlockIndex Program "MatrixesData";
  glUniformBlockBinding Program uniform_ViewProjectionMatrixesUBO 0;;
  uniforms <- AssignUniforms Program ["ModelViewMatrix"; "ProjectionMatrix"; "Position"; "Size"];
  let TU_tex := 0 in
  AssignTextureUnit Program (MkTexUnit TU_tex "tex") [];;
  ret (MkShader (Some Program) uniforms [("TU_tex", TU_tex)] None).

Definition ColorizeShader : G Shader :=
  getAsset <- ask getAsset;
  Program <- LoadProgram [
    (GL_VERTEX_SHADER, getAsset "shaders/object_pass.vert");
    (GL_FRAGMENT_SHADER, getAsset "shaders/colorize.frag")];
  uniforms <- AssignUniforms Program ["ModelMatrix"; "col"];
  uniform_ViewProjectionMatrixesUBO <- glGetUniformBlockIndex Program "MatrixesData";
  glUniformBlockBinding Program uniform_ViewProjectionMatrixesUBO 0;;
  ret (MkShader (Some Program) uniforms [] None).

Definition ShadowShader : G Shader :=
  getAsset <- ask getAsset;
  (* Geometry shader needed *)
  version <- irr_driver_getGLSLVersion;
  if version <? 150 then ret unassigned else
  layer <- irr_driver_hasVSLayerExtension;
  Program <- (if layer : bool then
    LoadProgram [
      (GL_VERTEX_SHADER, getAsset "shaders/shadow.vert");
      (GL_FRAGMENT_SHADER, getAsset "shaders/white.frag")]
  else
    LoadProgram [
      (GL_VERTEX_SHADER, getAsset "shaders/shadow.vert");
      (GL_GEOMETRY_SHADER, getAsset "shaders/shadow.geom");
      (GL_FRAGMENT_SHADER, getAsset "shaders/white.frag")]);
  uniforms <- AssignUniforms Program ["ModelMatrix"];
  uniform_ViewProjectionMatrixesUBO <- glGetUniformBlockIndex Program "MatrixesData";
  glUniformBlockBinding Program uniform_ViewProjectionMatrixesUBO 0;;
  ret (MkShader (Some Program) uniforms [] None).

Definition RSMShader : G Shader :=
  getAsset <- ask getAsset;
  Program <- LoadProgram [
    (GL_VERTEX_SHADER, getAsset "shaders/rsm.vert");
    (GL_FRAGMENT_SHADER, getAsset "shaders/rsm.frag")];
  let TU_tex := 0 in
  uniforms <- AssignUniforms Program ["RSMMatrix"; "ModelMatrix"; "TextureMatrix"];
  AssignTextureUnit Program (MkTexUnit TU_tex "tex") [];;
  uniform_ViewProjectionMatrixesUBO <- glGetUniformBlockIndex Program "MatrixesData";
  glUniformBlockBinding Program uniform_ViewProjectionMatrixesUBO 0;;
  ret (MkShader (Some Program) uniforms [("TU_tex", TU_tex)] None).

Definition SplattingRSMShader : G Shader :=
  getAsset <- ask getAsset;
  Program <- LoadProgram [
    (GL_VERTEX_SHADER, getAsset "shaders/rsm.vert");
    (GL_FRAGMENT_SHADER, getAsset "shaders/splatting_rsm.frag")];
  let TU_layout := 0 in
  let TU_detail0 := 1 in
  let TU_detail1 := 2 in
  let TU_detail2 := 3 in
  let TU_detail3 := 4 in
  uniforms <- AssignUniforms Program ["RSMMatrix"; "ModelMatrix"];
  AssignTextureUnit Program
    (MkTexUnit TU_layout "tex_layout")
    [MkTexUnit TU_detail0 "tex_detail0";
     MkTexUnit TU_detail1 "tex_detail1";
     MkTexUnit TU_detail2 "tex_detail2";
     MkTexUnit TU_detail3 "tex_detail3"];;
  uniform_ViewProjectionMatrixesUBO <- glGetUniformBlockIndex Program "MatrixesData";
  glUniformBlockBinding Program uniform_ViewProjectionMatrixesUBO 0;;
  ret (MkShader (Some Program) uniforms [("TU_layout", TU_layout); ("TU_detail0", TU_detail0); ("TU_detail1", TU_detail1); ("TU_detail2", TU_detail2); ("TU_detail3", TU_detail3)] None).

Definition InstancedShadowShader : G Shader :=
  getAsset <- ask getAsset;
  (* Geometry shader needed *)
  version <- irr_driver_getGLSLVersion;
  if version <? 150 then ret unassigned else
  layer <- irr_driver_hasVSLayerExtension;
  Program <- (if layer : bool then
    LoadProgram [
      (GL_VERTEX_SHADER, getAsset "shaders/utils/getworldmatrix.vert");
      (GL_VERTEX_SHADER, getAsset "shaders/instanciedshadow.vert");
      (GL_FRAGMENT_SHADER, getAsset "shaders/white.frag")]
  else
    LoadProgram [
      (GL_VERTEX_SHADER, getAsset "shaders/utils/getworldmatrix.vert");
      (GL_VERTEX_SHADER, getAsset "shaders/instanciedshadow.vert");
      (GL_GEOMETRY_SHADER, getAsset "shaders/shadow.geom");
      (GL_FRAGMENT_SHADER, getAsset "shaders/white.frag")]);
  uniform_ViewProjectionMatrixesUBO <- glGetUniformBlockIndex Program "MatrixesData";
  glUniformBlockBinding Program uniform_ViewProjectionMatrixesUBO 0;;
  ret (MkShader (Some Program) [] [] None).

Definition RefShadowShader : G Shader :=
  getAsset <- ask getAsset;
  (* Geometry shader needed *)
  version <- irr_driver_getGLSLVersion;
  if version <? 150 then ret unassigned else
  layer <- irr_driver_hasVSLayerExtension;
  Program <- (if layer : bool then
    LoadProgram [
      (GL_VERTEX_SHADER, getAsset "shaders/shadow.vert");
      (GL_FRAGMENT_SHADER, getAsset "shaders/object_unlit.frag")]
  else
    LoadProgram [
      (GL_VERTEX_SHADER, getAsset "shaders/shadow.vert");
      (GL_GEOMETRY_SHADER, getAsset "shaders/shadow.geom");
      (GL_FRAGMENT_SHADER, getAsset "shaders/object_unlit.frag")]);
  uniforms <- AssignUniforms Program ["ModelMatrix"];
  uniform_ViewProjectionMatrixesUBO <- glGetUniformBlockIndex Program "MatrixesData";
  glUniformBlockBinding Program uniform_ViewProjectionMatrixesUBO 0;;
  let TU_tex := 0 in
  AssignTextureUnit Program (MkTexUnit TU_tex "tex") [];;
  ret (MkShader (Some Program) uniforms [("TU_tex", TU_tex)] None).

Definition InstancedRefShadowShader : G Shader :=
  getAsset <- ask getAsset;
  (* Geometry shader needed *)
  version <- irr_driver_getGLSLVersion;
  if version <? 150 then ret unassigned else
  layer <- irr_driver_hasVSLayerExtension;
  Program <- (if layer : bool then
    LoadProgram [
      (GL_VERTEX_SHADER, getAsset "shaders/utils/getworldmatrix.vert");
      (GL_VERTEX_SHADER, getAsset "shaders/instanciedshadow.vert");
      (GL_FRAGMENT_SHADER, getAsset "shaders/object_unlit.frag")]
  else
    LoadProgram [
      (GL_VERTEX_SHADER, getAsset "shaders/utils/getworldmatrix.vert");
      (GL_VERTEX_SHADER, getAsset "shaders/instanciedshadow.vert");
      (GL_GEOMETRY_SHADER, getAsset "shaders/shadow.geom");
      (GL_FRAGMENT_SHADER, getAsset "shaders/object_unlit.frag")]);
  let TU_tex := 0 in
  AssignTextureUnit Program (MkTexUnit TU_tex "tex") [];;
  uniform_ViewProjectionMatrixesUBO <- glGetUniformBlockIndex Program "MatrixesData";
  glUniformBlockBinding Program uniform_ViewProjectionMatrixesUBO 0;;
  ret (MkShader (Some Program) [] [("TU_tex", TU_tex)] None).

Definition GrassShadowShader : G Shader :=
  getAsset <- ask getAsset;
  (* Geometry shader needed *)
  version <- irr_driver_getGLSLVersion;
  if version <? 150 then ret unassigned else
  layer <- irr_driver_hasVSLayerExtension;
  Program <- (if layer : bool then
    LoadProgram [
      (GL_VERTEX_SHADER, getAsset "shaders/shadow_grass.vert");
      (GL_FRAGMENT_SHADER, getAsset "shaders/object_unlit.frag")]
  else
    LoadProgram [
      (GL_VERTEX_SHADER, getAsset "shaders/shadow_grass.vert");
      (GL_GEOMETRY_SHADER, getAsset "shaders/shadow.geom");
      (GL_FRAGMENT_SHADER, getAsset "shaders/object_unlit.frag")]);
  uniforms <- AssignUniforms Program ["ModelMatrix"; "windDir"];
  uniform_ViewProjectionMatrixesUBO <- glGetUniformBlockIndex Program "MatrixesData";
  glUniformBlockBinding Program uniform_ViewProjectionMatrixesUBO 0;;
  let TU_tex := 0 in
  AssignTextureUnit Program (MkTexUnit TU_tex "tex") [];;
  ret (MkShader (Some Program) uniforms [("TU_tex", TU_tex)] None).

Definition InstancedGrassShadowShader : G Shader :=
  getAsset <- ask getAsset;
  (* Geometry shader needed *)
  version <- irr_driver_getGLSLVersion;
  if version <? 150 then ret unassigned else
  layer <- irr_driver_hasVSLayerExtension;
  Program <- (if layer : bool then
    LoadProgram [
      (GL_VERTEX_SHADER, getAsset "shaders/utils/getworldmatrix.vert");
      (GL_VERTEX_SHADER, getAsset "shaders/instanciedgrassshadow.vert");
      (GL_FRAGMENT_SHADER, getAsset "shaders/object_unlit.frag")]
  else
    LoadProgram [
      (GL_VERTEX_SHADER, getAsset "shaders/utils/getworldmatrix.vert");
      (GL_VERTEX_SHADER, getAsset "shaders/instanciedgrassshadow.vert");
      (GL_GEOMETRY_SHADER, getAsset "shaders/shadow.geom");
      (GL_FRAGMENT_SHADER, getAsset "shaders/object_unlit.frag")]);
  let TU_tex := 0 in
  AssignTextureUnit Program (MkTexUnit TU_tex "tex") [];;
  uniforms <- AssignUniforms Program ["windDir"];
  uniform_ViewProjectionMatrixesUBO <- glGetUniformBlockIndex Program "MatrixesData";
  glUniformBlockBinding Program uniform_ViewProjectionMatrixesUBO 0;;
  ret (MkShader (Some Program) uniforms [("TU_tex", TU_tex)] None).

Definition DisplaceMaskShader : G Shader :=
  getAsset <- ask getAsset;
  Program <- LoadProgram [
    (GL_VERTEX_SHADER, getAsset "shaders/displace.vert");
    (GL_FRAGMENT_SHADER, getAsset "shaders/white.frag")];
  uniforms <- AssignUniforms Program ["ModelMatrix"];
  uniform_ViewProjectionMatrixesUBO <- glGetUniformBlockIndex Program "MatrixesData";
  glUniformBlockBinding Program uniform_ViewProjectionMatrixesUBO 0;;
  ret (MkShader (Some Program) uniforms [] None).

Definition DisplaceShader : G Shader :=
  getAsset <- ask getAsset;
  Program <- LoadProgram [
    (GL_VERTEX_SHADER, getAsset "shaders/displace.vert");
    (GL_FRAGMENT_SHADER, getAsset "shaders/displace.frag")];
  uniforms <- AssignUniforms Program ["ModelMatrix"; "dir"; "dir2"];
  let TU_displacement_tex := 0 in
  let TU_color_tex := 1 in
  let TU_mask_tex := 2 in
  let TU_tex := 3 in
  AssignTextureUnit Program
    (MkTexUnit TU_displacement_tex "displacement_tex")
    [MkTexUnit TU_color_tex "color_tex";
     MkTexUnit TU_mask_tex "mask_tex";
     MkTexUnit TU_tex "tex"];;
  uniform_ViewProjectionMatrixesUBO <- glGetUniformBlockIndex Program "MatrixesData";
  glUniformBlockBinding Program uniform_ViewProjectionMatrixesUBO 0;;
  ret (MkShader (Some Program) uniforms [("TU_displacement_tex", TU_displacement_tex); ("TU_color_tex", TU_color_tex); ("TU_mask_tex", TU_mask_tex); ("TU_tex", TU_tex)] None).

Module SkyboxShader.
Definition Program := "MeshShader::SkyboxShader::Program".
Definition attrib_position := "MeshShader::SkyboxShader::attrib_position".
Definition uniform_MM := "MeshShader::SkyboxShader::uniform_MM".
Definition uniform_tex := "MeshShader::SkyboxShader::uniform_tex".
Definition cubevao := "MeshShader::SkyboxShader::cubevao".

Definition init : G unit :=
  getAsset <- ask getAsset;
  Program' <- Program :== LoadProgram [
    (GL_VERTEX_SHADER, getAsset "shaders/object_pass.vert");
    (GL_FRAGMENT_SHADER, getAsset "shaders/sky.frag")];
  attrib_position' <- attrib_position :== glGetAttribLocation Program' "Position";
  (uniform_MM ::= glGetUniformLocation Program' "ModelMatrix");;
  (uniform_tex ::= glGetUniformLocation Program' "tex");;
  uniform_ViewProjectionMatrixesUBO <- glGetUniformBlockIndex Program' "MatrixesData";
  glUniformBlockBinding Program' uniform_ViewProjectionMatrixesUBO 0;;
  cubevao' <- cubevao :== glGenVertexArrays 1;
  glBindVertexArray cubevao';;
  cubevbo <- load SharedObject.cubevbo;
  glBindBuffer GL_ARRAY_BUFFER cubevbo;;
  glEnableVertexAttribArray attrib_position';;
  glVertexAttribPointer attrib_position' 3 GL_FLOAT GL_FALSE (3 * sizeof_float) 0;;
  cubeindexes <- load SharedObject.cubeindexes;
  glBindBuffer GL_ELEMENT_ARRAY_BUFFER cubeindexes;;
  glBindVertexArray 0.

Definition setUniforms (ModelMatrix : matrix4) (screen : vector2df) (TU_tex : Z)
  : G unit :=
  workaround <- irr_driver_needUBOWorkaround;
  Program' <- load Program;
  (if workaround : bool then bypassUBO Program' else ret tt);;
  uniform_MM' <- load uniform_MM;
  glUniformMatrix4fv uniform_MM' 1 GL_FALSE ModelMatrix;;
  uniform_tex' <- load uniform_tex;
  glUniform1i uniform_tex' TU_tex.
End SkyboxShader.

Definition NormalVisualizer : G Shader :=
  getAsset <- ask getAsset;
  Program <- LoadProgram [
    (GL_VERTEX_SHADER, getAsset "shaders/object_pass.vert");
    (GL_GEOMETRY_SHADER, getAsset "shaders/normal_visualizer.geom");
    (GL_FRAGMENT_SHADER, getAsset "shaders/coloredquad.frag")];
  uniforms <- AssignUniforms Program ["ModelMatrix"; "InverseModelMatrix"; "color"];
  uniform_ViewProjectionMatrixesUBO <- glGetUniformBlockIndex Program "MatrixesData";
  glUniformBlockBinding Program uniform_ViewProjectionMatrixesUBO 0;;
  ret (MkShader (Some Program) uniforms [] None).

Module ViewFrustrumShader.
Definition Program := "MeshShader::ViewFrustrumShader::Program".
Definition attrib_position := "MeshShader::ViewFrustrumShader::attrib_position".
Definition uniform_color := "MeshShader::ViewFrustrumShader::uniform_color".
Definition uniform_idx := "MeshShader::ViewFrustrumShader::uniform_idx".
Definition frustrumvao := "MeshShader::ViewFrustrumShader::frustrumvao".

Definition init : G unit :=
  getAsset <- ask getAsset;
  Program' <- Program :== LoadProgram [
    (GL_VERTEX_SHADER, getAsset "shaders/frustrum.vert");
    (GL_FRAGMENT_SHADER, getAsset "shaders/coloredquad.frag")];
  attrib_position' <- attrib_position :== glGetAttribLocation Program' "Position";
  uniform_ViewProjectionMatrixesUBO <- glGetUniformBlockIndex Program' "MatrixesData";
  glUniformBlockBinding Program' uniform_ViewProjectionMatrixesUBO 0;;
  (uniform_color ::= glGetUniformLocation Program' "color");;
  (uniform_idx ::= glGetUniformLocation Program' "idx");;
  frustrumvao' <- frustrumvao :== glGenVertexArrays 1;
  glBindVertexArray frustrumvao';;
  frustrumvbo <- load SharedObject.frustrumvbo;
  glBindBuffer GL_ARRAY_BUFFER frustrumvbo;;
  glEnableVertexAttribArray attrib_position';;
  glVertexAttribPointer attrib_position' 3 GL_FLOAT GL_FALSE (3 * sizeof_float) 0;;
  frustrumindexes <- load SharedObject.frustrumindexes;
  glBindBuffer GL_ELEMENT_ARRAY_BUFFER frustrumindexes;;
  glBindVertexArray 0.
Definition setUniforms (color : SColor) (idx : Z) : G unit :=
  uniform_color' <- load uniform_color;
  glUniform4i uniform_color' (getRed color) (getGreen color) (getBlue color)
    (getAlpha color);;
  uniform_idx' <- load uniform_idx;
  glUniform1i uniform_idx' idx.
End ViewFrustrumShader.
End MeshShader.

(** ** namespace LightShader *)

Module LightShader.
Module PointLightShader.
Definition Program := "LightShader::PointLightShader::Program".
Definition attrib_Position := "LightShader::PointLightShader::attrib_Position".
Definition attrib_Color := "LightShader::PointLightShader::attrib_Color".
Definition attrib_Energy := "LightShader::PointLightShader::attrib_Energy".
Definition attrib_Radius := "LightShader::PointLightShader::attrib_Radius".
Definition uniform_ntex := "LightShader::PointLightShader::uniform_ntex".
Definition uniform_dtex := "LightShader::PointLightShader::uniform_dtex".
Definition uniform_spec := "LightShader::PointLightShader::uniform_spec".
Definition vbo := "LightShader::PointLightShader::vbo".
Definition vao := "LightShader::PointLightShader::vao".

Definition init : G unit :=
  getAsset <- ask getAsset;
  MAXLIGHT <- ask MAXLIGHT;
  sizeof_PointLightInfo <- ask sizeof_PointLightInfo;
  Program' <- Program :== LoadProgram [
    (GL_VERTEX_SHADER, getAsset "shaders/pointlight.vert");
    (GL_FRAGMENT_SHADER, getAsset "shaders/utils/decodeNormal.frag");
    (GL_FRAGMENT_SHADER, getAsset "shaders/utils/getSpecular.frag");
    (GL_FRAGMENT_SHADER, getAsset "shaders/utils/getPosFromUVDepth.frag");
    (GL_FRAGMENT_SHADER, getAsset "shaders/pointlight.frag")];
  attrib_Position' <- attrib_Position :== glGetAttribLocation Program' "Position";
  attrib_Color' <- attrib_Color :== glGetAttribLocation Program' "Color";
  attrib_Energy' <- attrib_Energy :== glGetAttribLocation Program' "Energy";
  attrib_Radius' <- attrib_Radius :== glGetAttribLocation Program' "Radius";
  (uniform_ntex ::= glGetUniformLocation Program' "ntex");;
  (uniform_dtex ::= glGetUniformLocation Program' "dtex");;
  (uniform_spec ::= glGetUniformLocation Program' "spec");;
  vao' <- vao :== glGenVertexArrays 1;
  glBindVertexArray vao';;
  vbo' <- vbo :== glGenBuffers 1;
  glBindBuffer GL_ARRAY_BUFFER vbo';;
  glBufferData GL_ARRAY_BUFFER (MAXLIGHT * sizeof_PointLightInfo) null_data GL_DYNAMIC_DRAW;;
  glEnableVertexAttribArray attrib_Position';;
  glVertexAttribPointer attrib_Position' 3 GL_FLOAT GL_FALSE sizeof_PointLightInfo 0;;
  glEnableVertexAttribArray attrib_Energy';;
  glVertexAttribPointer attrib_Energy' 1 GL_FLOAT GL_FALSE sizeof_PointLightInfo (3 * sizeof_float);;
  glEnableVertexAttribArray attrib_Color';;
  glVertexAttribPointer attrib_Color' 3 GL_FLOAT GL_FALSE sizeof_PointLightInfo (4 * sizeof_float);;
  glEnableVertexAttribArray attrib_Radius';;
  glVertexAttribPointer attrib_Radius' 1 GL_FLOAT GL_FALSE sizeof_PointLightInfo (7 * sizeof_float);;
  glVertexAttribDivisor attrib_Position' 1;;
  glVertexAttribDivisor attrib_Energy' 1;;
  glVertexAttribDivisor attrib_Color' 1;;
  glVertexAttribDivisor attrib_Radius' 1.

Definition setUniforms (screen : vector2df) (spec : Z) (TU_ntex TU_dtex : Z)
  : G unit :=
  workaround <- irr_driver_needUBOWorkaround;
  Program' <- load Program;
  (if workaround : bool then bypassUBO Program' else ret tt);;
  uniform_spec' <- load uniform_spec;
  glUniform1f uniform_spec' 200%Q;;
  uniform_ntex' <- load uniform_ntex;
  glUniform1i uniform_ntex' TU_ntex;;
  uniform_dtex' <- load uniform_dtex;
  glUniform1i uniform_dtex' TU_dtex.
End PointLightShader.
End LightShader.

(** ** namespace ParticleShader *)

Module ParticleShader.
Module SimpleSimulationShader.
Definition Program := "ParticleShader::SimpleSimulationShader::Program".
Definition attrib_position := "ParticleShader::SimpleSimulationShader::attrib_position".
Definition attrib_velocity := "ParticleShader::SimpleSimulationShader::attrib_velocity".
Definition attrib_lifetime := "ParticleShader::SimpleSimulationShader::attrib_lifetime".
Definition attrib_initial_position := "ParticleShader::SimpleSimulationShader::attrib_initial_position".
Definition attrib_initial_velocity := "ParticleShader::SimpleSimulationShader::attrib_initial_velocity".
Definition attrib_initial_lifetime := "ParticleShader::SimpleSimulationShader::attrib_initial_lifetime".
Definition attrib_size := "ParticleShader::SimpleSimulationShader::attrib_size".
Definition attrib_initial_size := "ParticleShader::SimpleSimulationShader::attrib_initial_size".
Definition uniform_sourcematrix := "ParticleShader::SimpleSimulationShader::uniform_sourcematrix".
Definition uniform_dt := "ParticleShader::SimpleSimulationShader::uniform_dt".
Definition uniform_level := "ParticleShader::SimpleSimulationShader::uniform_level".
Definition uniform_size_increase_factor := "ParticleShader::SimpleSimulationShader::uniform_size_increase_factor".

Definition init : G unit :=
  getAsset <- ask getAsset;
  let varyings := [
    "new_particle_position";
    "new_lifetime";
    "new_particle_velocity";
    "new_size" ] in
  Program' <- Program :== LoadTFBProgram (getAsset "shaders/pointemitter.vert") varyings 4;
  (uniform_dt ::= glGetUniformLocation Program' "dt");;
  (uniform_sourcematrix ::= glGetUniformLocation Program' "sourcematrix");;
  (uniform_level ::= glGetUniformLocation Program' "level");;
  (uniform_size_increase_factor ::= glGetUniformLocation Program' "size_increase_factor");;
  (attrib_position ::= glGetAttribLocation Program' "particle_position");;
  (attrib_lifetime ::= glGetAttribLocation Program' "lifetime");;
  (attrib_velocity ::= glGetAttribLocation Program' "particle_velocity");;
  (attrib_size ::= glGetAttribLocation Program' "size");;
  (attrib_initial_position ::= glGetAttribLocation Program' "particle_position_initial");;
  (attrib_initial_lifetime ::= glGetAttribLocation Program' "lifetime_initial");;
  (attrib_initial_velocity ::= glGetAttribLocation Program' "particle_velocity_initial");;
  (attrib_initial_size ::= glGetAttribLocation Program' "size_initial").
End SimpleSimulationShader.

Module HeightmapSimulationShader.
Definition Program := "ParticleShader::HeightmapSimulationShader::Program".
Definition attrib_position := "ParticleShader::HeightmapSimulationShader::attrib_position".
Definition attrib_velocity := "ParticleShader::HeightmapSimulationShader::attrib_velocity".
Definition attrib_lifetime := "ParticleShader::HeightmapSimulationShader::attrib_lifetime".
Definition attrib_initial_position := "ParticleShader::HeightmapSimulationShader::attrib_initial_position".
Definition attrib_initial_velocity := "ParticleShader::HeightmapSimulationShader::attrib_initial_velocity".
Definition attrib_initial_lifetime := "ParticleShader::HeightmapSimulationShader::attrib_initial_lifetime".
Definition attrib_size := "ParticleShader::HeightmapSimulationShader::attrib_size".
Definition attrib_initial_size := "ParticleShader::HeightmapSimulationShader::attrib_initial_size".
Definition uniform_sourcematrix := "ParticleShader::HeightmapSimulationShader::uniform_sourcematrix".
Definition uniform_dt := "ParticleShader::HeightmapSimulationShader::uniform_dt".
Definition uniform_level := "ParticleShader::HeightmapSimulationShader::uniform_level".
Definition uniform_size_increase_factor := "ParticleShader::HeightmapSimulationShader::uniform_size_increase_factor".
Definition uniform_track_x := "ParticleShader::HeightmapSimulationShader::uniform_track_x".
Definition uniform_track_z := "ParticleShader::HeightmapSimulationShader::uniform_track_z".
Definition uniform_track_x_len := "ParticleShader::HeightmapSimulationShader::uniform_track_x_len".
Definition uniform_track_z_len := "ParticleShader::HeightmapSimulationShader::uniform_track_z_len".
Definition uniform_heightmap := "ParticleShader::HeightmapSimulationShader::uniform_heightmap".

Definition init : G unit :=
  getAsset <- ask getAsset;
  let varyings := [
    "new_particle_position";
    "new_lifetime";
    "new_particle_velocity";
    "new_size" ] in
  Program' <- Program :== LoadTFBProgram (getAsset "shaders/particlesimheightmap.vert") varyings 4;
  (uniform_dt ::= glGetUniformLocation Program' "dt");;
  (uniform_sourcematrix ::= glGetUniformLocation Program' "sourcematrix");;
  (uniform_level ::= glGetUniformLocation Program' "level");;
  (uniform_size_increase_factor ::= glGetUniformLocation Program' "size_increase_factor");;
  (attrib_position ::= glGetAttribLocation Program' "particle_position");;
  (attrib_lifetime ::= glGetAttribLocation Program' "lifetime");;
  (attrib_velocity ::= glGetAttribLocation Program' "particle_velocity");;
  (attrib_size ::= glGetAttribLocation Program' "size");;
  (attrib_initial_position ::= glGetAttribLocation Program' "particle_position_initial");;
  (attrib_initial_lifetime ::= glGetAttribLocation Program' "lifetime_initial");;
  (attrib_initial_velocity ::= glGetAttribLocation Program' "particle_velocity_initial");;
  (attrib_initial_size ::= glGetAttribLocation Program' "size_initial");;
  (uniform_heightmap ::= glGetUniformLocation Program' "heightmap");;
  (uniform_track_x ::= glGetUniformLocation Program' "track_x");;
  (uniform_track_x_len ::= glGetUniformLocation Program' "track_x_len");;
  (uniform_track_z ::= glGetUniformLocation Program' "track_z");;
  (uniform_track_z_len ::= glGetUniformLocation Program' "track_z_len").
End HeightmapSimulationShader.

Module SimpleParticleRender.
Definition Program := "ParticleShader::SimpleParticleRender::Program".
Definition attrib_pos := "ParticleShader::SimpleParticleRender::attrib_pos".
Definition attrib_lf := "ParticleShader::SimpleParticleRender::attrib_lf".
Definition attrib_quadcorner := "ParticleShader::SimpleParticleRender::attrib_quadcorner".
Definition attrib_texcoord := "ParticleShader::SimpleParticleRender::attrib_texcoord".
Definition attrib_sz := "ParticleShader::SimpleParticleRender::attrib_sz".
Definition uniform_matrix := "ParticleShader::SimpleParticleRender::uniform_matrix".
Definition uniform_viewmatrix := "ParticleShader::SimpleParticleRender::uniform_viewmatrix".
Definition uniform_tex := "ParticleShader::SimpleParticleRender::uniform_tex".
Definition uniform_dtex := "ParticleShader::SimpleParticleRender::uniform_dtex".
Definition uniform_invproj := "ParticleShader::SimpleParticleRender::uniform_invproj".
Definition uniform_color_from := "ParticleShader::SimpleParticleRender::uniform_color_from".
Definition uniform_color_to := "ParticleShader::SimpleParticleRender::uniform_color_to".

(** [uniform_color_from != -1] compares an unsigned variable with -1:
    the constant is converted to unsigned. *)
Definition init : G unit :=
  getAsset <- ask getAsset;
  Program' <- Program :== LoadProgram [
    (GL_VERTEX_SHADER, getAsset "shaders/particle.vert");
    (GL_FRAGMENT_SHADER, getAsset "shaders/particle.frag")];
  (attrib_pos ::= glGetAttribLocation Program' "position");;
  (attrib_sz ::= glGetAttribLocation Program' "size");;
  (attrib_lf ::= glGetAttribLocation Program' "lifetime");;
  (attrib_quadcorner ::= glGetAttribLocation Program' "quadcorner");;
  (attrib_texcoord ::= glGetAttribLocation Program' "texcoord");;
  (uniform_matrix ::= glGetUniformLocation Program' "ProjectionMatrix");;
  (uniform_viewmatrix ::= glGetUniformLocation Program' "ViewMatrix");;
  (uniform_tex ::= glGetUniformLocation Program' "tex");;
  (uniform_invproj ::= glGetUniformLocation Program' "invproj");;
  (uniform_dtex ::= glGetUniformLocation Program' "dtex");;
  uniform_color_from' <- uniform_color_from :== glGetUniformLocation Program' "color_from";
  assert (negb (uniform_color_from' =? to_GLuint (-1)));;
  uniform_color_to' <- uniform_color_to :== glGetUniformLocation Program' "color_to";
  assert (negb (uniform_color_to' =? to_GLuint (-1))).
End SimpleParticleRender.

Module FlipParticleRender.
Definition Program := "ParticleShader::FlipParticleRender::Program".
Definition attrib_pos := "ParticleShader::FlipParticleRender::attrib_pos".
Definition attrib_lf := "ParticleShader::FlipParticleRender::attrib_lf".
Definition attrib_quadcorner := "ParticleShader::FlipParticleRender::attrib_quadcorner".
Definition attrib_texcoord := "ParticleShader::FlipParticleRender::attrib_texcoord".
Definition attrib_sz := "ParticleShader::FlipParticleRender::attrib_sz".
Definition attrib_rotationvec := "ParticleShader::FlipParticleRender::attrib_rotationvec".
Definition attrib_anglespeed := "ParticleShader::FlipParticleRender::attrib_anglespeed".
Definition uniform_matrix := "ParticleShader::FlipParticleRender::uniform_matrix".
Definition uniform_viewmatrix := "ParticleShader::FlipParticleRender::uniform_viewmatrix".
Definition uniform_tex := "ParticleShader::FlipParticleRender::uniform_tex".
Definition uniform_dtex := "ParticleShader::FlipParticleRender::uniform_dtex".
Definition uniform_invproj := "ParticleShader::FlipParticleRender::uniform_invproj".

Definition init : G unit :=
  getAsset <- ask getAsset;
  Program' <- Program :== LoadProgram [
    (GL_VERTEX_SHADER, getAsset "shaders/flipparticle.vert");
    (GL_FRAGMENT_SHADER, getAsset "shaders/particle.frag")];
  (attrib_pos ::= glGetAttribLocation Program' "position");;
  (attrib_sz ::= glGetAttribLocation Program' "size");;
  (attrib_lf ::= glGetAttribLocation Program' "lifetime");;
  (attrib_quadcorner ::= glGetAttribLocation Program' "quadcorner");;
  (attrib_texcoord ::= glGetAttribLocation Program' "texcoord");;
  (attrib_anglespeed ::= glGetAttribLocation Program' "anglespeed");;
  (attrib_rotationvec ::= glGetAttribLocation Program' "rotationvec");;
  (uniform_matrix ::= glGetUniformLocation Program' "ProjectionMatrix");;
  (uniform_viewmatrix ::= glGetUniformLocation Program' "ViewMatrix");;
  (uniform_tex ::= glGetUniformLocation Program' "tex");;
  (uniform_invproj ::= glGetUniformLocation Program' "invproj");;
  (uniform_dtex ::= glGetUniformLocation Program' "dtex").
Definition setUniforms (ViewMatrix ProjMatrix InvProjMatrix : matrix4)
    (width height : float) (TU_tex TU_dtex : Z) : G unit :=
  uniform_invproj' <- load uniform_invproj;
  glUniformMatrix4fv uniform_invproj' 1 GL_FALSE InvProjMatrix;;
  uniform_matrix' <- load uniform_matrix;
  m <- ask getProjMatrix;
  glUniformMatrix4fv uniform_matrix' 1 GL_FALSE m;;
  uniform_viewmatrix' <- load uniform_viewmatrix;
  m <- ask getViewMatrix;
  glUniformMatrix4fv uniform_viewmatrix' 1 GL_FALSE m;;
  uniform_tex' <- load uniform_tex;
  glUniform1i uniform_tex' TU_tex;;
  uniform_dtex' <- load uniform_dtex;
  glUniform1i uniform_dtex' TU_dtex.
End FlipParticleRender.
End ParticleShader.

(** ** createFullScreenVAO, createVAO *)

Definition createFullScreenVAO (Program : GLuint) : G GLuint :=
  vao <- glGenVertexArrays 1;
  glBindVertexArray vao;;
  attrib_position <- as_GLuint (glGetAttribLocation Program "Position");
  tri_vbo' <- load tri_vbo;
  glBindBuffer GL_ARRAY_BUFFER tri_vbo';;
  glEnableVertexAttribArray attrib_position;;
  glVertexAttribPointer attrib_position 2 GL_FLOAT GL_FALSE (2 * sizeof_float) 0;;
  glBindVertexArray 0;;
  ret vao.

Definition createVAO (Program : GLuint) : G GLuint :=
  vao <- glGenVertexArrays 1;
  glBindVertexArray vao;;
  attrib_position <- as_GLuint (glGetAttribLocation Program "Position");
  attrib_texcoord <- as_GLuint (glGetAttribLocation Program "Texcoord");
  quad_vbo' <- load quad_vbo;
  glBindBuffer GL_ARRAY_BUFFER quad_vbo';;
  glEnableVertexAttribArray attrib_position;;
  glEnableVertexAttribArray attrib_texcoord;;
  glVertexAttribPointer attrib_position 2 GL_FLOAT GL_FALSE (4 * sizeof_float) 0;;
  glVertexAttribPointer attrib_texcoord 2 GL_FLOAT GL_FALSE (4 * sizeof_float) (2 * sizeof_float);;
  glBindVertexArray 0;;
  ret vao.

(** ** namespace FullScreenShader *)

Module FullScreenShader.
Module BloomShader.
Definition Program := "FullScreenShader::BloomShader::Program".
Definition uniform_texture := "FullScreenShader::BloomShader::uniform_texture".
Definition vao := "FullScreenShader::BloomShader::vao".

Definition init : G unit :=
  getAsset <- ask getAsset;
  Program' <- Program :== LoadProgram [
    (GL_VERTEX_SHADER, getAsset "shaders/screenquad.vert");
    (GL_FRAGMENT_SHADER, getAsset "shaders/utils/getCIEXYZ.frag");
    (GL_FRAGMENT_SHADER, getAsset "shaders/bloom.frag")];
  (uniform_texture ::= glGetUniformLocation Program' "tex");;
  (vao ::= createFullScreenVAO Program').
Definition setUniforms (TU_tex : Z) : G unit :=
  uniform_texture' <- load uniform_texture;
  glUniform1i uniform_texture' TU_tex.
End BloomShader.

Module BloomBlendShader.
Definition Program := "FullScreenShader::BloomBlendShader::Program".
Definition uniform_tex_128 := "FullScreenShader::BloomBlendShader::uniform_tex_128".
Definition uniform_tex_256 := "FullScreenShader::BloomBlendShader::uniform_tex_256".
Definition uniform_tex_512 := "FullScreenShader::BloomBlendShader::uniform_tex_512".
Definition vao := "FullScreenShader::BloomBlendShader::vao".

Definition init : G unit :=
  getAsset <- ask getAsset;
  Program' <- Program :== LoadProgram [
    (GL_VERTEX_SHADER, getAsset "shaders/screenquad.vert");
    (GL_FRAGMENT_SHADER, getAsset "shaders/bloomblend.frag")];
  (uniform_tex_128 ::= glGetUniformLocation Program' "tex_128");;
  (uniform_tex_256 ::= glGetUniformLocation Program' "tex_256");;
  (uniform_tex_512 ::= glGetUniformLocation Program' "tex_512");;
  (vao ::= createFullScreenVAO Program').
Definition setUniforms (TU_tex_128 TU_tex_256 TU_tex_512 : Z) : G unit :=
  uniform_tex_128' <- load uniform_tex_128;
  glUniform1i uniform_tex_128' TU_tex_128;;
  uniform_tex_256' <- load uniform_tex_256;
  glUniform1i uniform_tex_256' TU_tex_256;;
  uniform_tex_512' <- load uniform_tex_512;
  glUniform1i uniform_tex_512' TU_tex_512.
End BloomBlendShader.

Definition ToneMapShader : G Shader :=
  getAsset <- ask getAsset;
  Program <- LoadProgram [
    (GL_VERTEX_SHADER, getAsset "shaders/screenquad.vert");
    (GL_FRAGMENT_SHADER, getAsset "shaders/utils/getRGBfromCIEXxy.frag");
    (GL_FRAGMENT_SHADER, getAsset "shaders/utils/getCIEXYZ.frag");
    (GL_FRAGMENT_SHADER, getAsset "shaders/tonemap.frag")];
  uniforms <- AssignUniforms Program [];
  let TU_tex := 0 in
  AssignTextureUnit Program (MkTexUnit TU_tex "text") [];;
  vao <- createFullScreenVAO Program;
  ret (MkShader (Some Program) uniforms [("TU_tex", TU_tex)] (Some vao)).

Definition DepthOfFieldShader : G Shader :=
  getAsset <- ask getAsset;
  Program <- LoadProgram [
    (GL_VERTEX_SHADER, getAsset "shaders/screenquad.vert");
    (GL_FRAGMENT_SHADER, getAsset "shaders/dof.frag")];
  let TU_tex := 0 in
  let TU_depth := 1 in
  uniforms <- AssignUniforms Program [];
  AssignTextureUnit Program
    (MkTexUnit TU_tex "tex")
    [MkTexUnit TU_depth "dtex"];;
  vao <- createFullScreenVAO Program;
  uniform_ViewProjectionMatrixesUBO <- glGetUniformBlockIndex Program "MatrixesData";
  glUniformBlockBinding Program uniform_ViewProjectionMatrixesUBO 0;;
  ret (MkShader (Some Program) uniforms [("TU_tex", TU_tex); ("TU_depth", TU_depth)] (Some vao)).

Definition SunLightShader : G Shader :=
  getAsset <- ask getAsset;
  Program <- LoadProgram [
    (GL_VERTEX_SHADER, getAsset "shaders/screenquad.vert");
    (GL_FRAGMENT_SHADER, getAsset "shaders/utils/decodeNormal.frag");
    (GL_FRAGMENT_SHADER, getAsset "shaders/utils/getSpecular.frag");
    (GL_FRAGMENT_SHADER, getAsset "shaders/utils/getPosFromUVDepth.frag");
    (GL_FRAGMENT_SHADER, getAsset "shaders/sunlight.frag")];
  let TU_ntex := 0 in
  let TU_dtex := 1 in
  AssignTextureUnit Program
    (MkTexUnit TU_ntex "ntex")
    [MkTexUnit TU_dtex "dtex"];;
  uniforms <- AssignUniforms Program ["direction"; "col"];
  vao <- createFullScreenVAO Program;
  uniform_ViewProjectionMatrixesUBO <- glGetUniformBlockIndex Program "MatrixesData";
  glUniformBlockBinding Program uniform_ViewProjectionMatrixesUBO 0;;
  ret (MkShader (Some Program) uniforms [("TU_ntex", TU_ntex); ("TU_dtex", TU_dtex)] (Some vao)).

Module DiffuseEnvMapShader.
Definition Program := "FullScreenShader::DiffuseEnvMapShader::Program".
Definition uniform_ntex := "FullScreenShader::DiffuseEnvMapShader::uniform_ntex".
Definition uniform_blueLmn := "FullScreenShader::DiffuseEnvMapShader::uniform_blueLmn".
Definition uniform_greenLmn := "FullScreenShader::DiffuseEnvMapShader::uniform_greenLmn".
Definition uniform_redLmn := "FullScreenShader::DiffuseEnvMapShader::uniform_redLmn".
Definition uniform_TVM := "FullScreenShader::DiffuseEnvMapShader::uniform_TVM".
Definition vao := "FullScreenShader::DiffuseEnvMapShader::vao".

Definition init : G unit :=
  getAsset <- ask getAsset;
  Program' <- Program :== LoadProgram [
    (GL_VERTEX_SHADER, getAsset "shaders/screenquad.vert");
    (GL_FRAGMENT_SHADER, getAsset "shaders/utils/decodeNormal.frag");
    (GL_FRAGMENT_SHADER, getAsset "shaders/diffuseenvmap.frag")];
  (uniform_ntex ::= glGetUniformLocation Program' "ntex");;
  (uniform_blueLmn ::= glGetUniformLocation Program' "blueLmn[0]");;
  (uniform_greenLmn ::= glGetUniformLocation Program' "greenLmn[0]");;
  (uniform_redLmn ::= glGetUniformLocation Program' "redLmn[0]");;
  (uniform_TVM ::= glGetUniformLocation Program' "TransposeViewMatrix");;
  (vao ::= createFullScreenVAO Program').
End DiffuseEnvMapShader.

Definition ShadowedSunLightShader : G Shader :=
  getAsset <- ask getAsset;
  Program <- LoadProgram [
    (GL_VERTEX_SHADER, getAsset "shaders/screenquad.vert");
    (GL_FRAGMENT_SHADER, getAsset "shaders/utils/decodeNormal.frag");
    (GL_FRAGMENT_SHADER, getAsset "shaders/utils/getSpecular.frag");
    (GL_FRAGMENT_SHADER, getAsset "shaders/utils/getPosFromUVDepth.frag");
    (GL_FRAGMENT_SHADER, getAsset "shaders/sunlightshadow.frag")];
  let TU_ntex := 0 in
  let TU_dtex := 1 in
  let TU_shadowtex := 2 in
  AssignTextureUnit Program
    (MkTexUnit TU_ntex "ntex")
    [MkTexUnit TU_dtex "dtex";
     MkTexUnit TU_shadowtex "shadowtex"];;
  uniforms <- AssignUniforms Program ["direction"; "col"];
  vao <- createFullScreenVAO Program;
  uniform_ViewProjectionMatrixesUBO <- glGetUniformBlockIndex Program "MatrixesData";
  glUniformBlockBinding Program uniform_ViewProjectionMatrixesUBO 0;;
  ret (MkShader (Some Program) uniforms [("TU_ntex", TU_ntex); ("TU_dtex", TU_dtex); ("TU_shadowtex", TU_shadowtex)] (Some vao)).

Definition RadianceHintsConstructionShader : G Shader :=
  getAsset <- ask getAsset;
  version <- irr_driver_getGLSLVersion;
  if version <? 150 then ret unassigned else
  layer <- irr_driver_hasVSLayerExtension;
  Program <- (if layer : bool then
    LoadProgram [
      (GL_VERTEX_SHADER, getAsset "shaders/slicedscreenquad.vert");
      (GL_FRAGMENT_SHADER, getAsset "shaders/rh.frag")]
  else
    LoadProgram [
      (GL_VERTEX_SHADER, getAsset "shaders/slicedscreenquad.vert");
      (GL_GEOMETRY_SHADER, getAsset "shaders/rhpassthrough.geom");
      (GL_FRAGMENT_SHADER, getAsset "shaders/rh.frag")]);
  uniforms <- AssignUniforms Program ["RSMMatrix"; "RHMatrix"; "extents"];
  let TU_ctex := 0 in
  let TU_ntex := 1 in
  let TU_dtex := 2 in
  AssignTextureUnit Program
    (MkTexUnit TU_ctex "ctex")
    [MkTexUnit TU_ntex "ntex";
     MkTexUnit TU_dtex "dtex"];;
  vao <- createFullScreenVAO Program;
  ret (MkShader (Some Program) uniforms
         [("TU_ctex", TU_ctex); ("TU_ntex", TU_ntex); ("TU_dtex", TU_dtex)] (Some vao)).

Module RHDebug.
Definition Program := "FullScreenShader::RHDebug::Program".
Definition uniform_extents := "FullScreenShader::RHDebug::uniform_extents".
Definition uniform_SHR := "FullScreenShader::RHDebug::uniform_SHR".
Definition uniform_SHG := "FullScreenShader::RHDebug::uniform_SHG".
Definition uniform_SHB := "FullScreenShader::RHDebug::uniform_SHB".
Definition uniform_RHMatrix := "FullScreenShader::RHDebug::uniform_RHMatrix".

Definition init : G unit :=
  getAsset <- ask getAsset;
  Program' <- Program :== LoadProgram [
    (GL_VERTEX_SHADER, getAsset "shaders/rhdebug.vert");
    (GL_FRAGMENT_SHADER, getAsset "shaders/rhdebug.frag")];
  (uniform_extents ::= glGetUniformLocation Program' "extents");;
  (uniform_SHR ::= glGetUniformLocation Program' "SHR");;
  (uniform_SHG ::= glGetUniformLocation Program' "SHG");;
  (uniform_SHB ::= glGetUniformLocation Program' "SHB");;
  (uniform_RHMatrix ::= glGetUniformLocation Program' "RHMatrix");;
  uniform_ViewProjectionMatrixesUBO <- glGetUniformBlockIndex Program' "MatrixesData";
  glUniformBlockBinding Program' uniform_ViewProjectionMatrixesUBO 0.
End RHDebug.

Definition GlobalIlluminationReconstructionShader : G Shader :=
  getAsset <- ask getAsset;
  Program <- LoadProgram [
    (GL_VERTEX_SHADER, getAsset "shaders/screenquad.vert");
    (GL_FRAGMENT_SHADER, getAsset "shaders/utils/decodeNormal.frag");
    (GL_FRAGMENT_SHADER, getAsset "shaders/utils/getPosFromUVDepth.frag");
    (GL_FRAGMENT_SHADER, getAsset "shaders/gi.frag")];
  uniforms <- AssignUniforms Program ["RHMatrix"; "InvRHMatrix"; "extents"];
  let TU_ntex := 0 in
  let TU_dtex := 1 in
  let TU_SHR := 2 in
  let TU_SHG := 3 in
  let TU_SHB := 4 in
  AssignTextureUnit Program
    (MkTexUnit TU_ntex "ntex")
    [MkTexUnit TU_dtex "dtex";
     MkTexUnit TU_SHR "SHR";
     MkTexUnit TU_SHG "SHG";
     MkTexUnit TU_SHB "SHB"];;
  vao <- createFullScreenVAO Program;
  uniform_ViewProjectionMatrixesUBO <- glGetUniformBlockIndex Program "MatrixesData";
  glUniformBlockBinding Program uniform_ViewProjectionMatrixesUBO 0;;
  ret (MkShader (Some Program) uniforms [("TU_ntex", TU_ntex); ("TU_dtex", TU_dtex); ("TU_SHR", TU_SHR); ("TU_SHG", TU_SHG); ("TU_SHB", TU_SHB)] (Some vao)).

Module Gaussian17TapHShader.
Definition Program := "FullScreenShader::Gaussian17TapHShader::Program".
Definition uniform_tex := "FullScreenShader::Gaussian17TapHShader::uniform_tex".
Definition uniform_depth := "FullScreenShader::Gaussian17TapHShader::uniform_depth".
Definition uniform_pixel := "FullScreenShader::Gaussian17TapHShader::uniform_pixel".
Definition vao := "FullScreenShader::Gaussian17TapHShader::vao".

Definition init : G unit :=
  getAsset <- ask getAsset;
  Program' <- Program :== LoadProgram [
    (GL_VERTEX_SHADER, getAsset "shaders/screenquad.vert");
    (GL_FRAGMENT_SHADER, getAsset "shaders/bilateralH.frag")];
  (uniform_tex ::= glGetUniformLocation Program' "tex");;
  (uniform_pixel ::= glGetUniformLocation Program' "pixel");;
  (uniform_depth ::= glGetUniformLocation Program' "depth");;
  (vao ::= createFullScreenVAO Program').
End Gaussian17TapHShader.

Module ComputeGaussian17TapHShader.
Definition Program := "FullScreenShader::ComputeGaussian17TapHShader::Program".
Definition uniform_source := "FullScreenShader::ComputeGaussian17TapHShader::uniform_source".
Definition uniform_depth := "FullScreenShader::ComputeGaussian17TapHShader::uniform_depth".
Definition uniform_dest := "FullScreenShader::ComputeGaussian17TapHShader::uniform_dest".

(** The body is compiled under [#if WIN32] only. *)
Definition init : G unit :=
  getAsset <- ask getAsset;
  win32 <- ask WIN32;
  if win32 : bool then
    version <- irr_driver_getGLSLVersion;
    if version <? 420 then ret tt else
    Program' <- Program :== LoadProgram [
      (GL_COMPUTE_SHADER, getAsset "shaders/bilateralH.comp")];
    (uniform_source ::= glGetUniformLocation Program' "source");;
    (uniform_depth ::= glGetUniformLocation Program' "depth");;
    (uniform_dest ::= glGetUniformLocation Program' "dest");;
    ret tt
  else ret tt.
End ComputeGaussian17TapHShader.

Module Gaussian6HBlurShader.
Definition Program := "FullScreenShader::Gaussian6HBlurShader::Program".
Definition uniform_tex := "FullScreenShader::Gaussian6HBlurShader::uniform_tex".
Definition uniform_pixel := "FullScreenShader::Gaussian6HBlurShader::uniform_pixel".
Definition vao := "FullScreenShader::Gaussian6HBlurShader::vao".

Definition init : G unit :=
  getAsset <- ask getAsset;
  Program' <- Program :== LoadProgram [
    (GL_VERTEX_SHADER, getAsset "shaders/screenquad.vert");
    (GL_FRAGMENT_SHADER, getAsset "shaders/gaussian6h.frag")];
  (uniform_tex ::= glGetUniformLocation Program' "tex");;
  (uniform_pixel ::= glGetUniformLocation Program' "pixel");;
  (vao ::= createFullScreenVAO Program').
End Gaussian6HBlurShader.

Module Gaussian3HBlurShader.
Definition Program := "FullScreenShader::Gaussian3HBlurShader::Program".
Definition uniform_tex := "FullScreenShader::Gaussian3HBlurShader::uniform_tex".
Definition uniform_pixel := "FullScreenShader::Gaussian3HBlurShader::uniform_pixel".
Definition vao := "FullScreenShader::Gaussian3HBlurShader::vao".

Definition init : G unit :=
  getAsset <- ask getAsset;
  Program' <- Program :== LoadProgram [
    (GL_VERTEX_SHADER, getAsset "shaders/screenquad.vert");
    (GL_FRAGMENT_SHADER, getAsset "shaders/gaussian3h.frag")];
  (uniform_tex ::= glGetUniformLocation Program' "tex");;
  (uniform_pixel ::= glGetUniformLocation Program' "pixel");;
  (vao ::= createFullScreenVAO Program').
End Gaussian3HBlurShader.

Module Gaussian17TapVShader.
Definition Program := "FullScreenShader::Gaussian17TapVShader::Program".
Definition uniform_tex := "FullScreenShader::Gaussian17TapVShader::uniform_tex".
Definition uniform_depth := "FullScreenShader::Gaussian17TapVShader::uniform_depth".
Definition uniform_pixel := "FullScreenShader::Gaussian17TapVShader::uniform_pixel".
Definition vao := "FullScreenShader::Gaussian17TapVShader::vao".

Definition init : G unit :=
  getAsset <- ask getAsset;
  Program' <- Program :== LoadProgram [
    (GL_VERTEX_SHADER, getAsset "shaders/screenquad.vert");
    (GL_FRAGMENT_SHADER, getAsset "shaders/bilateralV.frag")];
  (uniform_tex ::= glGetUniformLocation Program' "tex");;
  (uniform_pixel ::= glGetUniformLocation Program' "pixel");;
  (uniform_depth ::= glGetUniformLocation Program' "depth");;
  (vao ::= createFullScreenVAO Program').
End Gaussian17TapVShader.

Module ComputeGaussian17TapVShader.
Definition Program := "FullScreenShader::ComputeGaussian17TapVShader::Program".
Definition uniform_source := "FullScreenShader::ComputeGaussian17TapVShader::uniform_source".
Definition uniform_depth := "FullScreenShader::ComputeGaussian17TapVShader::uniform_depth".
Definition uniform_dest := "FullScreenShader::ComputeGaussian17TapVShader::uniform_dest".

(** The body is compiled under [#if WIN32] only. *)
Definition init : G unit :=
  getAsset <- ask getAsset;
  win32 <- ask WIN32;
  if win32 : bool then
    version <- irr_driver_getGLSLVersion;
    if version <? 420 then ret tt else
    Program' <- Program :== LoadProgram [
      (GL_COMPUTE_SHADER, getAsset "shaders/bilateralV.comp")];
    (uniform_source ::= glGetUniformLocation Program' "source");;
    (uniform_depth ::= glGetUniformLocation Program' "depth");;
    (uniform_dest ::= glGetUniformLocation Program' "dest");;
    ret tt
  else ret tt.
End ComputeGaussian17TapVShader.

Module Gaussian6VBlurShader.
Definition Program := "FullScreenShader::Gaussian6VBlurShader::Program".
Definition uniform_tex := "FullScreenShader::Gaussian6VBlurShader::uniform_tex".
Definition uniform_pixel := "FullScreenShader::Gaussian6VBlurShader::uniform_pixel".
Definition vao := "FullScreenShader::Gaussian6VBlurShader::vao".

Definition init : G unit :=
  getAsset <- ask getAsset;
  Program' <- Program :== LoadProgram [
    (GL_VERTEX_SHADER, getAsset "shaders/screenquad.vert");
    (GL_FRAGMENT_SHADER, getAsset "shaders/gaussian6v.frag")];
  (uniform_tex ::= glGetUniformLocation Program' "tex");;
  (uniform_pixel ::= glGetUniformLocation Program' "pixel");;
  (vao ::= createFullScreenVAO Program').
End Gaussian6VBlurShader.

Module Gaussian3VBlurShader.
Definition Program := "FullScreenShader::Gaussian3VBlurShader::Program".
Definition uniform_tex := "FullScreenShader::Gaussian3VBlurShader::uniform_tex".
Definition uniform_pixel := "FullScreenShader::Gaussian3VBlurShader::uniform_pixel".
Definition vao := "FullScreenShader::Gaussian3VBlurShader::vao".

Definition init : G unit :=
  getAsset <- ask getAsset;
  Program' <- Program :== LoadProgram [
    (GL_VERTEX_SHADER, getAsset "shaders/screenquad.vert");
    (GL_FRAGMENT_SHADER, getAsset "shaders/gaussian3v.frag")];
  (uniform_tex ::= glGetUniformLocation Program' "tex");;
  (uniform_pixel ::= glGetUniformLocation Program' "pixel");;
  (vao ::= createFullScreenVAO Program').
End Gaussian3VBlurShader.

Module PassThroughShader.
Definition Program := "FullScreenShader::PassThroughShader::Program".
Definition uniform_texture := "FullScreenShader::PassThroughShader::uniform_texture".
Definition vao := "FullScreenShader::PassThroughShader::vao".

Definition init : G unit :=
  getAsset <- ask getAsset;
  Program' <- Program :== LoadProgram [
    (GL_VERTEX_SHADER, getAsset "shaders/screenquad.vert");
    (GL_FRAGMENT_SHADER, getAsset "shaders/texturedquad.frag")];
  (uniform_texture ::= glGetUniformLocation Program' "texture");;
  (vao ::= createVAO Program').
End PassThroughShader.

Module LayerPassThroughShader.
Definition Program := "FullScreenShader::LayerPassThroughShader::Program".
Definition uniform_texture := "FullScreenShader::LayerPassThroughShader::uniform_texture".
Definition uniform_layer := "FullScreenShader::LayerPassThroughShader::uniform_layer".
Definition vao := "FullScreenShader::LayerPassThroughShader::vao".

Definition init : G unit :=
  getAsset <- ask getAsset;
  Program' <- Program :== LoadProgram [
    (GL_VERTEX_SHADER, getAsset "shaders/screenquad.vert");
    (GL_FRAGMENT_SHADER, getAsset "shaders/layertexturequad.frag")];
  (uniform_texture ::= glGetUniformLocation Program' "tex");;
  (uniform_layer ::= glGetUniformLocation Program' "layer");;
  (vao ::= createVAO Program').
End LayerPassThroughShader.

Definition LinearizeDepthShader : G Shader :=
  getAsset <- ask getAsset;
  Program <- LoadProgram [
    (GL_VERTEX_SHADER, getAsset "shaders/screenquad.vert");
    (GL_FRAGMENT_SHADER, getAsset "shaders/linearizedepth.frag")];
  uniforms <- AssignUniforms Program ["zn"; "zf"];
  let TU_tex := 0 in
  AssignTextureUnit Program (MkTexUnit TU_tex "texture") [];;
  vao <- createFullScreenVAO Program;
  ret (MkShader (Some Program) uniforms [("TU_tex", TU_tex)] (Some vao)).

Module GlowShader.
Definition Program := "FullScreenShader::GlowShader::Program".
Definition uniform_tex := "FullScreenShader::GlowShader::uniform_tex".
Definition vao := "FullScreenShader::GlowShader::vao".

Definition init : G unit :=
  getAsset <- ask getAsset;
  Program' <- Program :== LoadProgram [
    (GL_VERTEX_SHADER, getAsset "shaders/screenquad.vert");
    (GL_FRAGMENT_SHADER, getAsset "shaders/glow.frag")];
  (uniform_tex ::= glGetUniformLocation Program' "tex");;
  (vao ::= createVAO Program').
End GlowShader.

Definition SSAOShader : G Shader :=
  getAsset <- ask getAsset;
  Program <- LoadProgram [
    (GL_VERTEX_SHADER, getAsset "shaders/screenquad.vert");
    (GL_FRAGMENT_SHADER, getAsset "shaders/utils/decodeNormal.frag");
    (GL_FRAGMENT_SHADER, getAsset "shaders/utils/getPosFromUVDepth.frag");
    (GL_FRAGMENT_SHADER, getAsset "shaders/ssao.frag")];
  let TU_dtex := 0 in
  AssignTextureUnit Program (MkTexUnit TU_dtex "dtex") [];;
  uniforms <- AssignUniforms Program ["radius"; "k"; "sigma"];
  vao <- createFullScreenVAO Program;
  uniform_ViewProjectionMatrixesUBO <- glGetUniformBlockIndex Program "MatrixesData";
  glUniformBlockBinding Program uniform_ViewProjectionMatrixesUBO 0;;
  ret (MkShader (Some Program) uniforms [("TU_dtex", TU_dtex)] (Some vao)).

Definition FogShader : G Shader :=
  getAsset <- ask getAsset;
  Program <- LoadProgram [
    (GL_VERTEX_SHADER, getAsset "shaders/screenquad.vert");
    (GL_FRAGMENT_SHADER, getAsset "shaders/utils/getPosFromUVDepth.frag");
    (GL_FRAGMENT_SHADER, getAsset "shaders/fog.frag")];
  let TU_tex := 0 in
  uniforms <- AssignUniforms Program ["fogmax"; "startH"; "endH"; "start"; "end"; "col"];
  AssignTextureUnit Program (MkTexUnit TU_tex "tex") [];;
  vao <- createFullScreenVAO Program;
  uniform_ViewProjectionMatrixesUBO <- glGetUniformBlockIndex Program "MatrixesData";
  glUniformBlockBinding Program uniform_ViewProjectionMatrixesUBO 0;;
  ret (MkShader (Some Program) uniforms [("TU_tex", TU_tex)] (Some vao)).

Module MotionBlurShader.
Definition Program := "FullScreenShader::MotionBlurShader::Program".
Definition uniform_boost_amount := "FullScreenShader::MotionBlurShader::uniform_boost_amount".
Definition uniform_center := "FullScreenShader::MotionBlurShader::uniform_center".
Definition uniform_color_buffer := "FullScreenShader::MotionBlurShader::uniform_color_buffer".
Definition uniform_dtex := "FullScreenShader::MotionBlurShader::uniform_dtex".
Definition uniform_previous_viewproj := "FullScreenShader::MotionBlurShader::uniform_previous_viewproj".
Definition uniform_mask_radius := "FullScreenShader::MotionBlurShader::uniform_mask_radius".
Definition vao := "FullScreenShader::MotionBlurShader::vao".

Definition init : G unit :=
  getAsset <- ask getAsset;
  Program' <- Program :== LoadProgram [
    (GL_VERTEX_SHADER, getAsset "shaders/screenquad.vert");
    (GL_FRAGMENT_SHADER, getAsset "shaders/utils/getPosFromUVDepth.frag");
    (GL_FRAGMENT_SHADER, getAsset "shaders/motion_blur.frag")];
  (uniform_boost_amount ::= glGetUniformLocation Program' "boost_amount");;
  (uniform_center ::= glGetUniformLocation Program' "center");;
  (uniform_color_buffer ::= glGetUniformLocation Program' "color_buffer");;
  (uniform_mask_radius ::= glGetUniformLocation Program' "mask_radius");;
  (uniform_dtex ::= glGetUniformLocation Program' "dtex");;
  (uniform_previous_viewproj ::= glGetUniformLocation Program' "previous_viewproj");;
  (vao ::= createFullScreenVAO Program').
Definition setUniforms (boost_amount : float) (previousVP : matrix4)
    (center : vector2df) (mask_radius : float) (TU_cb TU_dtex : Z) : G unit :=
  uniform_previous_viewproj' <- load uniform_previous_viewproj;
  glUniformMatrix4fv uniform_previous_viewproj' 1 GL_FALSE previousVP;;
  uniform_boost_amount' <- load uniform_boost_amount;
  glUniform1f uniform_boost_amount' boost_amount;;
  uniform_center' <- load uniform_center;
  glUniform2f uniform_center' (X center) (Y center);;
  uniform_mask_radius' <- load uniform_mask_radius;
  glUniform1f uniform_mask_radius' mask_radius;;
  uniform_color_buffer' <- load uniform_color_buffer;
  glUniform1i uniform_color_buffer' TU_cb;;
  uniform_dtex' <- load uniform_dtex;
  glUniform1i uniform_dtex' TU_dtex.
End MotionBlurShader.

Module GodFadeShader.
Definition Program := "FullScreenShader::GodFadeShader::Program".
Definition uniform_tex := "FullScreenShader::GodFadeShader::uniform_tex".
Definition uniform_col := "FullScreenShader::GodFadeShader::uniform_col".
Definition vao := "FullScreenShader::GodFadeShader::vao".

Definition init : G unit :=
  getAsset <- ask getAsset;
  Program' <- Program :== LoadProgram [
    (GL_VERTEX_SHADER, getAsset "shaders/screenquad.vert");
    (GL_FRAGMENT_SHADER, getAsset "shaders/godfade.frag")];
  (uniform_tex ::= glGetUniformLocation Program' "tex");;
  (uniform_col ::= glGetUniformLocation Program' "col");;
  (vao ::= createVAO Program').
End GodFadeShader.

Module GodRayShader.
Definition Program := "FullScreenShader::GodRayShader::Program".
Definition uniform_tex := "FullScreenShader::GodRayShader::uniform_tex".
Definition uniform_sunpos := "FullScreenShader::GodRayShader::uniform_sunpos".
Definition vao := "FullScreenShader::GodRayShader::vao".

Definition init : G unit :=
  getAsset <- ask getAsset;
  Program' <- Program :== LoadProgram [
    (GL_VERTEX_SHADER, getAsset "shaders/screenquad.vert");
    (GL_FRAGMENT_SHADER, getAsset "shaders/godray.frag")];
  (uniform_tex ::= glGetUniformLocation Program' "tex");;
  (uniform_sunpos ::= glGetUniformLocation Program' "sunpos");;
  (vao ::= createVAO Program').
Definition setUniforms (sunpos : vector2df) (TU_tex : Z) : G unit :=
  uniform_sunpos' <- load uniform_sunpos;
  glUniform2f uniform_sunpos' (X sunpos) (Y sunpos);;
  uniform_tex' <- load uniform_tex;
  glUniform1i uniform_tex' TU_tex.
End GodRayShader.

Module MLAAColorEdgeDetectionSHader.
Definition Program := "FullScreenShader::MLAAColorEdgeDetectionSHader::Program".
Definition uniform_colorMapG := "FullScreenShader::MLAAColorEdgeDetectionSHader::uniform_colorMapG".
Definition uniform_PIXEL_SIZE := "FullScreenShader::MLAAColorEdgeDetectionSHader::uniform_PIXEL_SIZE".
Definition vao := "FullScreenShader::MLAAColorEdgeDetectionSHader::vao".

Definition init : G unit :=
  getAsset <- ask getAsset;
  Program' <- Program :== LoadProgram [
    (GL_VERTEX_SHADER, getAsset "shaders/mlaa_offset.vert");
    (GL_FRAGMENT_SHADER, getAsset "shaders/mlaa_color1.frag")];
  (uniform_colorMapG ::= glGetUniformLocation Program' "colorMapG");;
  (uniform_PIXEL_SIZE ::= glGetUniformLocation Program' "PIXEL_SIZE");;
  (vao ::= createVAO Program').
Definition setUniforms (PIXEL_SIZE : vector2df) (TU_colorMapG : Z) : G unit :=
  uniform_colorMapG' <- load uniform_colorMapG;
  glUniform1i uniform_colorMapG' TU_colorMapG;;
  uniform_PIXEL_SIZE' <- load uniform_PIXEL_SIZE;
  glUniform2f uniform_PIXEL_SIZE' (X PIXEL_SIZE) (Y PIXEL_SIZE).
End MLAAColorEdgeDetectionSHader.

Module MLAABlendWeightSHader.
Definition Program := "FullScreenShader::MLAABlendWeightSHader::Program".
Definition uniform_edgesMap := "FullScreenShader::MLAABlendWeightSHader::uniform_edgesMap".
Definition uniform_areaMap := "FullScreenShader::MLAABlendWeightSHader::uniform_areaMap".
Definition uniform_PIXEL_SIZE := "FullScreenShader::MLAABlendWeightSHader::uniform_PIXEL_SIZE".
Definition vao := "FullScreenShader::MLAABlendWeightSHader::vao".

Definition init : G unit :=
  getAsset <- ask getAsset;
  Program' <- Program :== LoadProgram [
    (GL_VERTEX_SHADER, getAsset "shaders/screenquad.vert");
    (GL_FRAGMENT_SHADER, getAsset "shaders/mlaa_blend2.frag")];
  (uniform_edgesMap ::= glGetUniformLocation Program' "edgesMap");;
  (uniform_areaMap ::= glGetUniformLocation Program' "areaMap");;
  (uniform_PIXEL_SIZE ::= glGetUniformLocation Program' "PIXEL_SIZE");;
  (vao ::= createVAO Program').
Definition setUniforms (PIXEL_SIZE : vector2df) (TU_edgesMap TU_areaMap : Z)
  : G unit :=
  uniform_edgesMap' <- load uniform_edgesMap;
  glUniform1i uniform_edgesMap' TU_edgesMap;;
  uniform_areaMap' <- load uniform_areaMap;
  glUniform1i uniform_areaMap' TU_areaMap;;
  uniform_PIXEL_SIZE' <- load uniform_PIXEL_SIZE;
  glUniform2f uniform_PIXEL_SIZE' (X PIXEL_SIZE) (Y PIXEL_SIZE).
End MLAABlendWeightSHader.

Module MLAAGatherSHader.
Definition Program := "FullScreenShader::MLAAGatherSHader::Program".
Definition uniform_colorMap := "FullScreenShader::MLAAGatherSHader::uniform_colorMap".
Definition uniform_blendMap := "FullScreenShader::MLAAGatherSHader::uniform_blendMap".
Definition uniform_PIXEL_SIZE := "FullScreenShader::MLAAGatherSHader::uniform_PIXEL_SIZE".
Definition vao := "FullScreenShader::MLAAGatherSHader::vao".

Definition init : G unit :=
  getAsset <- ask getAsset;
  Program' <- Program :== LoadProgram [
    (GL_VERTEX_SHADER, getAsset "shaders/mlaa_offset.vert");
    (GL_FRAGMENT_SHADER, getAsset "shaders/mlaa_neigh3.frag")];
  (uniform_colorMap ::= glGetUniformLocation Program' "colorMap");;
  (uniform_blendMap ::= glGetUniformLocation Program' "blendMap");;
  (uniform_PIXEL_SIZE ::= glGetUniformLocation Program' "PIXEL_SIZE");;
  (vao ::= createVAO Program').
Definition setUniforms (PIXEL_SIZE : vector2df) (TU_colormap TU_blendmap : Z)
  : G unit :=
  uniform_colorMap' <- load uniform_colorMap;
  glUniform1i uniform_colorMap' TU_colormap;;
  uniform_blendMap' <- load uniform_blendMap;
  glUniform1i uniform_blendMap' TU_blendmap;;
  uniform_PIXEL_SIZE' <- load uniform_PIXEL_SIZE;
  glUniform2f uniform_PIXEL_SIZE' (X PIXEL_SIZE) (Y PIXEL_SIZE).
End MLAAGatherSHader.
End FullScreenShader.

(** ** namespace UIShader *)

Module UIShader.
Module TextureRectShader.
Definition Program := "UIShader::TextureRectShader::Program".
Definition attrib_position := "UIShader::TextureRectShader::attrib_position".
Definition attrib_texcoord := "UIShader::TextureRectShader::attrib_texcoord".
Definition uniform_tex := "UIShader::TextureRectShader::uniform_tex".
Definition uniform_center := "UIShader::TextureRectShader::uniform_center".
Definition uniform_size := "UIShader::TextureRectShader::uniform_size".
Definition uniform_texcenter := "UIShader::TextureRectShader::uniform_texcenter".
Definition uniform_texsize := "UIShader::TextureRectShader::uniform_texsize".
Definition vao := "UIShader::TextureRectShader::vao".

Definition init : G unit :=
  getAsset <- ask getAsset;
  Program' <- Program :== LoadProgram [
    (GL_VERTEX_SHADER, getAsset "shaders/texturedquad.vert");
    (GL_FRAGMENT_SHADER, getAsset "shaders/texturedquad.frag")];
  attrib_position' <- attrib_position :== glGetAttribLocation Program' "position";
  attrib_texcoord' <- attrib_texcoord :== glGetAttribLocation Program' "texcoord";
  (uniform_tex ::= glGetUniformLocation Program' "tex");;
  (uniform_center ::= glGetUniformLocation Program' "center");;
  (uniform_size ::= glGetUniformLocation Program' "size");;
  (uniform_texcenter ::= glGetUniformLocation Program' "texcenter");;
  (uniform_texsize ::= glGetUniformLocation Program' "texsize");;
  vao' <- vao :== glGenVertexArrays 1;
  glBindVertexArray vao';;
  glEnableVertexAttribArray attrib_position';;
  glEnableVertexAttribArray attrib_texcoord';;
  quad_buffer' <- load quad_buffer;
  glBindBuffer GL_ARRAY_BUFFER quad_buffer';;
  glVertexAttribPointer attrib_position' 2 GL_FLOAT GL_FALSE (4 * sizeof_float) 0;;
  glVertexAttribPointer attrib_texcoord' 2 GL_FLOAT GL_FALSE (4 * sizeof_float) (2 * sizeof_float);;
  glBindVertexArray 0.
Definition setUniforms (center_pos_x center_pos_y width height tex_center_pos_x
    tex_center_pos_y tex_width tex_height : float) (TU_tex : Z) : G unit :=
  uniform_tex' <- load uniform_tex;
  glUniform1i uniform_tex' TU_tex;;
  uniform_center' <- load uniform_center;
  glUniform2f uniform_center' center_pos_x center_pos_y;;
  uniform_size' <- load uniform_size;
  glUniform2f uniform_size' width height;;
  uniform_texcenter' <- load uniform_texcenter;
  glUniform2f uniform_texcenter' tex_center_pos_x tex_center_pos_y;;
  uniform_texsize' <- load uniform_texsize;
  glUniform2f uniform_texsize' tex_width tex_height.
End TextureRectShader.

Module UniformColoredTextureRectShader.
Definition Program := "UIShader::UniformColoredTextureRectShader::Program".
Definition attrib_position := "UIShader::UniformColoredTextureRectShader::attrib_position".
Definition attrib_texcoord := "UIShader::UniformColoredTextureRectShader::attrib_texcoord".
Definition uniform_tex := "UIShader::UniformColoredTextureRectShader::uniform_tex".
Definition uniform_color := "UIShader::UniformColoredTextureRectShader::uniform_color".
Definition uniform_center := "UIShader::UniformColoredTextureRectShader::uniform_center".
Definition uniform_size := "UIShader::UniformColoredTextureRectShader::uniform_size".
Definition uniform_texcenter := "UIShader::UniformColoredTextureRectShader::uniform_texcenter".
Definition uniform_texsize := "UIShader::UniformColoredTextureRectShader::uniform_texsize".
Definition vao := "UIShader::UniformColoredTextureRectShader::vao".

Definition init : G unit :=
  getAsset <- ask getAsset;
  Program' <- Program :== LoadProgram [
    (GL_VERTEX_SHADER, getAsset "shaders/texturedquad.vert");
    (GL_FRAGMENT_SHADER, getAsset "shaders/uniformcolortexturedquad.frag")];
  attrib_position' <- attrib_position :== glGetAttribLocation Program' "position";
  attrib_texcoord' <- attrib_texcoord :== glGetAttribLocation Program' "texcoord";
  (uniform_tex ::= glGetUniformLocation Program' "tex");;
  (uniform_color ::= glGetUniformLocation Program' "color");;
  (uniform_center ::= glGetUniformLocation Program' "center");;
  (uniform_size ::= glGetUniformLocation Program' "size");;
  (uniform_texcenter ::= glGetUniformLocation Program' "texcenter");;
  (uniform_texsize ::= glGetUniformLocation Program' "texsize");;
  vao' <- vao :== glGenVertexArrays 1;
  glBindVertexArray vao';;
  glEnableVertexAttribArray attrib_position';;
  glEnableVertexAttribArray attrib_texcoord';;
  quad_buffer' <- load quad_buffer;
  glBindBuffer GL_ARRAY_BUFFER quad_buffer';;
  glVertexAttribPointer attrib_position' 2 GL_FLOAT GL_FALSE (4 * sizeof_float) 0;;
  glVertexAttribPointer attrib_texcoord' 2 GL_FLOAT GL_FALSE (4 * sizeof_float) (2 * sizeof_float);;
  glBindVertexArray 0.
Definition setUniforms (center_pos_x center_pos_y width height tex_center_pos_x
    tex_center_pos_y tex_width tex_height : float) (color : SColor) (TU_tex : Z)
  : G unit :=
  uniform_tex' <- load uniform_tex;
  glUniform1i uniform_tex' TU_tex;;
  uniform_center' <- load uniform_center;
  glUniform2f uniform_center' center_pos_x center_pos_y;;
  uniform_size' <- load uniform_size;
  glUniform2f uniform_size' width height;;
  uniform_texcenter' <- load uniform_texcenter;
  glUniform2f uniform_texcenter' tex_center_pos_x tex_center_pos_y;;
  uniform_texsize' <- load uniform_texsize;
  glUniform2f uniform_texsize' tex_width tex_height;;
  uniform_color' <- load uniform_color;
  glUniform4i uniform_color' (getRed color) (getGreen color) (getBlue color)
    (getAlpha color).
End UniformColoredTextureRectShader.

Module ColoredTextureRectShader.
Definition Program := "UIShader::ColoredTextureRectShader::Program".
Definition attrib_position := "UIShader::ColoredTextureRectShader::attrib_position".
Definition attrib_texcoord := "UIShader::ColoredTextureRectShader::attrib_texcoord".
Definition attrib_color := "UIShader::ColoredTextureRectShader::attrib_color".
Definition uniform_tex := "UIShader::ColoredTextureRectShader::uniform_tex".
Definition uniform_center := "UIShader::ColoredTextureRectShader::uniform_center".
Definition uniform_size := "UIShader::ColoredTextureRectShader::uniform_size".
Definition uniform_texcenter := "UIShader::ColoredTextureRectShader::uniform_texcenter".
Definition uniform_texsize := "UIShader::ColoredTextureRectShader::uniform_texsize".
Definition colorvbo := "UIShader::ColoredTextureRectShader::colorvbo".
Definition vao := "UIShader::ColoredTextureRectShader::vao".

Definition init : G unit :=
  getAsset <- ask getAsset;
  Program' <- Program :== LoadProgram [
    (GL_VERTEX_SHADER, getAsset "shaders/colortexturedquad.vert");
    (GL_FRAGMENT_SHADER, getAsset "shaders/colortexturedquad.frag")];
  attrib_position' <- attrib_position :== glGetAttribLocation Program' "position";
  attrib_texcoord' <- attrib_texcoord :== glGetAttribLocation Program' "texcoord";
  attrib_color' <- attrib_color :== glGetAttribLocation Program' "color";
  (uniform_tex ::= glGetUniformLocation Program' "tex");;
  (uniform_center ::= glGetUniformLocation Program' "center");;
  (uniform_size ::= glGetUniformLocation Program' "size");;
  (uniform_texcenter ::= glGetUniformLocation Program' "texcenter");;
  (uniform_texsize ::= glGetUniformLocation Program' "texsize");;
  vao' <- vao :== glGenVertexArrays 1;
  glBindVertexArray vao';;
  glEnableVertexAttribArray attrib_position';;
  glEnableVertexAttribArray attrib_texcoord';;
  glEnableVertexAttribArray attrib_color';;
  quad_buffer' <- load quad_buffer;
  glBindBuffer GL_ARRAY_BUFFER quad_buffer';;
  glVertexAttribPointer attrib_position' 2 GL_FLOAT GL_FALSE (4 * sizeof_float) 0;;
  glVertexAttribPointer attrib_texcoord' 2 GL_FLOAT GL_FALSE (4 * sizeof_float) (2 * sizeof_float);;
  let quad_color := [
    0; 0; 0; 255;
    255; 0; 0; 255;
    0; 255; 0; 255;
    0; 0; 255; 255 ] in
  colorvbo' <- colorvbo :== glGenBuffers 1;
  glBindBuffer GL_ARRAY_BUFFER colorvbo';;
  glBufferData GL_ARRAY_BUFFER (16 * sizeof_unsigned) (int_data quad_color) GL_DYNAMIC_DRAW;;
  glVertexAttribIPointer attrib_color' 4 GL_UNSIGNED_INT (4 * sizeof_unsigned) 0;;
  glBindVertexArray 0.
Definition setUniforms (center_pos_x center_pos_y width height tex_center_pos_x
    tex_center_pos_y tex_width tex_height : float) (TU_tex : Z) : G unit :=
  uniform_tex' <- load uniform_tex;
  glUniform1i uniform_tex' TU_tex;;
  uniform_center' <- load uniform_center;
  glUniform2f uniform_center' center_pos_x center_pos_y;;
  uniform_size' <- load uniform_size;
  glUniform2f uniform_size' width height;;
  uniform_texcenter' <- load uniform_texcenter;
  glUniform2f uniform_texcenter' tex_center_pos_x tex_center_pos_y;;
  uniform_texsize' <- load uniform_texsize;
  glUniform2f uniform_texsize' tex_width tex_height.
End ColoredTextureRectShader.

Module ColoredRectShader.
Definition Program := "UIShader::ColoredRectShader::Program".
Definition attrib_position := "UIShader::ColoredRectShader::attrib_position".
Definition uniform_center := "UIShader::ColoredRectShader::uniform_center".
Definition uniform_size := "UIShader::ColoredRectShader::uniform_size".
Definition uniform_color := "UIShader::ColoredRectShader::uniform_color".
Definition vao := "UIShader::ColoredRectShader::vao".

Definition init : G unit :=
  getAsset <- ask getAsset;
  Program' <- Program :== LoadProgram [
    (GL_VERTEX_SHADER, getAsset "shaders/coloredquad.vert");
    (GL_FRAGMENT_SHADER, getAsset "shaders/coloredquad.frag")];
  attrib_position' <- attrib_position :== glGetAttribLocation Program' "position";
  (uniform_color ::= glGetUniformLocation Program' "color");;
  (uniform_center ::= glGetUniformLocation Program' "center");;
  (uniform_size ::= glGetUniformLocation Program' "size");;
  vao' <- vao :== glGenVertexArrays 1;
  glBindVertexArray vao';;
  glEnableVertexAttribArray attrib_position';;
  quad_buffer' <- load quad_buffer;
  glBindBuffer GL_ARRAY_BUFFER quad_buffer';;
  glVertexAttribPointer attrib_position' 2 GL_FLOAT GL_FALSE (4 * sizeof_float) 0;;
  glBindVertexArray 0.
Definition setUniforms (center_pos_x center_pos_y width height : float)
    (color : SColor) : G unit :=
  uniform_center' <- load uniform_center;
  glUniform2f uniform_center' center_pos_x center_pos_y;;
  uniform_size' <- load uniform_size;
  glUniform2f uniform_size' width height;;
  uniform_color' <- load uniform_color;
  glUniform4i uniform_color' (getRed color) (getGreen color) (getBlue color)
    (getAlpha color).
End ColoredRectShader.
End UIShader.


(** ** class Shaders *)

(** The callback objects the constructor creates, one per class. *)
Inductive provider :=
| SkyboxProvider | WaterShaderProvider | GrassShaderProvider
| BubbleEffectProvider | MotionBlurProvider | GaussianBlurProvider
| MipVizProvider | ColorizeProvider | SunLightProvider | DisplaceProvider.

(** The base materials [loadShaders] passes. *)
Inductive E_MATERIAL_TYPE :=
| EMT_SOLID | EMT_TRANSPARENT_ALPHA_CHANNEL | EMT_TRANSPARENT_ALPHA_CHANNEL_REF.

(** The calls that leave [Shaders]: those of the GL side, the requests to
    build a material and the log. *)
Inductive event :=
| gl_call (c : call)
| addHighLevelShaderMaterialFromFiles_ (vertexShader pixelShader : string)
    (callback : option provider) (baseMaterial : option E_MATERIAL_TYPE)
| Log_error_ (component format arg : string).

(** The [Shaders] object, the static state of the file and the number of
    materials the driver was asked for so far. *)
Record World := MkWorld {
  m_shaders : list Z;
  m_callbacks : list (option provider);
  materials_added : nat;
  statics : Statics;
}.

Definition M := Comp World event.

Definition on_statics {A} (m : G A) : M A :=
  lift statics
       (λ t w, MkWorld (m_shaders w) (m_callbacks w) (materials_added w) t)
       gl_call m.

Definition Log_error (component format arg : string) : M unit :=
  emit (Log_error_ component format arg).

(** [p + n] on a C string. *)
Fixpoint advance (n : nat) (p : string) : string :=
  match n, p with
  | S n', String _ rest => advance n' rest
  | _, _ => p
  end.

Module Shaders.

(** [m_shaders[i]], as an rvalue and as the target of an assignment. *)
Definition m_shaders_get (i : nat) : M Z :=
  λ _ w,
    match m_shaders w !! i with
    | Some v => Done v w []
    | None => Failed out_of_bounds []
    end.

Definition m_shaders_set (i : nat) (v : Z) : M unit :=
  λ _ w,
    if decide (i < length (m_shaders w))%nat
    then Done tt (MkWorld (<[i := v]> (m_shaders w)) (m_callbacks w)
                          (materials_added w) (statics w)) []
    else Failed out_of_bounds [].

Definition m_callbacks_get (i : nat) : M (option provider) :=
  λ _ w,
    match m_callbacks w !! i with
    | Some c => Done c w []
    | None => Failed out_of_bounds []
    end.

Definition m_callbacks_set (i : nat) (c : option provider) : M unit :=
  λ _ w,
    if decide (i < length (m_callbacks w))%nat
    then Done tt (MkWorld (m_shaders w) (<[i := c]> (m_callbacks w))
                          (materials_added w) (statics w)) []
    else Failed out_of_bounds [].

(** A local array, read at [i]. *)
Definition local_get (a : list Z) (i : nat) : M Z :=
  match a !! i with
  | Some v => ret v
  | None => fail out_of_bounds
  end.

(** [gpu->addHighLevelShaderMaterialFromFiles(...)] *)
Definition addHighLevelShaderMaterialFromFiles (vertexShader pixelShader : string)
    (callback : option provider) (baseMaterial : option E_MATERIAL_TYPE) : M Z :=
  λ env w,
    Done (material_of env (materials_added w))
         (MkWorld (m_shaders w) (m_callbacks w) (S (materials_added w)) (statics w))
         [addHighLevelShaderMaterialFromFiles_ vertexShader pixelShader
            callback baseMaterial].

(** The three macros of [loadShaders]. *)
Definition glsl (a b : string) (c : option provider) : M Z :=
  addHighLevelShaderMaterialFromFiles a b c None.
Definition glslmat (a b : string) (c : option provider) (d : E_MATERIAL_TYPE) : M Z :=
  addHighLevelShaderMaterialFromFiles a b c (Some d).
Definition glsl_noinput (a b : string) : M Z :=
  addHighLevelShaderMaterialFromFiles a b None None.

(** [m_shaders[K] = m] and [m_callbacks[K]] for an enumerator [K]. *)
Definition set_shader (K : ShaderType) (m : M Z) : M unit :=
  v <- m; i <- ask (λ env, enum_value env K); m_shaders_set i v.

Definition callback (K : ShaderType) : M (option provider) :=
  i <- ask (λ env, enum_value env K); m_callbacks_get i.

Definition set_callback (K : ShaderType) (c : option provider) : M unit :=
  i <- ask (λ env, enum_value env K); m_callbacks_set i c.

Definition check (num : nat) : M unit :=
  v <- m_shaders_get num;
  if v =? -1 then
    name <- ask (λ env, shader_names env num);
    Log_error "shaders"
      "Shader %s failed to load. Update your drivers, if the issue persists, report a bug to us."
      (advance 3 name)
  else ret tt.

(** The part of [loadShaders] up to [check]: the previous entries are
    saved (the copy is the result) and every kind is built. *)
Definition loadShaders_build : M (list Z) :=
  dir <- ask (λ env, getAsset_SHADER env "");
  (* Save previous shaders (used in case some shaders don't compile) *)
  saved_shaders <- gets m_shaders;
  (* Ok, go *)
  set_shader ES_NORMAL_MAP (glsl_noinput (dir +:+ "pass.vert") (dir +:+ "pass.frag"));;
  set_shader ES_NORMAL_MAP_LIGHTMAP (glsl_noinput (dir +:+ "pass.vert") (dir +:+ "pass.frag"));;
  set_shader ES_SKYBOX (
    c <- callback ES_SKYBOX;
    glslmat (dir +:+ "pass.vert") (dir +:+ "pass.frag") c EMT_TRANSPARENT_ALPHA_CHANNEL);;
  set_shader ES_SPLATTING (glsl_noinput (dir +:+ "pass.vert") (dir +:+ "pass.frag"));;
  set_shader ES_WATER (
    c <- callback ES_WATER;
    glslmat (dir +:+ "pass.vert") (dir +:+ "pass.frag") c EMT_TRANSPARENT_ALPHA_CHANNEL);;
  set_shader ES_WATER_SURFACE (
    c <- callback ES_WATER;
    glsl (dir +:+ "pass.vert") (dir +:+ "pass.frag") c);;
  set_shader ES_SPHERE_MAP (glsl_noinput (dir +:+ "pass.vert") (dir +:+ "pass.frag"));;
  set_shader ES_GRASS (
    c <- callback ES_GRASS;
    glslmat (dir +:+ "pass.vert") (dir +:+ "pass.frag") c EMT_TRANSPARENT_ALPHA_CHANNEL);;
  set_shader ES_GRASS_REF (
    c <- callback ES_GRASS;
    glslmat (dir +:+ "pass.vert") (dir +:+ "pass.frag") c EMT_TRANSPARENT_ALPHA_CHANNEL_REF);;
  set_shader ES_BUBBLES (
    c <- callback ES_BUBBLES;
    glslmat (dir +:+ "pass.vert") (dir +:+ "pass.frag") c EMT_TRANSPARENT_ALPHA_CHANNEL);;
  set_shader ES_MOTIONBLUR (
    c <- callback ES_MOTIONBLUR;
    glsl (dir +:+ "pass.vert") (dir +:+ "pass.frag") c);;
  set_shader ES_GAUSSIAN3H (
    c <- callback ES_GAUSSIAN3H;
    glslmat (dir +:+ "pass.vert") (dir +:+ "pass.frag") c EMT_SOLID);;
  set_shader ES_GAUSSIAN3V (
    c <- callback ES_GAUSSIAN3V;
    glslmat (dir +:+ "pass.vert") (dir +:+ "pass.frag") c EMT_SOLID);;
  set_shader ES_MIPVIZ (
    c <- callback ES_MIPVIZ;
    glslmat (dir +:+ "pass.vert") (dir +:+ "pass.frag") c EMT_SOLID);;
  set_shader ES_COLORIZE (
    c <- callback ES_COLORIZE;
    glslmat (dir +:+ "pass.vert") (dir +:+ "pass.frag") c EMT_SOLID);;
  set_shader ES_OBJECTPASS (glsl_noinput (dir +:+ "pass.vert") (dir +:+ "pass.frag"));;
  set_shader ES_OBJECT_UNLIT (glsl_noinput (dir +:+ "pass.vert") (dir +:+ "pass.frag"));;
  set_shader ES_OBJECTPASS_REF (glsl_noinput (dir +:+ "pass.vert") (dir +:+ "pass.frag"));;
  set_shader ES_OBJECTPASS_RIMLIT (glsl_noinput (dir +:+ "pass.vert") (dir +:+ "pass.frag"));;
  set_shader ES_SUNLIGHT (glsl_noinput (dir +:+ "pass.vert") (dir +:+ "pass.frag"));;
  set_shader ES_DISPLACE (
    c <- callback ES_DISPLACE;
    glslmat (dir +:+ "pass.vert") (dir +:+ "pass.frag") c EMT_TRANSPARENT_ALPHA_CHANNEL);;
  set_shader ES_PASSFAR (
    c <- callback ES_COLORIZE;
    glsl (dir +:+ "pass.vert") (dir +:+ "pass.frag") c);;
  ret saved_shaders.

(** Check that all successfully loaded *)
Definition loadShaders_check : M unit :=
  ES_COUNT <- ask ES_COUNT;
  ES_MIPVIZ <- ask (λ env, enum_value env ES_MIPVIZ);
  for_range 0 ES_COUNT (λ i,
    (* Old Intel Windows drivers fail here.
       It's an artist option, so not necessary to play. *)
    if decide (i = ES_MIPVIZ) then ret tt (* continue *)
    else check i).

(** In case we're reloading and a shader didn't compile: keep the
    previous, working one *)
Definition loadShaders_keep (saved_shaders : list Z) : M unit :=
  ES_COUNT <- ask ES_COUNT;
  for_range 0 ES_COUNT (λ i,
    v <- m_shaders_get i;
    if v =? -1 then
      old <- local_get saved_shaders i;
      m_shaders_set i old
    else ret tt).

(** The rest of [loadShaders]: the shared buffers and the programs with
    static members. *)
Definition loadShaders_init : G unit :=
  initGL;;
  initQuadVBO;;
  initQuadBuffer;;
  initBillboardVBO;;
  initCubeVBO;;
  initFrustrumVBO;;
  initShadowVPMUBO;;
  FullScreenShader.BloomBlendShader.init;;
  FullScreenShader.BloomShader.init;;
  FullScreenShader.Gaussian17TapHShader.init;;
  FullScreenShader.ComputeGaussian17TapHShader.init;;
  FullScreenShader.Gaussian3HBlurShader.init;;
  FullScreenShader.Gaussian3VBlurShader.init;;
  FullScreenShader.Gaussian17TapVShader.init;;
  FullScreenShader.ComputeGaussian17TapVShader.init;;
  FullScreenShader.Gaussian6HBlurShader.init;;
  FullScreenShader.Gaussian6VBlurShader.init;;
  FullScreenShader.GlowShader.init;;
  FullScreenShader.PassThroughShader.init;;
  FullScreenShader.LayerPassThroughShader.init;;
  FullScreenShader.DiffuseEnvMapShader.init;;
  FullScreenShader.RHDebug.init;;
  FullScreenShader.MotionBlurShader.init;;
  FullScreenShader.GodFadeShader.init;;
  FullScreenShader.GodRayShader.init;;
  FullScreenShader.MLAAColorEdgeDetectionSHader.init;;
  FullScreenShader.MLAABlendWeightSHader.init;;
  FullScreenShader.MLAAGatherSHader.init;;
  MeshShader.BubbleShader.init;;
  LightShader.PointLightShader.init;;
  MeshShader.SkyboxShader.init;;
  MeshShader.ViewFrustrumShader.init;;
  ParticleShader.FlipParticleRender.init;;
  ParticleShader.HeightmapSimulationShader.init;;
  ParticleShader.SimpleParticleRender.init;;
  ParticleShader.SimpleSimulationShader.init;;
  UIShader.ColoredRectShader.init;;
  UIShader.ColoredTextureRectShader.init;;
  UIShader.TextureRectShader.init;;
  UIShader.UniformColoredTextureRectShader.init;;
  UtilShader.ColoredLine.init.

Definition loadShaders : M unit :=
  saved_shaders <- loadShaders_build;
  loadShaders_check;;
  loadShaders_keep saved_shaders;;
  on_statics loadShaders_init.

(** [Shaders::Shaders()].  [memset] clears every callback slot. *)
Definition Shaders : M unit :=
  (* Callbacks *)
  modify (λ w, MkWorld (m_shaders w) ((λ _, None) <$> m_callbacks w)
                       (materials_added w) (statics w));;
  set_callback ES_SKYBOX (Some SkyboxProvider);;
  set_callback ES_WATER (Some WaterShaderProvider);;
  set_callback ES_GRASS (Some GrassShaderProvider);;
  set_callback ES_BUBBLES (Some BubbleEffectProvider);;
  set_callback ES_MOTIONBLUR (Some MotionBlurProvider);;
  set_callback ES_GAUSSIAN3H (Some GaussianBlurProvider);;
  (c <- callback ES_GAUSSIAN3H; set_callback ES_GAUSSIAN3V c);;
  set_callback ES_MIPVIZ (Some MipVizProvider);;
  set_callback ES_COLORIZE (Some ColorizeProvider);;
  set_callback ES_SUNLIGHT (Some SunLightProvider);;
  set_callback ES_DISPLACE (Some DisplaceProvider);;
  ES_COUNT <- ask ES_COUNT;
  for_range 0 ES_COUNT (λ i, m_shaders_set i (-1));;
  loadShaders.

(** [Shaders::getShader]: the result is [m_shaders[num]] seen as an
    [E_MATERIAL_TYPE], an enumeration over the same 32-bit values. *)
Definition getShader (num : nat) : M Z :=
  ES_COUNT <- ask ES_COUNT;
  assert (bool_decide (num < ES_COUNT)%nat);;
  m_shaders_get num.

End Shaders.

(** * Vocabulary of the properties *)

Arguments to_GLuint : simpl never.
Arguments to_GLint : simpl never.

(** What a run has sent out, whether it returned or not. *)
Definition out_of {S E A} (r : Res S E A) : list E :=
  match r with
  | Done _ _ out => out
  | Failed _ out => out
  end.

(** A run that returns to its caller. *)
Definition returns {S E A} (r : Res S E A) : Prop :=
  match r with
  | Done _ _ _ => True
  | Failed _ _ => False
  end.

(** ** The registry *)

(** What the model asks of shaders.hpp: the enumerators are distinct and
    all below [ES_COUNT]. *)
Record header_ok (env : Env) : Prop := {
  enum_inj : ∀ a b, enum_value env a = enum_value env b → a = b;
  enum_lt : ∀ a, (enum_value env a < ES_COUNT env)%nat;
}.

(** [m_shaders] and [m_callbacks] are arrays of [ES_COUNT] elements. *)
Record world_ok (env : Env) (w : World) : Prop := {
  m_shaders_length : length (m_shaders w) = ES_COUNT env;
  m_callbacks_length : length (m_callbacks w) = ES_COUNT env;
}.

(** The kinds in the order in which [loadShaders] builds them, and the
    place of each in that order. *)
Definition build_order : list ShaderType :=
  [ES_NORMAL_MAP; ES_NORMAL_MAP_LIGHTMAP; ES_SKYBOX; ES_SPLATTING; ES_WATER;
   ES_WATER_SURFACE; ES_SPHERE_MAP; ES_GRASS; ES_GRASS_REF; ES_BUBBLES;
   ES_MOTIONBLUR; ES_GAUSSIAN3H; ES_GAUSSIAN3V; ES_MIPVIZ; ES_COLORIZE;
   ES_OBJECTPASS; ES_OBJECT_UNLIT; ES_OBJECTPASS_REF; ES_OBJECTPASS_RIMLIT;
   ES_SUNLIGHT; ES_DISPLACE; ES_PASSFAR].

Definition build_index (K : ShaderType) : nat :=
  match K with
  | ES_NORMAL_MAP => 0 | ES_NORMAL_MAP_LIGHTMAP => 1 | ES_SKYBOX => 2
  | ES_SPLATTING => 3 | ES_WATER => 4 | ES_WATER_SURFACE => 5
  | ES_SPHERE_MAP => 6 | ES_GRASS => 7 | ES_GRASS_REF => 8
  | ES_BUBBLES => 9 | ES_MOTIONBLUR => 10 | ES_GAUSSIAN3H => 11
  | ES_GAUSSIAN3V => 12 | ES_MIPVIZ => 13 | ES_COLORIZE => 14
  | ES_OBJECTPASS => 15 | ES_OBJECT_UNLIT => 16 | ES_OBJECTPASS_REF => 17
  | ES_OBJECTPASS_RIMLIT => 18 | ES_SUNLIGHT => 19 | ES_DISPLACE => 20
  | ES_PASSFAR => 21
  end%nat.

(** The program that a call of [loadShaders] in world [w] freshly builds
    for the kind [K]: the answer to its [build_index K]-th request. *)
Definition fresh_build (env : Env) (w : World) (K : ShaderType) : Z :=
  material_of env (build_index K + materials_added w)%nat.

(** [m_shaders] after the build pass. *)
Definition built (env : Env) (w : World) : list Z :=
  foldl (λ l K, <[enum_value env K := fresh_build env w K]> l)
        (m_shaders w) build_order.

(** The merge of the last loop: a sentinel gives way to the saved entry. *)
Definition keep (saved current : list Z) : list Z :=
  zip_with (λ old v, if v =? -1 then old else v) saved current.

(** The message [check] logs for the entry [i]. *)
Definition error_message (env : Env) (i : nat) : event :=
  Log_error_ "shaders"
    "Shader %s failed to load. Update your drivers, if the issue persists, report a bug to us."
    (advance 3 (shader_names env i)).

(** The log: the [Log::error] calls among the events, in order. *)
Definition is_log (e : event) : bool :=
  match e with
  | Log_error_ _ _ _ => true
  | _ => false
  end.

Definition log_of (out : list event) : list event := filter is_log out.

(** The messages of the check loop over the entries [l], the first of
    which has index [i]: one for each index other than [mipviz] whose
    entry is the sentinel. *)
Fixpoint check_log_from (env : Env) (mipviz i : nat) (l : list Z) : list event :=
  match l with
  | [] => []
  | v :: rest =>
      (if decide (i = mipviz) then []
       else if v =? -1 then [error_message env i] else [])
      ++ check_log_from env mipviz (S i) rest
  end.

Definition check_log (env : Env) (l : list Z) : list event :=
  check_log_from env (enum_value env ES_MIPVIZ) 0 l.

(** The two uniforms whose presence [SimpleParticleRender::init] asserts
    are found in the particle program. *)
Definition particle_program (env : Env) : GLuint :=
  to_GLuint (program_of env
    [(GL_VERTEX_SHADER, getAsset env "shaders/particle.vert");
     (GL_FRAGMENT_SHADER, getAsset env "shaders/particle.frag")]).

Definition particle_uniforms_found (env : Env) : Prop :=
  to_GLuint (uniform_location env (particle_program env) "color_from") ≠ to_GLuint (-1) ∧
  to_GLuint (uniform_location env (particle_program env) "color_to") ≠ to_GLuint (-1).

(** A computation of the GL side that always returns. *)
Definition total {A} (m : G A) : Prop := ∀ env s, returns (m env s).

(** The names of the table tell the entries apart. *)
Definition names_distinct (env : Env) : Prop :=
  ∀ i j, (i < ES_COUNT env)%nat → (j < ES_COUNT env)%nat →
    advance 3 (shader_names env i) = advance 3 (shader_names env j) → i = j.

#[global] Instance event_eq_dec : EqDecision event.
Proof.
  assert (EqDecision float) by (unfold float; intros [a b] [c d];
    unfold Decision; decide equality; [apply Pos.eq_dec | apply Z.eq_dec]).
  assert (EqDecision matrix4) by (unfold matrix4; apply _).
  assert (EqDecision buffer_target) by solve_decision.
  assert (EqDecision buffer_usage) by solve_decision.
  assert (EqDecision attrib_type) by solve_decision.
  assert (EqDecision buffer_data) by solve_decision.
  assert (EqDecision call) by solve_decision.
  assert (EqDecision provider) by solve_decision.
  assert (EqDecision E_MATERIAL_TYPE) by solve_decision.
  solve_decision.
Defined.

(** The world as [Shaders::Shaders()] finds it when the process starts:
    the arrays hold whatever the memory held. *)
Definition first_world (garbage : list Z) (slots : list (option provider))
  : World :=
  MkWorld garbage slots 0 Statics_at_start.

(** ** What the driver makes of the calls *)

(** The program that is current after the calls [tr], when [current] was
    current before them: [glUseProgram] is the only call that changes it. *)
Fixpoint bound_after (current : GLuint) (tr : list call) : GLuint :=
  match tr with
  | [] => current
  | glUseProgram_ program :: rest => bound_after program rest
  | _ :: rest => bound_after current rest
  end.

(** A value handed to a [glUniform*] entry point. *)
Inductive uniform_value :=
| value_1i (v0 : GLint)
| value_1f (v0 : float)
| value_2f (v0 v1 : float)
| value_4i (v0 v1 v2 v3 : GLint)
| value_Matrix4fv (count : Z) (transpose : bool) (value : matrix4).

Definition uniform_call (c : call) : option (GLint * uniform_value) :=
  match c with
  | glUniform1i_ l v0 => Some (l, value_1i v0)
  | glUniform1f_ l v0 => Some (l, value_1f v0)
  | glUniform2f_ l v0 v1 => Some (l, value_2f v0 v1)
  | glUniform4i_ l v0 v1 v2 v3 => Some (l, value_4i v0 v1 v2 v3)
  | glUniformMatrix4fv_ l n t m => Some (l, value_Matrix4fv n t m)
  | _ => None
  end.

(** The uniform writes among the calls [tr], in order: a [glUniform*]
    call addresses the program that is current when it is made, so each
    write is given as (program, location, value).  (The driver ignores a
    write at location -1; it is listed all the same.) *)
Fixpoint uniform_writes (current : GLuint) (tr : list call)
  : list (GLuint * GLint * uniform_value) :=
  match tr with
  | [] => []
  | glUseProgram_ program :: rest => uniform_writes program rest
  | c :: rest =>
      match uniform_call c with
      | Some (l, v) => (current, l, v) :: uniform_writes current rest
      | None => uniform_writes current rest
      end
  end.

(** The binding point of the uniform block [index] of [program] after the
    calls [tr]: that of the last [glUniformBlockBinding] for the block,
    [start] when there is none. *)
Fixpoint block_binding (start : option GLuint) (tr : list call)
    (program index : GLuint) : option GLuint :=
  match tr with
  | [] => start
  | glUniformBlockBinding_ p i binding :: rest =>
      block_binding (if (p =? program) && (i =? index) then Some binding else start)
                    rest program index
  | _ :: rest => block_binding start rest program index
  end.

(** The stage lists of the programs that the calls [tr] build. *)
Definition built_program (c : call) : option (list stage) :=
  match c with
  | call_LoadProgram stages => Some stages
  | _ => None
  end.

Definition builds_in (tr : list call) : list (list stage) := omap built_program tr.

Definition has_geometry_stage (stages : list stage) : bool :=
  bool_decide (GL_GEOMETRY_SHADER ∈ stages.*1).

(** The calls by which [bypassUBO] hands the camera state to [program]. *)
Definition camera_uniforms : list string :=
  ["ViewMatrix"; "ProjectionMatrix"; "InverseViewMatrix";
   "InverseProjectionMatrix"; "screen"].

Definition bypass_calls (env : Env) (program : GLuint) : list call :=
  [glGetUniformLocation_ program "ViewMatrix";
   glUniformMatrix4fv_ (to_GLint (uniform_location env program "ViewMatrix"))
     1 false (getViewMatrix env);
   glGetUniformLocation_ program "ProjectionMatrix";
   glUniformMatrix4fv_ (to_GLint (uniform_location env program "ProjectionMatrix"))
     1 false (getProjMatrix env);
   glGetUniformLocation_ program "InverseViewMatrix";
   glUniformMatrix4fv_ (to_GLint (uniform_location env program "InverseViewMatrix"))
     1 false (getInvViewMatrix env);
   glGetUniformLocation_ program "InverseProjectionMatrix";
   glUniformMatrix4fv_ (to_GLint (uniform_location env program "InverseProjectionMatrix"))
     1 false (getInvProjMatrix env);
   glGetUniformLocation_ program "screen";
   glUniform2f_ (to_GLint (uniform_location env program "screen"))
     (X (getCurrentScreenSize env)) (Y (getCurrentScreenSize env))].

(** A call that looks up one of the camera uniforms. *)
Definition camera_lookup (c : call) : bool :=
  match c with
  | glGetUniformLocation_ _ name => bool_decide (name ∈ camera_uniforms)
  | _ => false
  end.

(** The calls by which [AssignTextureUnit] binds the sampler of the unit
    [u] of [Program], and the write they make. *)
Definition unit_calls (env : Env) (Program : GLuint) (u : TexUnit) : list call :=
  [glGetUniformLocation_ Program (m_uniform u);
   glUniform1i_ (uniform_location env Program (m_uniform u)) (m_index u)].

Definition unit_write (env : Env) (Program : GLuint) (u : TexUnit)
  : GLuint * GLint * uniform_value :=
  (Program, uniform_location env Program (m_uniform u), value_1i (m_index u)).

(** A constructor, run for its calls only. *)
Definition void {A} (m : G A) : G unit := _ <- m; ret tt.

(** Every constructor and [init] function of the file. *)
Definition constructors : list (G unit) := [
  void UtilShader.ColoredLine.init;
  void MeshShader.ObjectPass1Shader;
  void MeshShader.ObjectRefPass1Shader;
  void MeshShader.GrassPass1Shader;
  void MeshShader.NormalMapShader;
  void MeshShader.InstancedObjectPass1Shader;
  void MeshShader.InstancedObjectRefPass1Shader;
  void MeshShader.InstancedGrassPass1Shader;
  void MeshShader.ObjectPass2Shader;
  void MeshShader.InstancedObjectPass2Shader;
  void MeshShader.InstancedObjectRefPass2Shader;
  void MeshShader.DetailledObjectPass2Shader;
  void MeshShader.ObjectUnlitShader;
  void MeshShader.ObjectRefPass2Shader;
  void MeshShader.GrassPass2Shader;
  void MeshShader.InstancedGrassPass2Shader;
  void MeshShader.SphereMapShader;
  void MeshShader.SplattingShader;
  void MeshShader.BubbleShader.init;
  void MeshShader.TransparentShader;
  void MeshShader.TransparentFogShader;
  void MeshShader.BillboardShader;
  void MeshShader.ColorizeShader;
  void MeshShader.ShadowShader;
  void MeshShader.RSMShader;
  void MeshShader.SplattingRSMShader;
  void MeshShader.InstancedShadowShader;
  void MeshShader.RefShadowShader;
  void MeshShader.InstancedRefShadowShader;
  void MeshShader.GrassShadowShader;
  void MeshShader.InstancedGrassShadowShader;
  void MeshShader.DisplaceMaskShader;
  void MeshShader.DisplaceShader;
  void MeshShader.SkyboxShader.init;
  void MeshShader.NormalVisualizer;
  void MeshShader.ViewFrustrumShader.init;
  void LightShader.PointLightShader.init;
  void ParticleShader.SimpleSimulationShader.init;
  void ParticleShader.HeightmapSimulationShader.init;
  void ParticleShader.SimpleParticleRender.init;
  void ParticleShader.FlipParticleRender.init;
  void FullScreenShader.BloomShader.init;
  void FullScreenShader.BloomBlendShader.init;
  void FullScreenShader.ToneMapShader;
  void FullScreenShader.DepthOfFieldShader;
  void FullScreenShader.SunLightShader;
  void FullScreenShader.DiffuseEnvMapShader.init;
  void FullScreenShader.ShadowedSunLightShader;
  void FullScreenShader.RadianceHintsConstructionShader;
  void FullScreenShader.RHDebug.init;
  void FullScreenShader.GlobalIlluminationReconstructionShader;
  void FullScreenShader.Gaussian17TapHShader.init;
  void FullScreenShader.ComputeGaussian17TapHShader.init;
  void FullScreenShader.Gaussian6HBlurShader.init;
  void FullScreenShader.Gaussian3HBlurShader.init;
  void FullScreenShader.Gaussian17TapVShader.init;
  void FullScreenShader.ComputeGaussian17TapVShader.init;
  void FullScreenShader.Gaussian6VBlurShader.init;
  void FullScreenShader.Gaussian3VBlurShader.init;
  void FullScreenShader.PassThroughShader.init;
  void FullScreenShader.LayerPassThroughShader.init;
  void FullScreenShader.LinearizeDepthShader;
  void FullScreenShader.GlowShader.init;
  void FullScreenShader.SSAOShader;
  void FullScreenShader.FogShader;
  void FullScreenShader.MotionBlurShader.init;
  void FullScreenShader.GodFadeShader.init;
  void FullScreenShader.GodRayShader.init;
  void FullScreenShader.MLAAColorEdgeDetectionSHader.init;
  void FullScreenShader.MLAABlendWeightSHader.init;
  void FullScreenShader.MLAAGatherSHader.init;
  void UIShader.TextureRectShader.init;
  void UIShader.UniformColoredTextureRectShader.init;
  void UIShader.ColoredTextureRectShader.init;
  void UIShader.ColoredRectShader.init
].

(** The constructors of the shadow variants. *)
Definition shadow_constructors : list (G Shader) := [
  MeshShader.ShadowShader;
  MeshShader.InstancedShadowShader;
  MeshShader.RefShadowShader;
  MeshShader.InstancedRefShadowShader;
  MeshShader.GrassShadowShader;
  MeshShader.InstancedGrassShadowShader
].

(** [wp r Q]: the run [r] returns and [Q] holds of what it returns. *)
Definition wp {S E A} (r : Res S E A) (Q : A → S → list E → Prop) : Prop :=
  match r with
  | Done a s out => Q a s out
  | Failed _ _ => False
  end.

(** A computation of the GL side that returns exactly when the
    environment satisfies [P]. *)
Definition returns_when {A} (P : Env → Prop) (m : G A) : Prop :=
  ∀ env s, returns (m env s) ↔ P env.

(** A request for a material: the answer is the next one of the driver,
    nothing but the count of requests changes and nothing is logged. *)
Definition builds (env : Env) (m : M Z) : Prop :=
  ∀ w, length (m_callbacks w) = ES_COUNT env →
    ∃ ev, log_of ev = [] ∧
      m env w = Done (material_of env (materials_added w))
                     (MkWorld (m_shaders w) (m_callbacks w)
                              (S (materials_added w)) (statics w)) ev.

(** ** An environment to run the model in *)

Definition demo_names : list string :=
  ["ES_NORMAL_MAP"; "ES_NORMAL_MAP_LIGHTMAP"; "ES_SKYBOX"; "ES_SPLATTING";
   "ES_WATER"; "ES_WATER_SURFACE"; "ES_SPHERE_MAP"; "ES_GRASS"; "ES_GRASS_REF";
   "ES_BUBBLES"; "ES_MOTIONBLUR"; "ES_GAUSSIAN3H"; "ES_GAUSSIAN3V"; "ES_MIPVIZ";
   "ES_COLORIZE"; "ES_OBJECTPASS"; "ES_OBJECT_UNLIT"; "ES_OBJECTPASS_REF";
   "ES_OBJECTPASS_RIMLIT"; "ES_SUNLIGHT"; "ES_DISPLACE"; "ES_PASSFAR"].

(** The kinds are numbered in build order; a driver of GLSL version
    [version], with or without the layer extension and the UBO workaround,
    that answers the requests for materials by [materials]; the location
    of a uniform or attribute is the length of its name (modulo 256). *)
Definition demo_env (version : Z) (layer workaround : bool) (materials : nat → Z)
  : Env := {|
  ES_COUNT := 22;
  enum_value := build_index;
  shader_names := λ i, default "" (demo_names !! i);
  MAXLIGHT := 32;
  sizeof_PointLightInfo := 32;
  WIN32 := false;
  getAsset := λ name, "/data/" +:+ name;
  getAsset_SHADER := λ name, "/data/shaders/" +:+ name;
  getGLSLVersion := version;
  hasVSLayerExtension := layer;
  needUBOWorkaround := workaround;
  getViewMatrix := IdentityMatrix;
  getProjMatrix := IdentityMatrix;
  getInvViewMatrix := IdentityMatrix;
  getInvProjMatrix := IdentityMatrix;
  getCurrentScreenSize := Vector2df 1024%Q 768%Q;
  material_of := materials;
  program_of := λ stages, 1 + Z.of_nat (length stages);
  tfb_program_of := λ _ varyings, 10 + Z.of_nat (length varyings);
  uniform_location := λ _ name, Z.of_nat (String.length name) mod 256;
  attrib_location := λ _ name, Z.of_nat (String.length name) mod 256;
  uniform_block_index := λ _ _, 0;
  gen_name := λ n, 100 + Z.of_nat n;
|}.

(** Every request succeeds. *)
Definition all_good (n : nat) : Z := 24 + Z.of_nat n.

(** Every request succeeds but the [k]-th. *)
Definition all_but (k n : nat) : Z := if decide (n = k) then -1 else all_good n.

(** A registry with a valid program for every kind. *)
Definition loaded_world : World :=
  MkWorld (replicate 22 7) (replicate 22 None) 22 Statics_at_start.

(** ** [Shaders::~Shaders()] *)

(** The destructor, its events being the objects it deletes.  A provider
    stands for the one object of its class that the constructor creates;
    the slot of [ES_GAUSSIAN3V] is not read: it shares its object with
    [ES_GAUSSIAN3H]. *)
Definition Shaders_destructor : Comp World provider unit :=
  ES_COUNT <- ask ES_COUNT;
  ES_GAUSSIAN3V' <- ask (λ env, enum_value env ES_GAUSSIAN3V);
  for_range 0 ES_COUNT (λ i,
    if decide (i = ES_GAUSSIAN3V') then ret tt (* continue *) else
    slots <- gets m_callbacks;
    match slots !! i with
    | None => fail out_of_bounds
    | Some None => ret tt (* continue *)
    | Some (Some c) => emit c (* delete m_callbacks[i] *)
    end).

(** The kind in whose slot the constructor stores the new object of each
    provider class. *)
Definition owner (p : provider) : ShaderType :=
  match p with
  | SkyboxProvider => ES_SKYBOX
  | WaterShaderProvider => ES_WATER
  | GrassShaderProvider => ES_GRASS
  | BubbleEffectProvider => ES_BUBBLES
  | MotionBlurProvider => ES_MOTIONBLUR
  | GaussianBlurProvider => ES_GAUSSIAN3H
  | MipVizProvider => ES_MIPVIZ
  | ColorizeProvider => ES_COLORIZE
  | SunLightProvider => ES_SUNLIGHT
  | DisplaceProvider => ES_DISPLACE
  end.

(** [m_callbacks] as the constructor leaves it. *)
Definition callbacks_set (env : Env) (slots : list (option provider))
  : list (option provider) :=
  let put K c (l : list (option provider)) := <[enum_value env K := c]> l in
  let l := put ES_GAUSSIAN3H (Some GaussianBlurProvider)
             (put ES_MOTIONBLUR (Some MotionBlurProvider)
               (put ES_BUBBLES (Some BubbleEffectProvider)
                 (put ES_GRASS (Some GrassShaderProvider)
                   (put ES_WATER (Some WaterShaderProvider)
                     (put ES_SKYBOX (Some SkyboxProvider)
                       ((λ _, None) <$> slots)))))) in
  put ES_DISPLACE (Some DisplaceProvider)
    (put ES_SUNLIGHT (Some SunLightProvider)
      (put ES_COLORIZE (Some ColorizeProvider)
        (put ES_MIPVIZ (Some MipVizProvider)
          (put ES_GAUSSIAN3V (default None (l !! enum_value env ES_GAUSSIAN3H)) l)))).

(** The objects that the loop of the destructor deletes when it runs over
    the slots [l], the first of which has index [i]: that of every slot
    other than [skip] that holds one. *)
Fixpoint deleted_from (skip i : nat) (l : list (option provider)) : list provider :=
  match l with
  | [] => []
  | c :: rest =>
      (if decide (i = skip) then [] else option_list c)
      ++ deleted_from skip (S i) rest
  end.

(** ** More of what the driver makes of the calls *)

(** The vertex array that is bound after the calls [tr], when [current]
    was bound before them. *)
Fixpoint vao_after (current : GLuint) (tr : list call) : GLuint :=
  match tr with
  | [] => current
  | glBindVertexArray_ array :: rest => vao_after array rest
  | _ :: rest => vao_after current rest
  end.

Definition uses_program (c : call) : bool :=
  match c with
  | glUseProgram_ _ => true
  | _ => false
  end.

Definition binds_vertex_array (c : call) : bool :=
  match c with
  | glBindVertexArray_ _ => true
  | _ => false
  end.

(** The program a call names, and the one it builds. *)
Definition program_used (c : call) : option GLuint :=
  match c with
  | glUseProgram_ p | glGetUniformLocation_ p _ | glGetAttribLocation_ p _
  | glGetUniformBlockIndex_ p _ | glUniformBlockBinding_ p _ _ => Some p
  | _ => None
  end.

Definition program_built (env : Env) (c : call) : option GLuint :=
  match c with
  | call_LoadProgram stages => Some (program_of env stages)
  | call_LoadTFBProgram path varyings count =>
      Some (tfb_program_of env path (take (Z.to_nat count) varyings))
  | _ => None
  end.

(** The upload of a [glBufferData] call is as long as the array it reads. *)
Definition upload_fits (c : call) : Prop :=
  match c with
  | glBufferData_ _ size (float_data d) _ => size = sizeof_float * Z.of_nat (length d)
  | glBufferData_ _ size (int_data d) _ => size = sizeof_int * Z.of_nat (length d)
  | _ => True
  end.

(** The attribute arrays a call enables, the attribute pointers it sets
    (index, components, stride, offset) and the shared-buffer functions of
    the file. *)
Definition enabled_attrib (c : call) : option GLuint :=
  match c with
  | glEnableVertexAttribArray_ index => Some index
  | _ => None
  end.

Definition attrib_pointer (c : call) : option (GLuint * Z * Z * Z) :=
  match c with
  | glVertexAttribPointer_ index size _ _ stride offset
  | glVertexAttribIPointer_ index size _ stride offset =>
      Some (index, size, stride, offset)
  | _ => None
  end.

Definition shared_buffers : list (G unit) :=
  [initQuadVBO; initQuadBuffer; initBillboardVBO; initCubeVBO; initFrustrumVBO;
   initShadowVPMUBO].

(** The arrays that the calls [tr] upload, with the sizes asked for. *)
Definition uploads (tr : list call) : list (buffer_target * Z * buffer_data) :=
  omap (λ c, match c with
             | glBufferData_ target size data _ => Some (target, size, data)
             | _ => None
             end) tr.

(** ** Uniforms set by name order *)

(** The writes that put the values [ws] at the locations of their names in
    [Program]. *)
Definition resolved_writes (env : Env) (Program : GLuint)
    (ws : list (string * uniform_value)) : list (GLint * uniform_value) :=
  (λ w, (uniform_location env Program w.1, w.2)) <$> ws.

(** [init] returns; after it, [setUniforms] returns without changing any
    static, and its calls are exactly the writes of the values [ws] at the
    locations of their names in the program that [init] has stored in the
    static [Program]. *)
Definition sets_in_order (env : Env) (Program : string) (init setUniforms : G unit)
    (ws : list (string * uniform_value)) : Prop :=
  ∀ s, ∃ s1 tr out,
    init env s = Done tt s1 tr
    ∧ setUniforms env s1 = Done tt s1 out
    ∧ uniform_call <$> out = Some <$> resolved_writes env (vars s1 Program) ws.

(** ** Names of buffers and vertex arrays *)

(** Every buffer and every vertex array that the calls [tr] bind is 0 or a
    name that an earlier call of [tr] has generated, for a buffer or for a
    vertex array as the case may be.  [n] counts the names generated so
    far; [bufs] and [vaos] hold those generated by [tr]. *)
Fixpoint names_ok (env : Env) (n : nat) (bufs vaos : list GLuint) (tr : list call)
  : Prop :=
  match tr with
  | [] => True
  | glGenBuffers_ _ :: rest =>
      names_ok env (S n) (to_GLuint (gen_name env n) :: bufs) vaos rest
  | glGenVertexArrays_ _ :: rest =>
      names_ok env (S n) bufs (to_GLuint (gen_name env n) :: vaos) rest
  | glBindBuffer_ _ b :: rest =>
      (b = 0 ∨ to_GLuint b ∈ bufs) ∧ names_ok env n bufs vaos rest
  | glBindVertexArray_ a :: rest =>
      (a = 0 ∨ to_GLuint a ∈ vaos) ∧ names_ok env n bufs vaos rest
  | _ :: rest => names_ok env n bufs vaos rest
  end.

(** ** Requests and reloads *)

(** The callback and the base material of a request to build a material,
    and the requests among the events, in order. *)
Definition request (e : event) : option (option provider * option E_MATERIAL_TYPE) :=
  match e with
  | addHighLevelShaderMaterialFromFiles_ _ _ c d => Some (c, d)
  | _ => None
  end.

Definition requests (out : list event)
  : list (option provider * option E_MATERIAL_TYPE) :=
  omap request out.

(** [n] calls of [loadShaders] in a row. *)
Fixpoint reloads (n : nat) : M unit :=
  match n with
  | O => ret tt
  | S n' => Shaders.loadShaders;; reloads n'
  end.

(** The entry of the kind [K] after [n] calls of [loadShaders], when it is
    [entry] before them and [added] materials were asked for so far: each
    call replaces it by its build unless that is the sentinel. *)
Fixpoint entry_after (env : Env) (K : ShaderType) (entry : option Z) (added n : nat)
  : option Z :=
  match n with
  | O => entry
  | S n' =>
      let v := material_of env (build_index K + added) in
      entry_after env K (if decide (v = -1) then entry else Some v) (22 + added) n'
  end.

(** ** Calls made draw after draw *)



Definition uniform_name (c : call) : option string :=
  match c with
  | glGetUniformLocation_ _ name => Some name
  | _ => None
  end.


(** ** A driver that lacks a uniform *)

(** The driver of [env], but for the uniform [missing], which it finds in
    no program. *)
Definition without_uniform (missing : string) (env : Env) : Env := {|
  ES_COUNT := ES_COUNT env;
  enum_value := enum_value env;
  shader_names := shader_names env;
  MAXLIGHT := MAXLIGHT env;
  sizeof_PointLightInfo := sizeof_PointLightInfo env;
  WIN32 := WIN32 env;
  getAsset := getAsset env;
  getAsset_SHADER := getAsset_SHADER env;
  getGLSLVersion := getGLSLVersion env;
  hasVSLayerExtension := hasVSLayerExtension env;
  needUBOWorkaround := needUBOWorkaround env;
  getViewMatrix := getViewMatrix env;
  getProjMatrix := getProjMatrix env;
  getInvViewMatrix := getInvViewMatrix env;
  getInvProjMatrix := getInvProjMatrix env;
  getCurrentScreenSize := getCurrentScreenSize env;
  material_of := material_of env;
  program_of := program_of env;
  tfb_program_of := tfb_program_of env;
  uniform_location := λ program name,
    if String.eqb name missing then -1 else uniform_location env program name;
  attrib_location := attrib_location env;
  uniform_block_index := uniform_block_index env;
  gen_name := gen_name env;
|}.

(** * Properties *)

(** ** The monad *)

Section Monad.
Context {St E : Type}.

Lemma wp_bind {A B} (m : Comp St E A) (k : A → Comp St E B) env s
    (Q : B → St → list E → Prop) :
  wp (m env s) (λ a s1 o1, wp (k a env s1) (λ b s2 o2, Q b s2 (o1 ++ o2)%list)) →
  wp (bind m k env s) Q.
Proof.
  unfold bind. destruct (m env s) as [a s1 o1|]; simpl; [|done].
  destruct (k a env s1); simpl; done.
Qed.

Lemma wp_done {A} (r : Res St E A) Q :
  wp r Q → ∃ a s out, r = Done a s out ∧ Q a s out.
Proof. destruct r; simpl; [eauto | done]. Qed.

Lemma bind_done {A B} (m : Comp St E A) (k : A → Comp St E B) env s a s1 o1 :
  m env s = Done a s1 o1 →
  bind m k env s =
    match k a env s1 with
    | Done b s2 o2 => Done b s2 (o1 ++ o2)
    | Failed why o2 => Failed why (o1 ++ o2)
    end.
Proof. intros H. unfold bind. by rewrite H. Qed.

Lemma returns_bind {A B} (m : Comp St E A) (k : A → Comp St E B) env s :
  returns (bind m k env s) ↔
  ∃ a s1 o1, m env s = Done a s1 o1 ∧ returns (k a env s1).
Proof.
  unfold bind. destruct (m env s) as [a s1 o1|]; simpl.
  - split.
    + intros H. exists a, s1, o1. split; [done|]. by destruct (k a env s1).
    + intros (a' & s' & o' & [= -> -> ->] & H). by destruct (k a' env s').
  - split; [done | by intros (? & ? & ? & ? & _)].
Qed.
End Monad.

(** ** The registry *)

Lemma log_of_app (out1 out2 : list event) : log_of (out1 ++ out2) = log_of out1 ++ log_of out2.
Proof. apply filter_app. Qed.

Lemma log_of_gl_call (out : list call) : log_of (gl_call <$> out) = [].
Proof. induction out as [|c out IH]; [done|]. simpl. apply IH. Qed.

Lemma log_of_check_log_from env mipviz i l :
  log_of (check_log_from env mipviz i l) = check_log_from env mipviz i l.
Proof.
  revert i. induction l as [|v l IH]; intros i; [done|]. simpl.
  rewrite log_of_app, IH. f_equal.
  destruct (decide (i = mipviz)); [done|]. by destruct (v =? -1).
Qed.

Section Registry.
Variable env : Env.
Hypothesis Hhdr : header_ok env.

Lemma builds_glsl_noinput a b : builds env (Shaders.glsl_noinput a b).
Proof. intros w _. eexists. split; [|reflexivity]. done. Qed.

Lemma callback_run K w :
  length (m_callbacks w) = ES_COUNT env →
  ∃ c, Shaders.callback K env w = Done c w [].
Proof.
  intros Hlen. unfold Shaders.callback, bind, ask, Shaders.m_callbacks_get.
  destruct (lookup_lt_is_Some_2 (m_callbacks w) (enum_value env K)) as [c Hc].
  { rewrite Hlen. apply Hhdr. }
  exists c. by rewrite Hc.
Qed.

Lemma builds_glslmat K a b d :
  builds env (c <- Shaders.callback K; Shaders.glslmat a b c d).
Proof.
  intros w Hlen. destruct (callback_run K w Hlen) as [c Hc].
  eexists. split; [|erewrite bind_done by exact Hc; reflexivity]. done.
Qed.

Lemma builds_glsl K a b :
  builds env (c <- Shaders.callback K; Shaders.glsl a b c).
Proof.
  intros w Hlen. destruct (callback_run K w Hlen) as [c Hc].
  eexists. split; [|erewrite bind_done by exact Hc; reflexivity]. done.
Qed.

Lemma wp_set_shader K m w (Q : unit → World → list event → Prop) :
  builds env m → world_ok env w →
  (∀ ev, log_of ev = [] →
     Q tt (MkWorld (<[enum_value env K := material_of env (materials_added w)]>
                      (m_shaders w))
                   (m_callbacks w) (S (materials_added w)) (statics w)) ev) →
  wp (Shaders.set_shader K m env w) Q.
Proof.
  intros Hm [Hs Hc] HQ. destruct (Hm w Hc) as (ev & Hev & Hrun).
  unfold Shaders.set_shader. rewrite (bind_done _ _ _ _ _ _ _ Hrun).
  unfold bind, ask, Shaders.m_shaders_set. simpl.
  rewrite decide_True by (rewrite Hs; apply Hhdr). simpl.
  rewrite !app_nil_r. by apply HQ.
Qed.

Lemma world_ok_step w K v n :
  world_ok env w →
  world_ok env (MkWorld (<[enum_value env K := v]> (m_shaders w))
                        (m_callbacks w) n (statics w)).
Proof. intros [Hs Hc]. split; simpl; [by rewrite length_insert | done]. Qed.

Lemma loadShaders_build_run w :
  world_ok env w →
  ∃ ev, log_of ev = [] ∧
    Shaders.loadShaders_build env w =
      Done (m_shaders w)
           (MkWorld (built env w) (m_callbacks w)
                    (22 + materials_added w) (statics w)) ev.
Proof.
  intros Hw.
  assert (wp (Shaders.loadShaders_build env w) (λ a w' ev,
    a = m_shaders w ∧ log_of ev = [] ∧
    w' = MkWorld (built env w) (m_callbacks w)
                 (22 + materials_added w) (statics w))) as H.
  { unfold Shaders.loadShaders_build.
    apply wp_bind; cbv beta iota delta [wp ask].
    apply wp_bind; cbv beta iota delta [wp gets].
    do 22 (apply wp_bind; apply wp_set_shader;
      [first [apply builds_glsl_noinput | apply builds_glslmat | apply builds_glsl]
      |split; cbn [m_shaders m_callbacks]; rewrite ?length_insert; apply Hw
      |intros ? ?; cbn [m_shaders m_callbacks materials_added statics]]).
    cbv beta iota delta [wp ret]. split; [done|]. split; [|reflexivity].
    rewrite !log_of_app.
    repeat match goal with H : log_of _ = [] |- _ => rewrite H; clear H end.
    done. }
  apply wp_done in H as (a & w' & ev & Hrun & -> & Hev & ->). eauto.
Qed.

(** The check loop: the world is untouched and the log is [check_log]. *)
Lemma check_run w i :
  (i < length (m_shaders w))%nat →
  Shaders.check i env w =
    Done tt w (if default 0 (m_shaders w !! i) =? -1
               then [error_message env i] else []).
Proof.
  intros Hi. destruct (lookup_lt_is_Some_2 _ _ Hi) as [v Hv].
  unfold Shaders.check, bind, Shaders.m_shaders_get. rewrite Hv. simpl.
  destruct (v =? -1); reflexivity.
Qed.

Lemma check_loop_run w mipviz pre l :
  m_shaders w = pre ++ l →
  for_range (length pre) (length l)
    (λ i, if decide (i = mipviz) then ret tt else Shaders.check i) env w =
  Done tt w (check_log_from env mipviz (length pre) l).
Proof.
  revert pre. induction l as [|v l IH]; intros pre Hw; [done|].
  simpl. unfold bind at 1.
  assert ((if decide (length pre = mipviz) then ret tt
           else Shaders.check (length pre)) env w =
          Done tt w (if decide (length pre = mipviz) then []
                     else if v =? -1 then [error_message env (length pre)]
                          else [])) as ->.
  { destruct (decide (length pre = mipviz)); [done|].
    rewrite check_run by (rewrite Hw, length_app; simpl; lia).
    rewrite Hw, list_lookup_middle by done. done. }
  specialize (IH (pre ++ [v])). rewrite length_app in IH. simpl in IH.
  replace (length pre + 1)%nat with (S (length pre)) in IH by lia.
  rewrite IH by (by rewrite <- app_assoc). done.
Qed.

Lemma loadShaders_check_run w :
  world_ok env w →
  Shaders.loadShaders_check env w = Done tt w (check_log env (m_shaders w)).
Proof.
  intros [Hs _]. unfold Shaders.loadShaders_check, bind, ask. simpl.
  rewrite <- Hs. rewrite (check_loop_run w _ [] (m_shaders w)) by done.
  simpl. done.
Qed.

(** The last loop: the entries become [keep saved current]. *)
Lemma keep_loop_run w saved1 saved2 pre l :
  m_shaders w = pre ++ l →
  length saved1 = length pre → length saved2 = length l →
  for_range (length pre) (length l)
    (λ i, v <- Shaders.m_shaders_get i;
          if v =? -1 then
            old <- Shaders.local_get (saved1 ++ saved2) i;
            Shaders.m_shaders_set i old
          else ret tt) env w =
  Done tt (MkWorld (pre ++ keep saved2 l) (m_callbacks w)
                   (materials_added w) (statics w)) [].
Proof.
  revert w saved1 saved2 pre.
  induction l as [|v l IH]; intros w saved1 saved2 pre Hw H1 H2.
  { destruct saved2; [|done]. simpl. unfold ret. rewrite <- Hw. by destruct w. }
  destruct saved2 as [|old saved2]; [done|]. simpl in H2.
  simpl. unfold bind at 1. unfold bind at 1.
  unfold Shaders.m_shaders_get at 1.
  rewrite Hw, list_lookup_middle by done.
  set (w1 := MkWorld (pre ++ (if v =? -1 then old else v) :: l) (m_callbacks w)
                     (materials_added w) (statics w)).
  assert ((if v =? -1
           then old0 <- Shaders.local_get (saved1 ++ old :: saved2) (length pre);
                Shaders.m_shaders_set (length pre) old0
           else ret tt) env w = Done tt w1 []) as ->.
  { destruct (v =? -1).
    - unfold bind, Shaders.local_get. rewrite <- H1, list_lookup_middle by done.
      simpl. unfold Shaders.m_shaders_set.
      rewrite decide_True by (rewrite Hw, length_app; simpl; lia).
      simpl. unfold w1. f_equal. f_equal. rewrite Hw.
      rewrite insert_app_r_alt by lia. by rewrite H1, Nat.sub_diag.
    - unfold ret. unfold w1. rewrite <- Hw. by destruct w. }
  specialize (IH w1 (saved1 ++ [old]) saved2 (pre ++ [if v =? -1 then old else v])).
  rewrite !length_app in IH. simpl in IH.
  replace (length pre + 1)%nat with (S (length pre)) in IH by lia.
  rewrite <- !app_assoc in IH. simpl in IH.
  rewrite IH by (unfold w1; simpl; try done; lia).
  simpl. done.
Qed.

Lemma loadShaders_keep_run w saved :
  world_ok env w → length saved = ES_COUNT env →
  Shaders.loadShaders_keep saved env w =
    Done tt (MkWorld (keep saved (m_shaders w)) (m_callbacks w)
                     (materials_added w) (statics w)) [].
Proof.
  intros [Hs _] Hsaved.
  pose proof (keep_loop_run w [] saved [] (m_shaders w) eq_refl eq_refl) as H.
  simpl in H. rewrite Hs in H. specialize (H Hsaved).
  unfold Shaders.loadShaders_keep. unfold bind at 1, ask. by rewrite H.
Qed.

Lemma foldl_insert_length (g : ShaderType → nat) (h : ShaderType → Z) ks l :
  length (foldl (λ l K, <[g K := h K]> l) l ks) = length l.
Proof.
  revert l. induction ks as [|K ks IH]; intros l; [done|].
  simpl. rewrite IH. by rewrite length_insert.
Qed.

Lemma built_length w : length (built env w) = length (m_shaders w).
Proof. apply foldl_insert_length. Qed.

Lemma foldl_insert_lookup_other (g : ShaderType → nat) (h : ShaderType → Z)
    ks (l : list Z) i :
  (∀ K, K ∈ ks → g K ≠ i) →
  foldl (λ l K, <[g K := h K]> l) l ks !! i = l !! i.
Proof.
  revert l. induction ks as [|K ks IH]; intros l Hne; [done|].
  simpl. rewrite IH by (intros K' HK'; apply Hne; by right).
  apply list_lookup_insert_ne, Hne. by left.
Qed.

Lemma foldl_insert_lookup (g : ShaderType → nat) (h : ShaderType → Z)
    ks (l : list Z) K :
  (∀ a b, g a = g b → a = b) → NoDup ks → K ∈ ks → (g K < length l)%nat →
  foldl (λ l K, <[g K := h K]> l) l ks !! g K = Some (h K).
Proof.
  intros Hinj. revert l. induction ks as [|K' ks IH]; intros l Hnd Hin Hlt.
  { by apply elem_of_nil in Hin. }
  apply NoDup_cons in Hnd as [Hnotin Hnd]. simpl.
  apply elem_of_cons in Hin as [->|Hin].
  - rewrite foldl_insert_lookup_other.
    + by apply list_lookup_insert_eq.
    + intros K HK E. apply Hinj in E. by subst.
  - apply IH; [done..|]. by rewrite length_insert.
Qed.

Lemma build_order_NoDup : NoDup build_order.
Proof. apply (bool_decide_unpack _). by vm_compute. Qed.

Lemma build_order_all K : K ∈ build_order.
Proof. destruct K; apply (bool_decide_unpack _); by vm_compute. Qed.

(** After the build pass the entry of each kind is its fresh build. *)
Lemma built_lookup w K :
  world_ok env w →
  built env w !! enum_value env K = Some (fresh_build env w K).
Proof.
  intros [Hs _]. unfold built.
  apply (foldl_insert_lookup (enum_value env) (fresh_build env w)).
  - apply Hhdr.
  - apply build_order_NoDup.
  - apply build_order_all.
  - rewrite Hs. apply Hhdr.
Qed.

Lemma keep_lookup (saved current : list Z) i :
  length saved = length current →
  keep saved current !! i =
    match current !! i with
    | Some v => if v =? -1 then saved !! i else Some v
    | None => None
    end.
Proof.
  unfold keep. revert current i.
  induction saved as [|old saved IH]; intros [|v current] i Hlen; try done.
  destruct i as [|i]; simpl.
  - by destruct (v =? -1).
  - apply IH. simpl in Hlen. lia.
Qed.

Lemma on_statics_run {A} (m : G A) w :
  on_statics m env w =
    match m env (statics w) with
    | Done a t out =>
        Done a (MkWorld (m_shaders w) (m_callbacks w) (materials_added w) t)
             (gl_call <$> out)
    | Failed why out => Failed why (gl_call <$> out)
    end.
Proof. reflexivity. Qed.

(** What [loadShaders] does, up to the run of its last part. *)
Lemma loadShaders_run w :
  world_ok env w →
  ∃ ev, log_of ev = [] ∧
    Shaders.loadShaders env w =
      match Shaders.loadShaders_init env (statics w) with
      | Done _ t out =>
          Done tt (MkWorld (keep (m_shaders w) (built env w)) (m_callbacks w)
                           (22 + materials_added w) t)
               (ev ++ check_log env (built env w) ++ (gl_call <$> out))
      | Failed why out =>
          Failed why (ev ++ check_log env (built env w) ++ (gl_call <$> out))
      end.
Proof.
  intros Hw. destruct (loadShaders_build_run w Hw) as (ev & Hev & Hbuild).
  exists ev. split; [done|].
  assert (world_ok env (MkWorld (built env w) (m_callbacks w)
                                (22 + materials_added w) (statics w))) as Hw1.
  { split; cbn [m_shaders m_callbacks]; [rewrite built_length|]; apply Hw. }
  unfold Shaders.loadShaders.
  rewrite (bind_done _ _ _ _ _ _ _ Hbuild).
  rewrite (bind_done _ _ _ _ _ _ _ (loadShaders_check_run _ Hw1)).
  erewrite (bind_done _ _ _ _ _ _ _ (loadShaders_keep_run _ _ Hw1 _)).
  rewrite on_statics_run. cbn [statics m_shaders m_callbacks materials_added].
  destruct (Shaders.loadShaders_init env (statics w)) as [[] t out|why out];
    cbn [app]; rewrite ?app_nil_r, <- ?app_assoc; reflexivity.
  Unshelve. apply Hw.
Qed.
End Registry.

(** ** The programs with static members *)

Ltac by_running := intros ? ?; exact I.

Lemma returns_when_bind_l {A B} (P : Env → Prop) (m : G A) (k : A → G B) :
  total m → (∀ a, returns_when P (k a)) → returns_when P (bind m k).
Proof.
  intros Hm Hk env s. specialize (Hm env s). unfold bind.
  destruct (m env s) as [a s1 o1|]; [|done].
  rewrite <- (Hk a env s1). by destruct (k a env s1).
Qed.

Lemma returns_when_bind_r {A B} (P : Env → Prop) (m : G A) (k : A → G B) :
  returns_when P m → (∀ a, total (k a)) → returns_when P (bind m k).
Proof.
  intros Hm Hk env s. rewrite <- (Hm env s). unfold bind.
  destruct (m env s) as [a s1 o1|]; [|done].
  specialize (Hk a env s1). by destruct (k a env s1).
Qed.

Lemma SimpleParticleRender_init_returns :
  returns_when particle_uniforms_found ParticleShader.SimpleParticleRender.init.
Proof.
  intros env s. unfold particle_uniforms_found, particle_program.
  unfold ParticleShader.SimpleParticleRender.init. cbn.
  repeat (match goal with
          | |- context [?a =? ?b] => destruct (Z.eqb_spec a b)
          end; cbn);
    intuition.
Qed.

Lemma ComputeGaussian17TapHShader_init_total :
  total FullScreenShader.ComputeGaussian17TapHShader.init.
Proof.
  intros env s. unfold FullScreenShader.ComputeGaussian17TapHShader.init. cbn.
  destruct (WIN32 env); [|exact I]. cbn. by destruct (getGLSLVersion env <? 420).
Qed.

Lemma ComputeGaussian17TapVShader_init_total :
  total FullScreenShader.ComputeGaussian17TapVShader.init.
Proof.
  intros env s. unfold FullScreenShader.ComputeGaussian17TapVShader.init. cbn.
  destruct (WIN32 env); [|exact I]. cbn. by destruct (getGLSLVersion env <? 420).
Qed.

Lemma loadShaders_init_returns :
  returns_when particle_uniforms_found Shaders.loadShaders_init.
Proof.
  unfold Shaders.loadShaders_init.
  do 34 (apply returns_when_bind_l;
    [first [by_running
           |apply ComputeGaussian17TapHShader_init_total
           |apply ComputeGaussian17TapVShader_init_total]
    |intros _]).
  apply returns_when_bind_r; [apply SimpleParticleRender_init_returns | intros _].
  by_running.
Qed.

(** ** The constructor and the log *)

Section Constructor.
Variable env : Env.
Hypothesis Hhdr : header_ok env.

Lemma set_callback_run K c w :
  length (m_callbacks w) = ES_COUNT env →
  Shaders.set_callback K c env w =
    Done tt (MkWorld (m_shaders w) (<[enum_value env K := c]> (m_callbacks w))
                     (materials_added w) (statics w)) [].
Proof.
  intros Hlen. unfold Shaders.set_callback, bind, ask, Shaders.m_callbacks_set.
  by rewrite decide_True by (rewrite Hlen; apply Hhdr).
Qed.

Lemma fill_loop_run w pre l :
  m_shaders w = pre ++ l →
  for_range (length pre) (length l) (λ i, Shaders.m_shaders_set i (-1)) env w =
    Done tt (MkWorld (pre ++ replicate (length l) (-1)) (m_callbacks w)
                     (materials_added w) (statics w)) [].
Proof.
  revert w pre. induction l as [|v l IH]; intros w pre Hw.
  { simpl. unfold ret. rewrite <- Hw. by destruct w. }
  simpl. unfold bind at 1. unfold Shaders.m_shaders_set at 1.
  rewrite decide_True by (rewrite Hw, length_app; simpl; lia).
  set (w1 := MkWorld _ _ _ _).
  specialize (IH w1 (pre ++ [-1])). rewrite length_app in IH. simpl in IH.
  replace (length pre + 1)%nat with (S (length pre)) in IH by lia.
  rewrite IH.
  - simpl. by rewrite <- app_assoc.
  - unfold w1. cbn [m_shaders]. rewrite Hw, insert_app_r_alt by lia.
    rewrite Nat.sub_diag. simpl. by rewrite <- app_assoc.
Qed.

Lemma bind_silent {A B} (m : M A) (k : A → M B) w a w1 :
  m env w = Done a w1 [] → bind m k env w = k a env w1.
Proof. intros H. unfold bind. rewrite H. by destruct (k a env w1). Qed.

Lemma copy_callback_run K K' w :
  length (m_callbacks w) = ES_COUNT env →
  ∃ c, (c <- Shaders.callback K; Shaders.set_callback K' c) env w =
    Done tt (MkWorld (m_shaders w) (<[enum_value env K' := c]> (m_callbacks w))
                     (materials_added w) (statics w)) [].
Proof.
  intros Hlen. destruct (callback_run env Hhdr K w Hlen) as [c Hc].
  exists c. rewrite (bind_silent _ _ _ _ _ Hc). by apply set_callback_run.
Qed.

(** The constructor runs [loadShaders] on a registry of sentinels. *)
Lemma Shaders_run w :
  world_ok env w →
  ∃ slots, length slots = ES_COUNT env ∧
    Shaders.Shaders env w =
      Shaders.loadShaders env
        (MkWorld (replicate (ES_COUNT env) (-1)) slots
                 (materials_added w) (statics w)).
Proof.
  intros [Hs Hc]. unfold Shaders.Shaders.
  erewrite bind_silent by reflexivity.
  do 6 (erewrite bind_silent by
          (apply set_callback_run; cbn [m_callbacks];
           rewrite ?length_insert, ?length_fmap; exact Hc);
        cbn [m_shaders m_callbacks materials_added statics]).
  match goal with
  | |- context [bind (bind (Shaders.callback ?K) _) _ env ?w1] =>
      destruct (copy_callback_run K ES_GAUSSIAN3V w1) as [c Hcopy];
        [cbn [m_callbacks]; rewrite ?length_insert, ?length_fmap; exact Hc|]
  end.
  rewrite (bind_silent _ _ _ _ _ Hcopy).
  cbn [m_shaders m_callbacks materials_added statics].
  do 4 (erewrite bind_silent by
          (apply set_callback_run; cbn [m_callbacks];
           rewrite ?length_insert, ?length_fmap; exact Hc);
        cbn [m_shaders m_callbacks materials_added statics]).
  erewrite bind_silent by reflexivity.
  match goal with
  | |- context [bind (for_range _ _ _) _ env ?w1] =>
      pose proof (fill_loop_run w1 [] (m_shaders w) eq_refl) as Hfill
  end.
  cbn [length app m_shaders m_callbacks materials_added statics] in Hfill.
  rewrite Hs in Hfill. rewrite (bind_silent _ _ _ _ _ Hfill).
  eexists. split; [|reflexivity].
  by rewrite !length_insert, length_fmap.
Qed.
End Constructor.

Lemma error_message_inj env i j :
  names_distinct env → (i < ES_COUNT env)%nat → (j < ES_COUNT env)%nat →
  error_message env i = error_message env j → i = j.
Proof. intros Hn Hi Hj [= E]. by apply Hn. Qed.

(** How often the message of the entry [j] occurs in the log of the check
    loop. *)
Lemma count_check_log_from env mipviz i (l : list Z) j :
  names_distinct env → (i + length l ≤ ES_COUNT env)%nat → (j < ES_COUNT env)%nat →
  count_occ event_eq_dec (check_log_from env mipviz i l) (error_message env j) =
    if decide (j ≠ mipviz ∧ (i ≤ j)%nat ∧ l !! (j - i)%nat = Some (-1))
    then 1%nat else 0%nat.
Proof.
  intros Hn. revert i. induction l as [|v l IH]; intros i Hi Hj.
  { simpl. case_decide as H; [|done]. by destruct H as (_ & _ & ?). }
  simpl in Hi. cbn [check_log_from]. rewrite count_occ_app, IH by lia.
  destruct (decide (i = j)) as [->|Hij].
  - rewrite Nat.sub_diag. cbn [lookup list_lookup].
    destruct (decide (j = mipviz)) as [->|Hm]; [|destruct (Z.eqb_spec v (-1)) as [->|Hv]];
      cbn [count_occ]; repeat (case_decide || destruct (event_eq_dec _ _));
      try done; try lia.
    all: try (exfalso; by match goal with H : ¬ _ |- _ => apply H end).
    all: try (destruct_and?; simplify_eq; done).
  - assert (count_occ event_eq_dec
              (if decide (i = mipviz) then []
               else if v =? -1 then [error_message env i] else [])
              (error_message env j) = 0%nat) as ->.
    { destruct (decide (i = mipviz)); [done|]. destruct (v =? -1); [|done].
      cbn [count_occ]. destruct (event_eq_dec _ _) as [E|]; [|done].
      apply error_message_inj in E; [done..|lia|done]. }
    destruct (decide (i ≤ j)%nat) as [Hle|Hgt].
    + replace (j - i)%nat with (S (j - S i)) by lia. cbn [lookup list_lookup].
      simpl. apply decide_ext.
      split; intros (? & ? & ?); (repeat split); (done || lia).
    + repeat case_decide; try done; destruct_and?; lia.
Qed.

Section Claims.
Variable env : Env.
Hypothesis Hhdr : header_ok env.

(** The log of a run of [loadShaders], returned or not. *)
Lemma loadShaders_log w :
  world_ok env w →
  log_of (out_of (Shaders.loadShaders env w)) = check_log env (built env w).
Proof.
  intros Hw. destruct (loadShaders_run env Hhdr w Hw) as (ev & Hev & ->).
  destruct (Shaders.loadShaders_init env (statics w)); cbn [out_of];
    rewrite !log_of_app, Hev, log_of_gl_call, app_nil_r;
    apply log_of_check_log_from.
Qed.

Lemma loadShaders_returns w :
  world_ok env w →
  returns (Shaders.loadShaders env w) ↔ particle_uniforms_found env.
Proof.
  intros Hw. destruct (loadShaders_run env Hhdr w Hw) as (ev & Hev & ->).
  rewrite <- (loadShaders_init_returns env (statics w)).
  by destruct (Shaders.loadShaders_init env (statics w)).
Qed.

Lemma loadShaders_entries w w' out :
  world_ok env w →
  Shaders.loadShaders env w = Done tt w' out →
  m_shaders w' = keep (m_shaders w) (built env w).
Proof.
  intros Hw. destruct (loadShaders_run env Hhdr w Hw) as (ev & Hev & ->).
  destruct (Shaders.loadShaders_init env (statics w)); [|done].
  by intros [= <- _].
Qed.

Lemma loadShaders_entry w w' out K :
  world_ok env w →
  Shaders.loadShaders env w = Done tt w' out →
  m_shaders w' !! enum_value env K =
    if decide (fresh_build env w K = -1)
    then m_shaders w !! enum_value env K
    else Some (fresh_build env w K).
Proof.
  intros Hw Hrun. rewrite (loadShaders_entries w w' out Hw Hrun).
  rewrite keep_lookup by (by rewrite built_length).
  rewrite (built_lookup env Hhdr w K Hw).
  destruct (Z.eqb_spec (fresh_build env w K) (-1)) as [E|E].
  - by rewrite decide_True.
  - by rewrite decide_False.
Qed.

Lemma loadShaders_count w K :
  world_ok env w → names_distinct env →
  count_occ event_eq_dec (log_of (out_of (Shaders.loadShaders env w)))
            (error_message env (enum_value env K)) =
    if decide (K ≠ ES_MIPVIZ ∧ fresh_build env w K = -1) then 1%nat else 0%nat.
Proof.
  intros Hw Hn. rewrite loadShaders_log by done. unfold check_log.
  rewrite count_check_log_from;
    [|done|rewrite built_length; pose proof (m_shaders_length _ _ Hw); simpl; lia
     |apply Hhdr].
  rewrite Nat.sub_0_r, (built_lookup env Hhdr w K Hw).
  apply decide_ext. split.
  - intros (Hne & _ & [= E]). split; [|done]. intros ->. done.
  - intros (Hne & E). split; [|split; [lia|by rewrite E]].
    intros E'. apply Hhdr in E'. done.
Qed.
End Claims.

Lemma check_log_from_elem env mipviz i (l : list Z) j :
  j ≠ mipviz → (i ≤ j)%nat → l !! (j - i)%nat = Some (-1) →
  error_message env j ∈ check_log_from env mipviz i l.
Proof.
  intros Hm. revert i. induction l as [|v l IH]; intros i Hij Hl; [done|].
  cbn [check_log_from]. apply elem_of_app.
  destruct (decide (i = j)) as [->|Hne].
  - left. rewrite Nat.sub_diag in Hl. injection Hl as ->.
    rewrite decide_False by done. simpl. by left.
  - right. apply IH; [lia|].
    replace (j - i)%nat with (S (j - S i)) in Hl by lia. exact Hl.
Qed.

Lemma check_log_from_inv env mipviz i (l : list Z) e :
  e ∈ check_log_from env mipviz i l →
  ∃ j, (i ≤ j)%nat ∧ j ≠ mipviz ∧ l !! (j - i)%nat = Some (-1)
       ∧ e = error_message env j.
Proof.
  revert i. induction l as [|v l IH]; intros i Hin.
  { by apply elem_of_nil in Hin. }
  cbn [check_log_from] in Hin. apply elem_of_app in Hin as [Hin|Hin].
  - destruct (decide (i = mipviz)); [by apply elem_of_nil in Hin|].
    destruct (Z.eqb_spec v (-1)) as [->|]; [|by apply elem_of_nil in Hin].
    apply list_elem_of_singleton in Hin as ->.
    exists i. rewrite Nat.sub_diag. by repeat split.
  - destruct (IH (S i) Hin) as (j & Hij & Hm & Hl & ->).
    exists j. split; [lia|]. split; [done|]. split; [|done].
    replace (j - i)%nat with (S (j - S i)) by lia. exact Hl.
Qed.

(** ** The environment of the examples *)

Lemma demo_header_ok version layer workaround materials :
  header_ok (demo_env version layer workaround materials).
Proof.
  split.
  - intros a b H. destruct a, b; first [reflexivity | discriminate H].
  - intros a. destruct a; cbn; lia.
Qed.

Lemma names_distinct_NoDup env :
  NoDup ((λ i, advance 3 (shader_names env i)) <$> seq 0 (ES_COUNT env)) →
  names_distinct env.
Proof.
  intros Hnd i j Hi Hj E.
  apply (NoDup_lookup _ i j (advance 3 (shader_names env i)) Hnd).
  - by rewrite list_lookup_fmap, lookup_seq_lt.
  - rewrite list_lookup_fmap, lookup_seq_lt by done. simpl. by f_equal.
Qed.

Lemma demo_names_distinct version layer workaround materials :
  names_distinct (demo_env version layer workaround materials).
Proof. apply names_distinct_NoDup, (bool_decide_unpack _). by vm_compute. Qed.

Lemma loaded_world_ok version layer workaround materials :
  world_ok (demo_env version layer workaround materials) loaded_world.
Proof. by split. Qed.

Lemma first_world_ok version layer workaround materials garbage slots :
  length garbage = 22%nat → length slots = 22%nat →
  world_ok (demo_env version layer workaround materials) (first_world garbage slots).
Proof. by split. Qed.

Lemma demo_particle_uniforms_found version layer workaround materials :
  particle_uniforms_found (demo_env version layer workaround materials).
Proof. by split; vm_compute. Qed.

(** * The claims *)

(** C1. After [loadShaders] has returned, the entry of every kind is the
    program freshly built for it unless that build gave the sentinel -1,
    in which case it is the entry the kind had before the call; so an
    entry that was not the sentinel never becomes the sentinel. *)
Theorem loadShaders_adopts_or_keeps (env : Env) (w w' : World)
    (out : list event) (K : ShaderType) :
  header_ok env → world_ok env w →
  Shaders.loadShaders env w = Done tt w' out →
  m_shaders w' !! enum_value env K =
    (if decide (fresh_build env w K = -1)
     then m_shaders w !! enum_value env K
     else Some (fresh_build env w K))
  ∧ (m_shaders w !! enum_value env K ≠ Some (-1) →
     m_shaders w' !! enum_value env K ≠ Some (-1)).
Proof.
  intros Hhdr Hw Hrun.
  pose proof (loadShaders_entry env Hhdr w w' out K Hw Hrun) as H.
  split; [exact H|]. intros Hold. rewrite H.
  case_decide as E; [done|]. by intros [= ?].
Qed.

(** A reload in which only the build of [ES_SKYBOX] fails: the kind keeps
    its program 7 and the next kind gets its new one. *)
Lemma loadShaders_adopts_or_keeps_witness :
  ∃ w' out,
    Shaders.loadShaders (demo_env 330 true false (all_but 24)) loaded_world
      = Done tt w' out
    ∧ m_shaders w' !! 2%nat = Some 7
    ∧ m_shaders w' !! 3%nat = Some 49.
Proof.
  destruct (Shaders.loadShaders (demo_env 330 true false (all_but 24)) loaded_world)
    as [[] w' out|why out] eqn:Hrun.
  - exists w', out. split; [reflexivity|]. split.
    + exact (proj1 (loadShaders_adopts_or_keeps _ _ _ _ ES_SKYBOX
                      (demo_header_ok _ _ _ _) (loaded_world_ok _ _ _ _) Hrun)).
    + exact (proj1 (loadShaders_adopts_or_keeps _ _ _ _ ES_SPLATTING
                      (demo_header_ok _ _ _ _) (loaded_world_ok _ _ _ _) Hrun)).
  - exfalso. vm_compute in Hrun. discriminate Hrun.
Defined.

(** C7. For every kind other than the mip-visualization one, [loadShaders]
    logs the error message that names the kind exactly once when the entry
    of the kind holds the sentinel after the build pass, and not at all
    when the build of the kind succeeded. *)
Theorem loadShaders_logs_each_failure_once (env : Env) (w : World)
    (K : ShaderType) :
  header_ok env → world_ok env w → names_distinct env → K ≠ ES_MIPVIZ →
  count_occ event_eq_dec (log_of (out_of (Shaders.loadShaders env w)))
            (error_message env (enum_value env K)) =
    if decide (fresh_build env w K = -1) then 1%nat else 0%nat.
Proof.
  intros Hhdr Hw Hn HK. rewrite loadShaders_count by done.
  apply decide_ext. split; [by intros [_ ?] | by split].
Qed.

(** On a first load in which only [ES_NORMAL_MAP] fails, one message
    names it and none names [ES_SKYBOX]. *)
Lemma loadShaders_logs_each_failure_once_witness :
  count_occ event_eq_dec
    (log_of (out_of (Shaders.loadShaders (demo_env 330 true false (all_but 0))
                       (first_world (replicate 22 (-1)) (replicate 22 None)))))
    (error_message (demo_env 330 true false (all_but 0)) 0) = 1%nat
  ∧ count_occ event_eq_dec
    (log_of (out_of (Shaders.loadShaders (demo_env 330 true false (all_but 0))
                       (first_world (replicate 22 (-1)) (replicate 22 None)))))
    (error_message (demo_env 330 true false (all_but 0)) 2) = 0%nat.
Proof.
  split.
  - exact (loadShaders_logs_each_failure_once _ _ ES_NORMAL_MAP
             (demo_header_ok _ _ _ _)
             (first_world_ok 330 true false (all_but 0) (replicate 22 (-1))
                (replicate 22 None) eq_refl eq_refl)
             (demo_names_distinct _ _ _ _) ltac:(discriminate)).
  - exact (loadShaders_logs_each_failure_once _ _ ES_SKYBOX
             (demo_header_ok _ _ _ _)
             (first_world_ok 330 true false (all_but 0) (replicate 22 (-1))
                (replicate 22 None) eq_refl eq_refl)
             (demo_names_distinct _ _ _ _) ltac:(discriminate)).
Defined.

(** C8, as the spec states it, fails.  When the build of the
    mip-visualization kind gives the sentinel (and every other build
    succeeds) the log of [loadShaders] is empty, so no warning is emitted
    for the kind.  And loading does not always continue to completion:
    with a driver that does not find the uniform color_from, the same
    load stops on the assertion of [SimpleParticleRender::init]. *)
Lemma mipviz_warning_counterexample :
  (fresh_build (demo_env 330 true false (all_but 13))
               (first_world (replicate 22 (-1)) (replicate 22 None)) ES_MIPVIZ = -1
   ∧ ¬ ∃ e, e ∈ log_of (out_of (Shaders.loadShaders
                                   (demo_env 330 true false (all_but 13))
                                   (first_world (replicate 22 (-1)) (replicate 22 None)))))
  ∧ fresh_build (without_uniform "color_from" (demo_env 330 true false (all_but 13)))
                (first_world (replicate 22 (-1)) (replicate 22 None)) ES_MIPVIZ = -1
  ∧ ¬ returns (Shaders.loadShaders
                 (without_uniform "color_from" (demo_env 330 true false (all_but 13)))
                 (first_world (replicate 22 (-1)) (replicate 22 None))).
Proof.
  split; [split; [reflexivity|]|split; [reflexivity|]].
  - intros [e He]. vm_compute in He. by apply elem_of_nil in He.
  - intros H. vm_compute in H. exact H.
Qed.

(** C8, amended.  A failed build of the mip-visualization kind neither
    stops [loadShaders] nor is reported.  [loadShaders] returns exactly
    when the program set-up at its end does, that is, unless the assertion
    of [SimpleParticleRender::init] fails.  Its log holds no message for
    the kind: every message in it is the error of [check] for another
    entry of the table that holds the sentinel after the build pass, so
    the log is empty when there is no such entry.  When [loadShaders] has
    returned, the kind has the entry it had before the call. *)
Theorem mipviz_failure_is_silent (env : Env) (w : World) :
  header_ok env → world_ok env w → names_distinct env →
  fresh_build env w ES_MIPVIZ = -1 →
  (returns (Shaders.loadShaders env w) ↔ particle_uniforms_found env)
  ∧ (∀ e, e ∈ log_of (out_of (Shaders.loadShaders env w)) →
       e ≠ error_message env (enum_value env ES_MIPVIZ)
       ∧ ∃ i, (i < ES_COUNT env)%nat ∧ i ≠ enum_value env ES_MIPVIZ
              ∧ built env w !! i = Some (-1) ∧ e = error_message env i)
  ∧ ((∀ i, i ≠ enum_value env ES_MIPVIZ → built env w !! i ≠ Some (-1)) →
     log_of (out_of (Shaders.loadShaders env w)) = [])
  ∧ ∀ w' out, Shaders.loadShaders env w = Done tt w' out →
      m_shaders w' !! enum_value env ES_MIPVIZ
        = m_shaders w !! enum_value env ES_MIPVIZ.
Proof.
  intros Hhdr Hw Hn Hfail. split; [by apply loadShaders_returns|].
  assert (∀ e, e ∈ log_of (out_of (Shaders.loadShaders env w)) →
            ∃ i, (i < ES_COUNT env)%nat ∧ i ≠ enum_value env ES_MIPVIZ
                 ∧ built env w !! i = Some (-1) ∧ e = error_message env i)
    as Hlog.
  { intros e. rewrite (loadShaders_log env Hhdr w Hw). unfold check_log.
    intros (i & _ & Hm & Hi & ->)%check_log_from_inv.
    rewrite Nat.sub_0_r in Hi. exists i. split; [|done].
    apply lookup_lt_Some in Hi. rewrite built_length in Hi.
    by destruct Hw as [<- _]. }
  split; [|split].
  - intros e He. split; [|by apply Hlog].
    destruct (Hlog e He) as (i & Hi & Hm & _ & ->). intros E. apply Hm.
    apply (error_message_inj env i _ Hn Hi (enum_lt env Hhdr ES_MIPVIZ) E).
  - intros Hnone.
    destruct (log_of (out_of (Shaders.loadShaders env w))) as [|e l] eqn:E;
      [done|].
    destruct (Hlog e) as (i & _ & Hm & Hi & _); [by left|].
    by destruct (Hnone i Hm).
  - intros w' out Hrun.
    rewrite (loadShaders_entry env Hhdr w w' out ES_MIPVIZ Hw Hrun).
    by rewrite decide_True.
Qed.

Lemma mipviz_failure_is_silent_witness :
  (returns (Shaders.loadShaders (demo_env 330 true false (all_but 35)) loaded_world)
   ↔ particle_uniforms_found (demo_env 330 true false (all_but 35)))
  ∧ log_of (out_of (Shaders.loadShaders (demo_env 330 true false (all_but 35))
                      loaded_world)) = []
  ∧ ∀ w' out,
      Shaders.loadShaders (demo_env 330 true false (all_but 35)) loaded_world
        = Done tt w' out →
      m_shaders w' !! 13%nat = Some 7.
Proof.
  destruct (mipviz_failure_is_silent (demo_env 330 true false (all_but 35))
              loaded_world (demo_header_ok _ _ _ _) (loaded_world_ok _ _ _ _)
              (demo_names_distinct _ _ _ _) eq_refl)
    as (Hret & _ & Hempty & Hentry).
  split; [exact Hret|]. split; [|exact Hentry].
  apply Hempty. intros i Hi Hv.
  assert (i < 22)%nat as Hlt.
  { apply lookup_lt_Some in Hv. by rewrite built_length in Hv. }
  do 22 (destruct i as [|i];
         [first [by destruct Hi | vm_compute in Hv; discriminate Hv]|]).
  lia.
Defined.

(** C2, as the spec states it, fails: on a first load (the constructor
    has set every entry to the sentinel) in which the build of the
    required kind [ES_NORMAL_MAP] gives the sentinel, the constructor
    returns; the start-up does not fail. *)
Lemma first_load_failure_counterexample :
  ¬ (fresh_build (demo_env 330 true false (all_but 0))
                 (first_world (replicate 22 0) (replicate 22 None))
                 ES_NORMAL_MAP = -1 →
     ¬ returns (Shaders.Shaders (demo_env 330 true false (all_but 0))
                  (first_world (replicate 22 0) (replicate 22 None)))).
Proof. intros H. apply H; [reflexivity|]. by vm_compute. Qed.

(** C2, amended.  No build of a kind that gives the sentinel stops the
    constructor or [loadShaders]: each returns exactly when the program
    set-up at the end of [loadShaders] does.  When a kind other than the
    mip-visualization one fails on the first load, the message naming it
    is logged, and when the constructor has returned the entry of every
    kind is what its build gave, the sentinel included. *)
Theorem first_load_failure_is_only_logged (env : Env) (w : World) :
  header_ok env → world_ok env w →
  (returns (Shaders.Shaders env w) ↔ particle_uniforms_found env)
  ∧ (returns (Shaders.loadShaders env w) ↔ particle_uniforms_found env)
  ∧ (∀ K, K ≠ ES_MIPVIZ → fresh_build env w K = -1 →
       error_message env (enum_value env K)
         ∈ log_of (out_of (Shaders.Shaders env w)))
  ∧ (∀ K w' out, Shaders.Shaders env w = Done tt w' out →
       m_shaders w' !! enum_value env K = Some (fresh_build env w K)).
Proof.
  intros Hhdr Hw. destruct (Shaders_run env Hhdr w Hw) as (slots & Hslots & ->).
  set (w1 := MkWorld _ slots _ _).
  assert (world_ok env w1) as Hw1.
  { split; [apply length_replicate | exact Hslots]. }
  split; [by apply loadShaders_returns|]. split; [by apply loadShaders_returns|].
  split.
  - intros K HK Hfail. rewrite loadShaders_log by done.
    apply check_log_from_elem.
    + intros E. by apply Hhdr in E.
    + lia.
    + rewrite Nat.sub_0_r, (built_lookup env Hhdr w1 K Hw1). by f_equal.
  - intros K w' out Hrun.
    rewrite (loadShaders_entry env Hhdr w1 w' out K Hw1 Hrun).
    change (fresh_build env w1 K) with (fresh_build env w K).
    case_decide as E; [|done]. rewrite E.
    apply lookup_replicate_2. apply Hhdr.
Qed.

Lemma first_load_failure_is_only_logged_witness :
  (returns (Shaders.Shaders (demo_env 330 true false (all_but 0))
              (first_world (replicate 22 0) (replicate 22 None)))
   ↔ particle_uniforms_found (demo_env 330 true false (all_but 0)))
  ∧ error_message (demo_env 330 true false (all_but 0)) 0
      ∈ log_of (out_of (Shaders.Shaders (demo_env 330 true false (all_but 0))
                          (first_world (replicate 22 0) (replicate 22 None)))).
Proof.
  destruct (first_load_failure_is_only_logged
              (demo_env 330 true false (all_but 0))
              (first_world (replicate 22 0) (replicate 22 None))
              (demo_header_ok _ _ _ _)
              (first_world_ok 330 true false (all_but 0) (replicate 22 0)
                 (replicate 22 None) eq_refl eq_refl))
    as (H1 & _ & H3 & _).
  split; [exact H1|]. exact (H3 ES_NORMAL_MAP ltac:(discriminate) eq_refl).
Defined.

(** C10. [getShader] asserts that its argument is below [ES_COUNT]; when
    it is, the result is the entry stored for that kind and the state is
    what it was. *)
Theorem getShader_returns_entry (env : Env) (w : World) (num : nat) :
  world_ok env w → (num < ES_COUNT env)%nat →
  ∃ v, m_shaders w !! num = Some v ∧
       Shaders.getShader num env w = Done v w [].
Proof.
  intros [Hs _] Hnum.
  destruct (lookup_lt_is_Some_2 (m_shaders w) num) as [v Hv]; [by rewrite Hs|].
  exists v. split; [done|].
  unfold Shaders.getShader, bind, ask, assert, Shaders.m_shaders_get.
  rewrite bool_decide_eq_true_2 by done. simpl. by rewrite Hv.
Qed.

Lemma getShader_returns_entry_witness :
  ∃ v, m_shaders loaded_world !! 5%nat = Some v ∧
       Shaders.getShader 5 (demo_env 330 true false all_good) loaded_world
         = Done v loaded_world [].
Proof.
  apply (getShader_returns_entry (demo_env 330 true false all_good) loaded_world 5).
  - apply loaded_world_ok.
  - simpl. lia.
Defined.

(** An argument that is not below [ES_COUNT] fails the assertion. *)
Lemma getShader_out_of_range (env : Env) (w : World) (num : nat) :
  (ES_COUNT env ≤ num)%nat →
  Shaders.getShader num env w = Failed assertion_failed [].
Proof.
  intros Hnum. unfold Shaders.getShader, bind, ask, assert.
  rewrite bool_decide_eq_false_2 by lia. reflexivity.
Qed.

(** ** Conversions *)

Lemma to_GLint_id z : is_GLint z → to_GLint z = z.
Proof.
  unfold is_GLint, to_GLint. intros Hz. cbv zeta.
  destruct (Z.ltb_spec (z mod 2 ^ 32) (2 ^ 31)) as [H|H].
  - destruct (Z_lt_le_dec z 0) as [Hneg|Hpos].
    + rewrite <- (Z.mod_add z 1 (2 ^ 32)) in H by lia.
      rewrite Z.mod_small in H by lia. lia.
    + apply Z.mod_small. lia.
  - destruct (Z_lt_le_dec z 0) as [Hneg|Hpos].
    + rewrite <- (Z.mod_add z 1 (2 ^ 32)) by lia.
      rewrite Z.mod_small by lia. lia.
    + rewrite Z.mod_small in H by lia. lia.
Qed.

(** A signed value survives being kept in an unsigned variable. *)
Lemma to_GLint_to_GLuint z : is_GLint z → to_GLint (to_GLuint z) = z.
Proof.
  intros Hz. rewrite <- (to_GLint_id z Hz) at 2.
  unfold to_GLint, to_GLuint. by rewrite Z.mod_mod by lia.
Qed.

Lemma to_GLuint_id z : is_GLuint z → to_GLuint z = z.
Proof. unfold is_GLuint, to_GLuint. intros Hz. apply Z.mod_small. lia. Qed.

(** ** Texture units *)

Section TextureUnits.
Variable env : Env.
Variable Program : GLuint.
Hypothesis Hloc : ∀ name, is_GLint (uniform_location env Program name).

Lemma AssignTextureUnit_Sub_run s (rest : list TexUnit) :
  Forall (λ u, is_GLint (m_index u)) rest →
  AssignTextureUnit_Sub Program rest env s = Done tt s (rest ≫= unit_calls env Program).
Proof.
  induction 1 as [|u rest Hu _ IH]; [done|].
  cbn [AssignTextureUnit_Sub]. unfold bind at 1. cbn.
  rewrite IH. cbn. unfold unit_calls.
  by rewrite to_GLint_to_GLuint, (to_GLint_id (m_index u)).
Qed.

Lemma AssignTextureUnit_run s (texUnit : TexUnit) (rest : list TexUnit) :
  Forall (λ u, is_GLint (m_index u)) (texUnit :: rest) →
  AssignTextureUnit Program texUnit rest env s =
    Done tt s (glUseProgram_ Program
               :: ((texUnit :: rest) ≫= unit_calls env Program) ++ [glUseProgram_ 0]).
Proof.
  intros Hall. apply Forall_cons in Hall as [Hu Hrest].
  destruct rest as [|u' rest].
  - cbn. by rewrite to_GLint_to_GLuint, (to_GLint_id (m_index texUnit)).
  - unfold AssignTextureUnit, AssignTextureUnitN.
    unfold bind at 1. cbn [glUseProgram emit].
    unfold bind at 1. cbn [as_GLuint glGetUniformLocation emit ask bind ret app].
    unfold bind at 1. cbn [glUniform1i emit].
    unfold bind at 1. rewrite AssignTextureUnit_Sub_run by done.
    cbn. by rewrite to_GLint_to_GLuint, (to_GLint_id (m_index texUnit)).
Qed.

Lemma uniform_writes_units (units : list TexUnit) (tail : list call) :
  uniform_writes Program ((units ≫= unit_calls env Program) ++ tail) =
    (unit_write env Program <$> units) ++ uniform_writes Program tail.
Proof. induction units as [|u units IH]; [done|]. cbn. by rewrite IH. Qed.

Lemma bound_after_units (units : list TexUnit) (tail : list call) :
  bound_after Program ((units ≫= unit_calls env Program) ++ tail) = bound_after Program tail.
Proof. induction units as [|u units IH]; [done|]. cbn. by rewrite IH. Qed.
End TextureUnits.

(** ** The uniform block of the camera *)

(** Running a constructor: the monad and the wrappers of the calls are
    unfolded, the arithmetic of the conversions is left alone. *)
Ltac run :=
  cbv beta iota zeta delta
    [bind ret ask get gets put modify emit fail assert load store into assign
     as_GLuint getUniformLocation void out_of app
     irr_driver_getGLSLVersion irr_driver_hasVSLayerExtension
     irr_driver_needUBOWorkaround needsUBO initGL LoadProgram LoadTFBProgram
     glUseProgram glGetUniformLocation glGetAttribLocation
     glGetUniformBlockIndex glUniformBlockBinding glUniform1i glUniform1f
     glUniform2f glUniform4i glUniformMatrix4fv fresh_name glGenBuffers
     glGenVertexArrays glBindBuffer glBufferData glBindVertexArray
     glEnableVertexAttribArray glVertexAttribPointer glVertexAttribIPointer
     glVertexAttribDivisor AssignUniforms AssignUniforms_from
     AssignTextureUnit AssignTextureUnit1 AssignTextureUnitN
     AssignTextureUnit_Sub createFullScreenVAO createVAO bypassUBO
     negb m_uniform m_index vars gens] in *.

(** Case analysis on the capabilities a constructor asks for. *)
Ltac split_capability :=
  match goal with
  | |- context [if ?c then _ else _] =>
      lazymatch c with
      | (_ <? _) => destruct c eqn:?
      | (_ =? _) => destruct c eqn:?
      | hasVSLayerExtension _ => destruct c eqn:?
      | needUBOWorkaround _ => destruct c eqn:?
      | WIN32 _ => destruct c eqn:?
      end
  end.

Ltac find_lookup H :=
  repeat (apply elem_of_cons in H as [H|H]; [try discriminate H|]);
  try (by apply elem_of_nil in H).

Ltac unfold_constructor :=
  unfold void;
  lazymatch goal with
  | |- context [bind ?c _ _ _] => unfold c
  end.

Ltac block_bound_to_0 :=
  let env := fresh "env" in let s := fresh "s" in
  let program := fresh "program" in let H := fresh "H" in
  intros env s program; unfold_constructor; run; repeat (split_capability; run);
  intros H; find_lookup H; injection H as ->;
  cbv beta iota delta [block_binding andb]; rewrite ?Z.eqb_refl; reflexivity.

Lemma constructors_bind_MatrixesData :
  Forall (λ c : G unit, ∀ env s program,
            glGetUniformBlockIndex_ program "MatrixesData" ∈ out_of (c env s) →
            block_binding None (out_of (c env s)) program
              (uniform_block_index env program "MatrixesData") = Some 0)
         constructors.
Proof.
  unfold constructors.
  repeat (apply Forall_cons; split; [block_bound_to_0|]).
  constructor.
Qed.

(** C3. Every program that a constructor or [init] function of the file
    builds and whose block "MatrixesData" it looks up has that block bound
    to the binding point 0 when the constructor is done: all these
    programs read the camera matrices from the one slot 0. *)
Theorem MatrixesData_bound_to_point_0 (c : G unit) (env : Env) (s : Statics)
    (program : GLuint) :
  c ∈ constructors →
  glGetUniformBlockIndex_ program "MatrixesData" ∈ out_of (c env s) →
  block_binding None (out_of (c env s)) program
    (uniform_block_index env program "MatrixesData") = Some 0.
Proof.
  intros Hc. revert env s program.
  exact (proj1 (Forall_forall _ _) constructors_bind_MatrixesData c Hc).
Qed.

Lemma MatrixesData_bound_to_point_0_witness :
  block_binding None
    (out_of (void MeshShader.ObjectPass1Shader
               (demo_env 330 true false all_good) Statics_at_start))
    4 0 = Some 0.
Proof.
  apply (MatrixesData_bound_to_point_0 (void MeshShader.ObjectPass1Shader)
           (demo_env 330 true false all_good) Statics_at_start 4).
  - unfold constructors. apply elem_of_cons. right. apply elem_of_cons. by left.
  - vm_compute. do 3 (apply elem_of_cons; right). apply elem_of_cons. by left.
Defined.

(** ** The shadow variants *)

Ltac shadow_paths :=
  let env := fresh "env" in let s := fresh "s" in
  intros env s;
  lazymatch goal with |- context [out_of (?c env s)] => unfold c end; run;
  destruct (Z.ltb_spec (getGLSLVersion env) 150) as [Hv|Hv]; run;
  [ split; [reflexivity|]; split; [intros ?; lia|]; split; reflexivity
  | destruct (hasVSLayerExtension env); run;
    (split; [reflexivity|]); (split; [|split; [|intros ?; lia]]);
    [ intros _; eexists; split; [reflexivity|]; by vm_compute
    | intros ?; lia
    | intros _; eexists; split; [reflexivity|]; by vm_compute
    | intros ?; lia ] ].

Lemma shadow_constructors_paths :
  Forall (λ c : G Shader, ∀ env s,
            head (out_of (c env s)) = Some irr_getGLSLVersion
            ∧ (150 ≤ getGLSLVersion env →
               ∃ stages, builds_in (out_of (c env s)) = [stages]
                 ∧ has_geometry_stage stages = negb (hasVSLayerExtension env))
            ∧ (getGLSLVersion env < 150 →
               c env s = Done unassigned s [irr_getGLSLVersion])
            ∧ (getGLSLVersion env < 150 → builds_in (out_of (c env s)) = []))
         shadow_constructors.
Proof.
  unfold shadow_constructors.
  repeat (apply Forall_cons; split; [shadow_paths|]).
  constructor.
Qed.

(** C5, as the spec states it, fails: with a driver of GLSL version 1.20
    the constructor of [ShadowShader] builds no program at all, by no
    alternate path; it returns after the version query. *)
Lemma shadow_alternate_path_counterexample :
  ¬ (getGLSLVersion (demo_env 120 true false all_good) < 150 →
     builds_in (out_of (MeshShader.ShadowShader (demo_env 120 true false all_good)
                          Statics_at_start)) ≠ []).
Proof. intros H. by apply H. Qed.

(** C5, amended.  Each constructor of a shadow variant asks for the GLSL
    version before anything else.  When the version is at least 150 it
    builds exactly one program, with a geometry stage exactly when the
    VS-layer extension is absent.  When the version is below 150 it
    returns at once: the version query is its only call, no program is
    built and the object is left without program and uniforms. *)
Theorem shadow_constructor_build_path (c : G Shader) (env : Env) (s : Statics) :
  c ∈ shadow_constructors →
  head (out_of (c env s)) = Some irr_getGLSLVersion
  ∧ (150 ≤ getGLSLVersion env →
     ∃ stages, builds_in (out_of (c env s)) = [stages]
       ∧ has_geometry_stage stages = negb (hasVSLayerExtension env))
  ∧ (getGLSLVersion env < 150 →
     c env s = Done unassigned s [irr_getGLSLVersion])
  ∧ (getGLSLVersion env < 150 → builds_in (out_of (c env s)) = []).
Proof.
  intros Hc. revert env s.
  exact (proj1 (Forall_forall _ _) shadow_constructors_paths c Hc).
Qed.

Lemma shadow_constructor_build_path_witness :
  head (out_of (MeshShader.GrassShadowShader (demo_env 330 false false all_good)
                  Statics_at_start)) = Some irr_getGLSLVersion
  ∧ (150 ≤ getGLSLVersion (demo_env 330 false false all_good) →
     ∃ stages,
       builds_in (out_of (MeshShader.GrassShadowShader
                            (demo_env 330 false false all_good) Statics_at_start))
         = [stages]
       ∧ has_geometry_stage stages
         = negb (hasVSLayerExtension (demo_env 330 false false all_good)))
  ∧ (getGLSLVersion (demo_env 330 false false all_good) < 150 →
     MeshShader.GrassShadowShader (demo_env 330 false false all_good)
       Statics_at_start
     = Done unassigned Statics_at_start [irr_getGLSLVersion])
  ∧ (getGLSLVersion (demo_env 330 false false all_good) < 150 →
     builds_in (out_of (MeshShader.GrassShadowShader
                          (demo_env 330 false false all_good) Statics_at_start))
       = []).
Proof.
  apply (shadow_constructor_build_path MeshShader.GrassShadowShader
           (demo_env 330 false false all_good) Statics_at_start).
  unfold shadow_constructors. do 4 (apply elem_of_cons; right).
  apply elem_of_cons. by left.
Defined.

(** ** The UBO workaround *)

(** C6. Each [setUniforms] that checks the UBO workaround (those of
    [ColoredLine], [SkyboxShader] and [PointLightShader]) asks the driver
    first; when the workaround is needed the calls of [bypassUBO] for the
    program of the class follow (the five camera uniforms are looked up in
    that program and written one by one), and only then the uniforms of
    the class are set; when it is not needed the uniforms of the class
    follow the query directly, and no camera uniform is looked up. *)
Theorem setUniforms_bypass_UBO (env : Env) (s : Statics) (col : SColor)
    (ModelMatrix : matrix4) (screen : vector2df) (TU_tex spec TU_ntex TU_dtex : Z) :
  let camera_state Program :=
    if needUBOWorkaround env then bypass_calls env (vars s Program) else [] in
  let own_ColoredLine :=
    [glUniform4i_ (to_GLint (vars s ColoredLine.uniform_color))
       (to_GLint (getRed col)) (to_GLint (getGreen col))
       (to_GLint (getBlue col)) (to_GLint (getAlpha col));
     glGetUniformLocation_ (vars s ColoredLine.Program) "ModelMatrix";
     glUniformMatrix4fv_
       (to_GLint (uniform_location env (vars s ColoredLine.Program) "ModelMatrix"))
       1 false IdentityMatrix] in
  let own_Skybox :=
    [glUniformMatrix4fv_ (to_GLint (vars s MeshShader.SkyboxShader.uniform_MM))
       1 false ModelMatrix;
     glUniform1i_ (to_GLint (vars s MeshShader.SkyboxShader.uniform_tex))
       (to_GLint TU_tex)] in
  let own_PointLight :=
    [glUniform1f_ (to_GLint (vars s LightShader.PointLightShader.uniform_spec)) 200%Q;
     glUniform1i_ (to_GLint (vars s LightShader.PointLightShader.uniform_ntex))
       (to_GLint TU_ntex);
     glUniform1i_ (to_GLint (vars s LightShader.PointLightShader.uniform_dtex))
       (to_GLint TU_dtex)] in
  ColoredLine.setUniforms col env s
    = Done tt s (irr_needUBOWorkaround
                   :: camera_state ColoredLine.Program ++ own_ColoredLine)
  ∧ MeshShader.SkyboxShader.setUniforms ModelMatrix screen TU_tex env s
    = Done tt s (irr_needUBOWorkaround
                   :: camera_state MeshShader.SkyboxShader.Program ++ own_Skybox)
  ∧ LightShader.PointLightShader.setUniforms screen spec TU_ntex TU_dtex env s
    = Done tt s (irr_needUBOWorkaround
                   :: camera_state LightShader.PointLightShader.Program
                   ++ own_PointLight)
  ∧ (let lookups Program :=
        if needUBOWorkaround env
        then glGetUniformLocation_ (vars s Program) <$> camera_uniforms else [] in
      filter camera_lookup (out_of (ColoredLine.setUniforms col env s))
        = lookups ColoredLine.Program
      ∧ filter camera_lookup
          (out_of (MeshShader.SkyboxShader.setUniforms ModelMatrix screen TU_tex env s))
        = lookups MeshShader.SkyboxShader.Program
      ∧ filter camera_lookup
          (out_of (LightShader.PointLightShader.setUniforms screen spec TU_ntex
                     TU_dtex env s))
        = lookups LightShader.PointLightShader.Program).
Proof.
  cbv zeta.
  unfold ColoredLine.setUniforms, MeshShader.SkyboxShader.setUniforms,
    LightShader.PointLightShader.setUniforms, bypass_calls.
  run. destruct s as [v g]. destruct (needUBOWorkaround env); run;
    repeat split; reflexivity.
Qed.

(** ** Samplers assigned at each draw *)

Ltac read_statics :=
  cbn [vars]; rewrite ?String.eqb_refl;
  repeat match goal with
         | |- context [String.eqb ?a ?b] => change (String.eqb a b) with false
         end;
  cbv beta iota.







(** ** The order of the uniforms *)

Ltac in_order Hloc :=
  let s := fresh "s" in
  unfold sets_in_order; intros s;
  lazymatch goal with
  | |- ∃ s1 tr out, ?init _ _ = _ ∧ ?set _ _ = _ ∧ _ =>
      let h := eval cbv beta in set in
      let f := lazymatch h with
               | ?f _ _ _ _ _ _ _ _ _ _ => f | ?f _ _ _ _ _ _ _ _ _ => f
               | ?f _ _ _ _ _ _ _ _ => f | ?f _ _ _ _ _ _ _ => f
               | ?f _ _ _ _ _ _ => f | ?f _ _ _ _ _ => f | ?f _ _ _ _ => f
               | ?f _ _ _ => f | ?f _ _ => f | ?f _ => f
               end in
      unfold init, f
  end;
  run; eexists _, _, _; (split; [reflexivity|]); read_statics;
  (split; [reflexivity|]);
  cbn [fmap list_fmap uniform_call resolved_writes fst snd];
  rewrite ?to_GLint_to_GLuint by apply Hloc; reflexivity.

(** C9, as the spec states it, fails.  The i-th argument does not always
    go to the i-th declared name: [MotionBlurShader::init] resolves
    previous_viewproj last, and [setUniforms] writes it first, from its
    second argument.  And a [setUniforms] does write locations of another
    program: with program 9 current, the four writes of
    [BubbleShader::setUniforms] address program 9, not its own program 3. *)
Lemma uniform_order_counterexample :
  (∃ s1 tr out,
     FullScreenShader.MotionBlurShader.init (demo_env 330 true false all_good)
       Statics_at_start = Done tt s1 tr
     ∧ omap uniform_name tr
       = ["boost_amount"; "center"; "color_buffer"; "mask_radius"; "dtex";
          "previous_viewproj"]
     ∧ FullScreenShader.MotionBlurShader.setUniforms 1%Q IdentityMatrix
         (Vector2df 2%Q 3%Q) 4%Q 5 6 (demo_env 330 true false all_good) s1
       = Done tt s1 out
     ∧ uniform_call <$> out
       = Some <$> resolved_writes (demo_env 330 true false all_good)
                    (vars s1 FullScreenShader.MotionBlurShader.Program)
                    [("previous_viewproj", value_Matrix4fv 1 false IdentityMatrix);
                     ("boost_amount", value_1f 1%Q);
                     ("center", value_2f 2%Q 3%Q);
                     ("mask_radius", value_1f 4%Q);
                     ("color_buffer", value_1i 5);
                     ("dtex", value_1i 6)]
     ∧ uniform_location (demo_env 330 true false all_good)
         (vars s1 FullScreenShader.MotionBlurShader.Program) "previous_viewproj"
       ≠ uniform_location (demo_env 330 true false all_good)
           (vars s1 FullScreenShader.MotionBlurShader.Program) "boost_amount")
  ∧ ∃ s1 tr out,
      MeshShader.BubbleShader.init (demo_env 330 true false all_good)
        Statics_at_start = Done tt s1 tr
      ∧ vars s1 MeshShader.BubbleShader.Program = 3
      ∧ MeshShader.BubbleShader.setUniforms IdentityMatrix 0 2%Q 0.5%Q
          (demo_env 330 true false all_good) s1 = Done tt s1 out
      ∧ uniform_writes 9 out =
          [(9, 25, value_Matrix4fv 1 false IdentityMatrix);
           (9, 3, value_1i 0); (9, 4, value_1f 2%Q); (9, 12, value_1f 0.5%Q)].
Proof.
  split.
  - eexists _, _, _. split; [reflexivity|]. split; [reflexivity|].
    split; [reflexivity|]. split; [reflexivity|]. by vm_compute.
  - eexists _, _, _. split; [reflexivity|]. repeat split.
Qed.

(** C9, amended.  [BubbleShader::init] returns, and when it has resolved
    the names ModelViewProjectionMatrix, tex, time and transparency in its
    program, [BubbleShader::setUniforms] makes exactly four calls: its
    i-th argument is written at the location that [init] resolved for the
    i-th name, in this order.  It looks up no name and makes no program
    current: every write addresses the program that is current when it is
    called, the same program is current afterwards, and the writes are
    all to the program of the class exactly when that program is the
    current one.  The order of the declaration is not that of every
    class: [MotionBlurShader::init] resolves boost_amount, center,
    color_buffer, mask_radius, dtex and previous_viewproj, and its
    [setUniforms] writes, each from the argument meant for it,
    previous_viewproj, boost_amount, center, mask_radius, color_buffer and
    dtex. *)
Theorem setUniforms_writes_cached_locations (env : Env) (s : Statics)
    (ModelViewProjectionMatrix : matrix4) (TU_tex : Z) (time transparency : float)
    (current : GLuint) (boost_amount mask_radius : float) (previousVP : matrix4)
    (center : vector2df) (TU_cb TU_dtex : Z) :
  (∀ program name, is_GLint (uniform_location env program name)) →
  (∃ s1 tr,
     MeshShader.BubbleShader.init env s = Done tt s1 tr
     ∧ let Program := vars s1 MeshShader.BubbleShader.Program in
       let location := uniform_location env Program in
       let writes :=
         [(location "ModelViewProjectionMatrix",
           value_Matrix4fv 1 false ModelViewProjectionMatrix);
          (location "tex", value_1i (to_GLint TU_tex));
          (location "time", value_1f time);
          (location "transparency", value_1f transparency)] in
       (∃ stages,
          tr = call_LoadProgram stages
               :: (glGetUniformLocation_ Program
                     <$> ["ModelViewProjectionMatrix"; "tex"; "time";
                          "transparency"]))
       ∧ ∃ out,
           MeshShader.BubbleShader.setUniforms ModelViewProjectionMatrix TU_tex
             time transparency env s1 = Done tt s1 out
           ∧ uniform_call <$> out = Some <$> writes
           ∧ uniform_writes current out = (λ w, (current, w.1, w.2)) <$> writes
           ∧ bound_after current out = current
           ∧ (Forall (λ w, w.1.1 = Program) (uniform_writes current out)
              ↔ current = Program))
  ∧ (∀ s, ∃ s1 tr,
       FullScreenShader.MotionBlurShader.init env s = Done tt s1 tr
       ∧ omap uniform_name tr
         = ["boost_amount"; "center"; "color_buffer"; "mask_radius"; "dtex";
            "previous_viewproj"])
  ∧ sets_in_order env FullScreenShader.MotionBlurShader.Program
      FullScreenShader.MotionBlurShader.init
      (FullScreenShader.MotionBlurShader.setUniforms boost_amount previousVP center
         mask_radius TU_cb TU_dtex)
      [("previous_viewproj", value_Matrix4fv 1 false previousVP);
       ("boost_amount", value_1f boost_amount);
       ("center", value_2f (X center) (Y center));
       ("mask_radius", value_1f mask_radius);
       ("color_buffer", value_1i (to_GLint TU_cb));
       ("dtex", value_1i (to_GLint TU_dtex))].
Proof.
  intros Hloc. split; [|split].
  - unfold MeshShader.BubbleShader.init. run.
    eexists _, _. split; [reflexivity|]. cbv zeta. read_statics.
    split; [by eexists|].
    unfold MeshShader.BubbleShader.setUniforms. run. read_statics.
    eexists. split; [reflexivity|].
    cbn [fmap list_fmap uniform_call uniform_writes bound_after fst snd].
    rewrite !to_GLint_to_GLuint by apply Hloc.
    split; [reflexivity|]. split; [reflexivity|]. split; [reflexivity|].
    split.
    + intros H. by apply Forall_cons in H as [H _].
    + intros ->. by repeat constructor.
  - intros s'. unfold FullScreenShader.MotionBlurShader.init. run.
    by eexists _, _.
  - in_order Hloc.
Qed.

Lemma setUniforms_writes_cached_locations_witness :
  ∃ s1 tr,
    MeshShader.BubbleShader.init (demo_env 330 true false all_good)
      Statics_at_start = Done tt s1 tr
    ∧ vars s1 MeshShader.BubbleShader.Program = 3
    ∧ ∃ out,
        MeshShader.BubbleShader.setUniforms IdentityMatrix 0 2%Q 0.5%Q
          (demo_env 330 true false all_good) s1 = Done tt s1 out
        ∧ uniform_writes 3 out =
            [(3, 25, value_Matrix4fv 1 false IdentityMatrix);
             (3, 3, value_1i 0); (3, 4, value_1f 2%Q); (3, 12, value_1f 0.5%Q)].
Proof.
  destruct (setUniforms_writes_cached_locations (demo_env 330 true false all_good)
              Statics_at_start IdentityMatrix 0 2%Q 0.5%Q 3 0%Q 0%Q IdentityMatrix
              (Vector2df 0%Q 0%Q) 0 0)
    as ((s1 & tr & Hinit & _ & out & Hset & _ & Hwrites & _) & _).
  - intros program name. unfold is_GLint. cbn.
    pose proof (Z.mod_pos_bound (Z.of_nat (String.length name)) 256). lia.
  - exists s1, tr. split; [exact Hinit|].
    injection Hinit as <- _. split; [reflexivity|].
    exists out. split; [exact Hset|]. exact Hwrites.
Defined.

(** * Further properties *)

(** ** The registry over its life *)

Section Lifecycle.
Variable env : Env.
Hypothesis Hhdr : header_ok env.

Lemma callback_value K w :
  length (m_callbacks w) = ES_COUNT env →
  Shaders.callback K env w =
    Done (default None (m_callbacks w !! enum_value env K)) w [].
Proof.
  intros Hlen. unfold Shaders.callback, bind, ask, Shaders.m_callbacks_get.
  destruct (lookup_lt_is_Some_2 (m_callbacks w) (enum_value env K)) as [c Hc].
  { rewrite Hlen. apply Hhdr. }
  by rewrite Hc.
Qed.

Lemma callbacks_set_length slots :
  length (callbacks_set env slots) = length slots.
Proof. unfold callbacks_set. by rewrite !length_insert, length_fmap. Qed.

(** The constructor runs [loadShaders] on a registry of sentinels whose
    callbacks are set. *)
Lemma Shaders_run_callbacks w :
  world_ok env w →
  Shaders.Shaders env w =
    Shaders.loadShaders env
      (MkWorld (replicate (ES_COUNT env) (-1)) (callbacks_set env (m_callbacks w))
               (materials_added w) (statics w)).
Proof.
  intros [Hs Hc]. unfold Shaders.Shaders.
  erewrite bind_silent by reflexivity.
  do 6 (erewrite bind_silent by
          (apply set_callback_run; [exact Hhdr|]; cbn [m_callbacks];
           rewrite ?length_insert, ?length_fmap; exact Hc);
        cbn [m_shaders m_callbacks materials_added statics]).
  erewrite (bind_silent _ (bind (Shaders.callback _) _)).
  2:{ erewrite bind_silent;
        [|apply callback_value; cbn [m_callbacks];
          rewrite ?length_insert, ?length_fmap; exact Hc].
      apply set_callback_run; [exact Hhdr|]. cbn [m_callbacks].
      rewrite ?length_insert, ?length_fmap. exact Hc. }
  cbn [m_shaders m_callbacks materials_added statics].
  do 4 (erewrite bind_silent by
          (apply set_callback_run; [exact Hhdr|]; cbn [m_callbacks];
           rewrite ?length_insert, ?length_fmap; exact Hc);
        cbn [m_shaders m_callbacks materials_added statics]).
  erewrite bind_silent by reflexivity.
  match goal with
  | |- context [bind (for_range _ _ _) _ env ?w1] =>
      pose proof (fill_loop_run env w1 [] (m_shaders w) eq_refl) as Hfill
  end.
  cbn [length app m_shaders m_callbacks materials_added statics] in Hfill.
  rewrite Hs in Hfill. rewrite (bind_silent _ _ _ _ _ _ Hfill).
  reflexivity.
Qed.

(** What the constructor leaves, when it returns. *)
Lemma Shaders_result w w' out :
  world_ok env w →
  Shaders.Shaders env w = Done tt w' out →
  m_shaders w' = keep (replicate (ES_COUNT env) (-1))
                      (built env (MkWorld (replicate (ES_COUNT env) (-1))
                                    (callbacks_set env (m_callbacks w))
                                    (materials_added w) (statics w)))
  ∧ m_callbacks w' = callbacks_set env (m_callbacks w)
  ∧ materials_added w' = (22 + materials_added w)%nat.
Proof.
  intros Hw. rewrite (Shaders_run_callbacks w Hw).
  set (w1 := MkWorld _ _ _ _).
  assert (world_ok env w1) as Hw1.
  { split; cbn; [by rewrite length_replicate|].
    rewrite callbacks_set_length. apply Hw. }
  destruct (loadShaders_run env Hhdr w1 Hw1) as (ev & Hev & ->).
  destruct (Shaders.loadShaders_init env (statics w1)); [|done].
  by intros [= <- _].
Qed.
End Lifecycle.

(** ** The destructor *)

Lemma destructor_loop env skip w i (l : list (option provider)) :
  drop i (m_callbacks w) = l →
  for_range i (length l)
    (λ i, if decide (i = skip) then ret tt else
          slots <- gets m_callbacks;
          match slots !! i with
          | None => fail out_of_bounds
          | Some None => ret tt
          | Some (Some c) => emit c
          end) env w
  = Done tt w (deleted_from skip i l).
Proof.
  revert i. induction l as [|c l IH]; intros i Hdrop; [done|].
  assert (m_callbacks w !! i = Some c) as Hc.
  { rewrite <- (Nat.add_0_r i), <- lookup_drop, Hdrop. done. }
  assert (drop (S i) (m_callbacks w) = l) as Hrest.
  { rewrite (drop_S _ _ _ Hc) in Hdrop. by injection Hdrop. }
  cbn [length for_range deleted_from].
  erewrite bind_done; [rewrite (IH (S i) Hrest); reflexivity|].
  destruct (decide (i = skip)); [done|].
  unfold bind, gets. rewrite Hc. by destruct c.
Qed.

Lemma Shaders_destructor_run env w :
  world_ok env w →
  Shaders_destructor env w =
    Done tt w (deleted_from (enum_value env ES_GAUSSIAN3V) 0 (m_callbacks w)).
Proof.
  intros [_ Hc]. unfold Shaders_destructor. unfold bind at 1, ask.
  unfold bind at 1. rewrite <- Hc.
  by rewrite (destructor_loop env _ w 0 (m_callbacks w) eq_refl).
Qed.

Lemma elem_of_deleted_from skip i l p :
  p ∈ deleted_from skip i l ↔
  ∃ j, l !! j = Some (Some p) ∧ (i + j)%nat ≠ skip.
Proof.
  revert i. induction l as [|c l IH]; intros i.
  { split; [by intros ?%elem_of_nil | by intros (j & ? & _)]. }
  cbn [deleted_from]. rewrite elem_of_app, IH. split.
  - intros [Hhere|(j & Hj & Hne)].
    + destruct (decide (i = skip)); [by apply elem_of_nil in Hhere|].
      destruct c as [c|]; [|by apply elem_of_nil in Hhere].
      apply list_elem_of_singleton in Hhere as ->. exists 0%nat. split; [done|lia].
    + exists (S j). split; [done|lia].
  - intros ([|j] & Hj & Hne).
    + left. injection Hj as ->. rewrite decide_False by lia.
      by apply list_elem_of_singleton.
    + right. exists j. split; [done|lia].
Qed.

Lemma NoDup_deleted_from skip i l :
  (∀ j1 j2 p, l !! j1 = Some (Some p) → l !! j2 = Some (Some p) →
     (i + j1)%nat ≠ skip → (i + j2)%nat ≠ skip → j1 = j2) →
  NoDup (deleted_from skip i l).
Proof.
  revert i. induction l as [|c l IH]; intros i Hinj; [constructor|].
  cbn [deleted_from].
  assert (NoDup (deleted_from skip (S i) l)) as Hrest.
  { apply IH. intros j1 j2 p H1 H2 Hn1 Hn2.
    assert (S j1 = S j2) as [= ->]; [|done].
    apply (Hinj (S j1) (S j2) p); (done || lia). }
  destruct (decide (i = skip)) as [->|Hne]; [done|].
  destruct c as [c|]; [|done]. simpl. apply NoDup_cons. split; [|done].
  intros (j & Hj & Hnj)%elem_of_deleted_from.
  by specialize (Hinj 0%nat (S j) c eq_refl Hj ltac:(lia) ltac:(lia)).
Qed.

Lemma owner_not_GAUSSIAN3V p : owner p ≠ ES_GAUSSIAN3V.
Proof. by destruct p. Qed.

(** Where the constructor has stored each object. *)
Lemma callbacks_set_lookup env slots j p :
  header_ok env → length slots = ES_COUNT env →
  callbacks_set env slots !! j = Some (Some p) ↔
  j = enum_value env (owner p)
  ∨ (p = GaussianBlurProvider ∧ j = enum_value env ES_GAUSSIAN3V).
Proof.
  intros Hhdr Hlen. unfold callbacks_set. cbv zeta.
  rewrite (list_lookup_insert_eq _ (enum_value env ES_GAUSSIAN3H))
    by (rewrite !length_insert, length_fmap, Hlen; apply Hhdr).
  cbn [default]. split.
  - rewrite !list_lookup_insert_Some, list_lookup_fmap.
    intros H.
    repeat match goal with
           | H : _ ∨ _ |- _ => destruct H
           | H : _ ∧ _ |- _ => destruct H
           end; simplify_eq/=; auto.
    by destruct (slots !! j).
  - intros [->|[-> ->]]; [destruct p|];
      repeat (rewrite list_lookup_insert_ne
                by (intros E; apply (enum_inj env Hhdr) in E; discriminate E));
      apply list_lookup_insert_eq;
      rewrite ?length_insert, length_fmap, Hlen; apply Hhdr.
Qed.

Lemma check_log_from_valid env mipviz i (l : list Z) :
  Forall (λ v, v ≠ -1) l → check_log_from env mipviz i l = [].
Proof.
  intros Hl. revert i. induction Hl as [|v l Hv _ IH]; intros i; [done|].
  cbn [check_log_from]. rewrite IH, app_nil_r.
  destruct (decide (i = mipviz)); [done|].
  by destruct (Z.eqb_spec v (-1)).
Qed.

Lemma built_lookup_other env w i :
  (∀ K, enum_value env K ≠ i) → built env w !! i = m_shaders w !! i.
Proof. intros Hi. apply foldl_insert_lookup_other. intros K _. apply Hi. Qed.

Lemma const_None_fmap (slots : list (option provider)) :
  (λ _, None) <$> slots = replicate (length slots) (None : option provider).
Proof. induction slots as [|c slots IH]; [done|]. cbn. by f_equal. Qed.

Lemma enum_value_dec env i :
  (∃ K, enum_value env K = i) ∨ (∀ K, enum_value env K ≠ i).
Proof.
  destruct (decide (Exists (λ K, enum_value env K = i) build_order)) as [H|H].
  - left. apply Exists_exists in H as (K & _ & HK). by exists K.
  - right. intros K HK. apply H, Exists_exists. exists K.
    split; [apply build_order_all|done].
Qed.

Lemma Done_state {S E A} (a a' : A) (s s' : S) (o o' : list E) :
  Done a s o = Done a' s' o' → s = s'.
Proof. by intros [= _ -> _]. Qed.

(** ** The registry: further properties *)

(** X1. After the constructor, the slots of [ES_GAUSSIAN3H] and
    [ES_GAUSSIAN3V] hold the same object, and the destructor, which skips
    the second, deletes the object of every provider class, each once. *)
Theorem Shaders_destructor_deletes_each_once (env : Env) (w w' : World)
    (out : list event) :
  header_ok env → world_ok env w →
  Shaders.Shaders env w = Done tt w' out →
  m_callbacks w' !! enum_value env ES_GAUSSIAN3V = Some (Some GaussianBlurProvider)
  ∧ m_callbacks w' !! enum_value env ES_GAUSSIAN3H = Some (Some GaussianBlurProvider)
  ∧ ∃ deleted,
      Shaders_destructor env w' = Done tt w' deleted
      ∧ NoDup deleted ∧ ∀ p, p ∈ deleted.
Proof.
  intros Hhdr Hw Hrun.
  destruct (Shaders_result env Hhdr w w' out Hw Hrun) as (Hs & Hc & _).
  assert (world_ok env w') as Hw'.
  { split.
    - rewrite Hs. unfold keep. rewrite length_zip_with, built_length.
      cbn [m_shaders]. rewrite length_replicate. lia.
    - rewrite Hc, callbacks_set_length. apply Hw. }
  assert (∀ j p, m_callbacks w' !! j = Some (Some p) ↔
            j = enum_value env (owner p)
            ∨ (p = GaussianBlurProvider ∧ j = enum_value env ES_GAUSSIAN3V))
    as Hlookup.
  { intros j p. rewrite Hc. apply callbacks_set_lookup; [done|apply Hw]. }
  split; [apply Hlookup; by right|].
  split; [apply Hlookup; by left|].
  eexists. split; [by apply Shaders_destructor_run|]. split.
  - apply NoDup_deleted_from. intros j1 j2 p H1 H2 Hn1 Hn2.
    apply Hlookup in H1 as [->|[_ ->]]; [|done].
    by apply Hlookup in H2 as [->|[_ ->]].
  - intros p. apply elem_of_deleted_from. exists (enum_value env (owner p)).
    split; [apply Hlookup; by left|].
    intros E. apply (enum_inj env Hhdr) in E. by apply owner_not_GAUSSIAN3V in E.
Qed.

Lemma Shaders_destructor_deletes_each_once_witness :
  ∃ w' out deleted,
    Shaders.Shaders (demo_env 330 true false all_good)
      (first_world (replicate 22 0) (replicate 22 None)) = Done tt w' out
    ∧ Shaders_destructor (demo_env 330 true false all_good) w' = Done tt w' deleted
    ∧ NoDup deleted ∧ ∀ p, p ∈ deleted.
Proof.
  destruct (Shaders.Shaders (demo_env 330 true false all_good)
              (first_world (replicate 22 0) (replicate 22 None)))
    as [[] w' out|why out] eqn:Hrun.
  - destruct (Shaders_destructor_deletes_each_once _ _ _ _
                (demo_header_ok _ _ _ _)
                (first_world_ok 330 true false all_good (replicate 22 0)
                   (replicate 22 None) eq_refl eq_refl) Hrun)
      as (_ & _ & deleted & Hd & Hnd & Hall).
    exists w', out, deleted. split; [reflexivity|]. split; [exact Hd|].
    split; [exact Hnd|exact Hall].
  - exfalso. vm_compute in Hrun. discriminate Hrun.
Defined.

(** X2. A call of [loadShaders] that returns has asked the driver for
    exactly 22 materials, has changed no callback slot and no entry the
    index of which is no kind, and has kept the sizes of both tables. *)
Theorem loadShaders_frame (env : Env) (w w' : World) (out : list event) :
  header_ok env → world_ok env w →
  Shaders.loadShaders env w = Done tt w' out →
  m_callbacks w' = m_callbacks w
  ∧ materials_added w' = (22 + materials_added w)%nat
  ∧ world_ok env w'
  ∧ ∀ i, (∀ K, enum_value env K ≠ i) → m_shaders w' !! i = m_shaders w !! i.
Proof.
  intros Hhdr Hw. destruct (loadShaders_run env Hhdr w Hw) as (ev & Hev & ->).
  destruct (Shaders.loadShaders_init env (statics w)); [|done].
  intros <-%Done_state. cbn [m_shaders m_callbacks materials_added].
  split; [done|]. split; [done|]. split.
  - split; cbn [m_shaders m_callbacks]; [|apply Hw]. unfold keep.
    rewrite length_zip_with, built_length. destruct Hw as [-> _]. lia.
  - intros i Hi. rewrite keep_lookup by (by rewrite built_length).
    rewrite (built_lookup_other env w i Hi).
    destruct (m_shaders w !! i) as [v|] eqn:Hv; [|done].
    by destruct (Z.eqb_spec v (-1)) as [->|].
Qed.

Lemma loadShaders_frame_witness :
  ∃ w' out,
    Shaders.loadShaders (demo_env 330 true false all_good) loaded_world
      = Done tt w' out
    ∧ m_callbacks w' = replicate 22 None
    ∧ materials_added w' = 44%nat.
Proof.
  destruct (Shaders.loadShaders (demo_env 330 true false all_good) loaded_world)
    as [[] w' out|why out] eqn:Hrun.
  - destruct (loadShaders_frame _ _ _ _ (demo_header_ok _ _ _ _)
                (loaded_world_ok _ _ _ _) Hrun) as (Hc & Hn & _).
    exists w', out. split; [reflexivity|]. split; [exact Hc|exact Hn].
  - exfalso. vm_compute in Hrun. discriminate Hrun.
Defined.

(** X3. A reload in which every build gives the sentinel leaves the whole
    table of programs as it was. *)
Theorem loadShaders_all_failed_keeps_table (env : Env) (w w' : World)
    (out : list event) :
  header_ok env → world_ok env w →
  (∀ K, fresh_build env w K = -1) →
  Shaders.loadShaders env w = Done tt w' out →
  m_shaders w' = m_shaders w.
Proof.
  intros Hhdr Hw Hfail Hrun.
  rewrite (loadShaders_entries env Hhdr w w' out Hw Hrun).
  apply list_eq. intros i. rewrite keep_lookup by (by rewrite built_length).
  destruct (built env w !! i) as [v|] eqn:Hv.
  - destruct (enum_value_dec env i) as [[K <-]|Hno].
    + rewrite (built_lookup env Hhdr w K Hw) in Hv. injection Hv as <-.
      by rewrite Hfail.
    + rewrite built_lookup_other in Hv by done.
      rewrite Hv. by destruct (Z.eqb_spec v (-1)).
  - apply lookup_ge_None in Hv. rewrite built_length in Hv.
    symmetry. by apply lookup_ge_None.
Qed.

Lemma loadShaders_all_failed_keeps_table_witness :
  ∃ w' out,
    Shaders.loadShaders (demo_env 330 true false (λ _, -1)) loaded_world
      = Done tt w' out
    ∧ m_shaders w' = replicate 22 7.
Proof.
  destruct (Shaders.loadShaders (demo_env 330 true false (λ _, -1)) loaded_world)
    as [[] w' out|why out] eqn:Hrun.
  - exists w', out. split; [reflexivity|].
    exact (loadShaders_all_failed_keeps_table _ _ _ _ (demo_header_ok _ _ _ _)
             (loaded_world_ok _ _ _ _) (λ _, eq_refl) Hrun).
  - exfalso. vm_compute in Hrun. discriminate Hrun.
Defined.

(** X4. The constructor reads nothing of what the two tables held before:
    from any two objects of the right sizes it gives the same result. *)
Theorem Shaders_ignores_previous_contents (env : Env)
    (garbage garbage' : list Z) (slots slots' : list (option provider))
    (n : nat) (t : Statics) :
  header_ok env →
  length garbage = ES_COUNT env → length garbage' = ES_COUNT env →
  length slots = ES_COUNT env → length slots' = ES_COUNT env →
  Shaders.Shaders env (MkWorld garbage slots n t)
    = Shaders.Shaders env (MkWorld garbage' slots' n t).
Proof.
  intros Hhdr Hg Hg' Hs Hs'.
  rewrite !(Shaders_run_callbacks env Hhdr) by (by split).
  cbn [m_callbacks materials_added statics]. unfold callbacks_set.
  by rewrite !const_None_fmap, Hs, Hs'.
Qed.

Lemma Shaders_ignores_previous_contents_witness :
  Shaders.Shaders (demo_env 330 true false all_good)
    (MkWorld (replicate 22 7) (replicate 22 (Some MipVizProvider)) 0 Statics_at_start)
  = Shaders.Shaders (demo_env 330 true false all_good)
      (MkWorld (replicate 22 0) (replicate 22 None) 0 Statics_at_start).
Proof.
  by apply (Shaders_ignores_previous_contents (demo_env 330 true false all_good)
              _ _ _ _ 0%nat Statics_at_start (demo_header_ok _ _ _ _)).
Defined.

(** X5. When the constructor has returned, [getShader] gives for every
    kind what the driver answered to the request for the kind, the
    sentinel of a failed build included. *)
Theorem getShader_after_Shaders (env : Env) (w w' : World) (out : list event)
    (K : ShaderType) :
  header_ok env → world_ok env w →
  Shaders.Shaders env w = Done tt w' out →
  Shaders.getShader (enum_value env K) env w' = Done (fresh_build env w K) w' [].
Proof.
  intros Hhdr Hw Hrun.
  destruct (Shaders_result env Hhdr w w' out Hw Hrun) as (Hs & _ & _).
  set (w1 := MkWorld _ _ _ _) in Hs.
  assert (world_ok env w1) as Hw1.
  { split; cbn [w1 m_shaders m_callbacks]; [by rewrite length_replicate|].
    rewrite callbacks_set_length. apply Hw. }
  assert (m_shaders w' !! enum_value env K = Some (fresh_build env w K)) as Hv.
  { rewrite Hs, keep_lookup
      by (rewrite built_length; cbn [w1 m_shaders]; done).
    rewrite (built_lookup env Hhdr w1 K Hw1).
    change (fresh_build env w1 K) with (fresh_build env w K).
    destruct (Z.eqb_spec (fresh_build env w K) (-1)) as [->|]; [|done].
    apply lookup_replicate_2, Hhdr. }
  unfold Shaders.getShader, bind, ask, assert, Shaders.m_shaders_get.
  rewrite bool_decide_eq_true_2 by apply Hhdr. cbn [ret].
  by rewrite Hv.
Qed.

Lemma getShader_after_Shaders_witness :
  ∃ w' out,
    Shaders.Shaders (demo_env 330 true false (all_but 4))
      (first_world (replicate 22 0) (replicate 22 None)) = Done tt w' out
    ∧ Shaders.getShader 4 (demo_env 330 true false (all_but 4)) w'
      = Done (-1) w' []
    ∧ Shaders.getShader 5 (demo_env 330 true false (all_but 4)) w'
      = Done 29 w' [].
Proof.
  destruct (Shaders.Shaders (demo_env 330 true false (all_but 4))
              (first_world (replicate 22 0) (replicate 22 None)))
    as [[] w' out|why out] eqn:Hrun.
  - exists w', out. split; [reflexivity|]. split.
    + exact (getShader_after_Shaders _ _ _ _ ES_WATER (demo_header_ok _ _ _ _)
               (first_world_ok 330 true false (all_but 4) (replicate 22 0)
                  (replicate 22 None) eq_refl eq_refl) Hrun).
    + exact (getShader_after_Shaders _ _ _ _ ES_WATER_SURFACE
               (demo_header_ok _ _ _ _)
               (first_world_ok 330 true false (all_but 4) (replicate 22 0)
                  (replicate 22 None) eq_refl eq_refl) Hrun).
  - exfalso. vm_compute in Hrun. discriminate Hrun.
Defined.

Lemma demo_header_complete version layer workaround materials i :
  (i < ES_COUNT (demo_env version layer workaround materials))%nat →
  ∃ K, enum_value (demo_env version layer workaround materials) K = i.
Proof.
  cbn [ES_COUNT enum_value demo_env]. intros Hi.
  exists (default ES_NORMAL_MAP (build_order !! i)).
  do 22 (destruct i as [|i]; [reflexivity|]). lia.
Qed.

(** X6. When every index below [ES_COUNT] is a kind and every build
    succeeds, [loadShaders] logs nothing, and when it has returned no entry
    of the table is the sentinel. *)
Theorem loadShaders_all_built (env : Env) (w : World) :
  header_ok env → world_ok env w →
  (∀ i, (i < ES_COUNT env)%nat → ∃ K, enum_value env K = i) →
  (∀ K, fresh_build env w K ≠ -1) →
  log_of (out_of (Shaders.loadShaders env w)) = []
  ∧ ∀ w' out, Shaders.loadShaders env w = Done tt w' out →
      Forall (λ v, v ≠ -1) (m_shaders w').
Proof.
  intros Hhdr Hw Hall Hbuilt.
  assert (Forall (λ v, v ≠ -1) (built env w)) as Hvalid.
  { apply Forall_lookup. intros i v Hv.
    destruct (Hall i) as [K <-].
    - apply lookup_lt_Some in Hv. rewrite built_length in Hv.
      by destruct Hw as [<- _].
    - rewrite (built_lookup env Hhdr w K Hw) in Hv. injection Hv as <-.
      apply Hbuilt. }
  split.
  - rewrite (loadShaders_log env Hhdr w Hw). by apply check_log_from_valid.
  - intros w' out Hrun. rewrite (loadShaders_entries env Hhdr w w' out Hw Hrun).
    apply Forall_lookup. intros i v.
    rewrite keep_lookup by (by rewrite built_length).
    destruct (built env w !! i) as [v'|] eqn:Hv'; [|done].
    pose proof (proj1 (Forall_lookup _ _) Hvalid i v' Hv') as Hne.
    destruct (Z.eqb_spec v' (-1)); [done|]. by intros [= <-].
Qed.

Lemma loadShaders_all_built_witness :
  log_of (out_of (Shaders.loadShaders (demo_env 330 true false all_good)
                    (first_world (replicate 22 (-1)) (replicate 22 None)))) = []
  ∧ ∀ w' out,
      Shaders.loadShaders (demo_env 330 true false all_good)
        (first_world (replicate 22 (-1)) (replicate 22 None)) = Done tt w' out →
      Forall (λ v, v ≠ -1) (m_shaders w').
Proof.
  apply (loadShaders_all_built (demo_env 330 true false all_good)
           (first_world (replicate 22 (-1)) (replicate 22 None))
           (demo_header_ok _ _ _ _)
           (first_world_ok 330 true false all_good (replicate 22 (-1))
              (replicate 22 None) eq_refl eq_refl)
           (demo_header_complete _ _ _ _)).
  intros K. unfold fresh_build, all_good. cbn [material_of demo_env]. lia.
Defined.

(** ** The requests of the build pass *)

Section Requests.
Variable env : Env.
Hypothesis Hhdr : header_ok env.

Lemma set_shader_noinput_run K a b w :
  world_ok env w →
  Shaders.set_shader K (Shaders.glsl_noinput a b) env w =
    Done tt (MkWorld (<[enum_value env K := material_of env (materials_added w)]>
                        (m_shaders w))
                     (m_callbacks w) (S (materials_added w)) (statics w))
         [addHighLevelShaderMaterialFromFiles_ a b None None].
Proof.
  intros [Hs _]. unfold Shaders.set_shader, bind, ask, Shaders.m_shaders_set.
  cbn. by rewrite decide_True by (rewrite Hs; apply Hhdr).
Qed.

Lemma set_shader_callback_run K K' a b d w :
  world_ok env w →
  Shaders.set_shader K
    (c <- Shaders.callback K';
     Shaders.addHighLevelShaderMaterialFromFiles a b c d) env w =
    Done tt (MkWorld (<[enum_value env K := material_of env (materials_added w)]>
                        (m_shaders w))
                     (m_callbacks w) (S (materials_added w)) (statics w))
         [addHighLevelShaderMaterialFromFiles_ a b
            (default None (m_callbacks w !! enum_value env K')) d].
Proof.
  intros [Hs Hc]. unfold Shaders.set_shader.
  erewrite bind_done.
  2:{ erewrite bind_done by (by apply callback_value). reflexivity. }
  unfold bind, ask, Shaders.m_shaders_set. cbn.
  by rewrite decide_True by (rewrite Hs; apply Hhdr).
Qed.

Lemma loadShaders_build_requests w :
  world_ok env w →
  let cb K := default None (m_callbacks w !! enum_value env K) in
  requests (out_of (Shaders.loadShaders_build env w)) =
    [(None, None); (None, None);
     (cb ES_SKYBOX, Some EMT_TRANSPARENT_ALPHA_CHANNEL); (None, None);
     (cb ES_WATER, Some EMT_TRANSPARENT_ALPHA_CHANNEL); (cb ES_WATER, None);
     (None, None);
     (cb ES_GRASS, Some EMT_TRANSPARENT_ALPHA_CHANNEL);
     (cb ES_GRASS, Some EMT_TRANSPARENT_ALPHA_CHANNEL_REF);
     (cb ES_BUBBLES, Some EMT_TRANSPARENT_ALPHA_CHANNEL);
     (cb ES_MOTIONBLUR, None);
     (cb ES_GAUSSIAN3H, Some EMT_SOLID); (cb ES_GAUSSIAN3V, Some EMT_SOLID);
     (cb ES_MIPVIZ, Some EMT_SOLID); (cb ES_COLORIZE, Some EMT_SOLID);
     (None, None); (None, None); (None, None); (None, None); (None, None);
     (cb ES_DISPLACE, Some EMT_TRANSPARENT_ALPHA_CHANNEL);
     (cb ES_COLORIZE, None)].
Proof.
  intros Hw. cbv zeta. unfold Shaders.loadShaders_build.
  unfold bind at 1, ask. unfold bind at 1, gets.
  do 22 (erewrite bind_done by
           (first [apply set_shader_noinput_run
                  | apply (set_shader_callback_run _ _ _ _ (Some _))
                  | apply (set_shader_callback_run _ _ _ _ None)];
            split; cbn [m_shaders m_callbacks]; rewrite ?length_insert; apply Hw);
         cbn [m_shaders m_callbacks materials_added statics]).
  reflexivity.
Qed.

Lemma requests_app (out1 out2 : list event) :
  requests (out1 ++ out2) = requests out1 ++ requests out2.
Proof. apply omap_app. Qed.

Lemma requests_gl_call (out : list call) : requests (gl_call <$> out) = [].
Proof. induction out as [|c out IH]; [done|]. exact IH. Qed.

Lemma requests_check_log_from mipviz i l :
  requests (check_log_from env mipviz i l) = [].
Proof.
  revert i. induction l as [|v l IH]; intros i; [done|].
  cbn [check_log_from]. rewrite requests_app, IH, app_nil_r.
  destruct (decide (i = mipviz)); [done|]. by destruct (v =? -1).
Qed.

Lemma loadShaders_requests w :
  world_ok env w →
  requests (out_of (Shaders.loadShaders env w))
    = requests (out_of (Shaders.loadShaders_build env w)).
Proof.
  intros Hw. destruct (loadShaders_build_run env Hhdr w Hw) as (ev & Hev & Hbuild).
  assert (world_ok env (MkWorld (built env w) (m_callbacks w)
                                (22 + materials_added w) (statics w))) as Hw1.
  { split; cbn [m_shaders m_callbacks]; [rewrite built_length|]; apply Hw. }
  unfold Shaders.loadShaders.
  rewrite (bind_done _ _ _ _ _ _ _ Hbuild), Hbuild.
  rewrite (bind_done _ _ _ _ _ _ _ (loadShaders_check_run env _ Hw1)).
  erewrite (bind_done _ _ _ _ _ _ _ (loadShaders_keep_run env _ _ Hw1 _)).
  rewrite on_statics_run. cbn [statics m_shaders m_callbacks materials_added].
  destruct (Shaders.loadShaders_init env (statics w)) as [[] t out|why out];
    cbn [out_of app];
    rewrite !requests_app, requests_gl_call, ?app_nil_r;
    unfold check_log; by rewrite requests_check_log_from, app_nil_r.
  Unshelve. apply Hw.
Qed.
End Requests.

(** X23. Whatever the driver answers, the constructor makes exactly 22
    requests for materials, with these callbacks and base materials in this
    order: the water, grass, Gaussian-blur and colorize objects are each
    passed to two requests, and the [SunLightProvider] object that the
    constructor creates is passed to none. *)
Theorem Shaders_passes_callbacks (env : Env) (w : World) :
  header_ok env → world_ok env w →
  requests (out_of (Shaders.Shaders env w)) =
    [(None, None); (None, None);
     (Some SkyboxProvider, Some EMT_TRANSPARENT_ALPHA_CHANNEL); (None, None);
     (Some WaterShaderProvider, Some EMT_TRANSPARENT_ALPHA_CHANNEL);
     (Some WaterShaderProvider, None);
     (None, None);
     (Some GrassShaderProvider, Some EMT_TRANSPARENT_ALPHA_CHANNEL);
     (Some GrassShaderProvider, Some EMT_TRANSPARENT_ALPHA_CHANNEL_REF);
     (Some BubbleEffectProvider, Some EMT_TRANSPARENT_ALPHA_CHANNEL);
     (Some MotionBlurProvider, None);
     (Some GaussianBlurProvider, Some EMT_SOLID);
     (Some GaussianBlurProvider, Some EMT_SOLID);
     (Some MipVizProvider, Some EMT_SOLID); (Some ColorizeProvider, Some EMT_SOLID);
     (None, None); (None, None); (None, None); (None, None); (None, None);
     (Some DisplaceProvider, Some EMT_TRANSPARENT_ALPHA_CHANNEL);
     (Some ColorizeProvider, None)]
  ∧ SunLightProvider ∉ omap fst (requests (out_of (Shaders.Shaders env w))).
Proof.
  intros Hhdr Hw.
  assert (∀ p, default None (callbacks_set env (m_callbacks w)
                               !! enum_value env (owner p)) = Some p) as Hcb.
  { intros p.
    by rewrite (proj2 (callbacks_set_lookup env (m_callbacks w) _ p Hhdr
                         (m_callbacks_length _ _ Hw)) (or_introl eq_refl)). }
  assert (default None (callbacks_set env (m_callbacks w)
                          !! enum_value env ES_GAUSSIAN3V)
          = Some GaussianBlurProvider) as Hcb'.
  { by rewrite (proj2 (callbacks_set_lookup env (m_callbacks w) _
                         GaussianBlurProvider Hhdr (m_callbacks_length _ _ Hw))
                  (or_intror (conj eq_refl eq_refl))). }
  assert (world_ok env (MkWorld (replicate (ES_COUNT env) (-1))
                          (callbacks_set env (m_callbacks w))
                          (materials_added w) (statics w))) as Hw1.
  { split; cbn [m_shaders m_callbacks]; [by rewrite length_replicate|].
    rewrite callbacks_set_length. apply Hw. }
  rewrite (Shaders_run_callbacks env Hhdr w Hw).
  rewrite (loadShaders_requests env Hhdr _ Hw1).
  rewrite (loadShaders_build_requests env Hhdr _ Hw1).
  cbv zeta. cbn [m_callbacks].
  assert (∀ p K, owner p = K →
            default None (callbacks_set env (m_callbacks w) !! enum_value env K)
            = Some p) as Hat by (by intros p K <-).
  rewrite (Hat SkyboxProvider ES_SKYBOX eq_refl),
    (Hat WaterShaderProvider ES_WATER eq_refl),
    (Hat GrassShaderProvider ES_GRASS eq_refl),
    (Hat BubbleEffectProvider ES_BUBBLES eq_refl),
    (Hat MotionBlurProvider ES_MOTIONBLUR eq_refl),
    (Hat GaussianBlurProvider ES_GAUSSIAN3H eq_refl), Hcb',
    (Hat MipVizProvider ES_MIPVIZ eq_refl),
    (Hat ColorizeProvider ES_COLORIZE eq_refl),
    (Hat DisplaceProvider ES_DISPLACE eq_refl).
  split; [reflexivity|].
  cbn. intros H. repeat (apply elem_of_cons in H as [H|H]; [discriminate H|]).
  by apply elem_of_nil in H.
Qed.

Lemma Shaders_passes_callbacks_witness :
  SunLightProvider
    ∉ omap fst (requests (out_of (Shaders.Shaders (demo_env 330 true false all_good)
                                    (first_world (replicate 22 0)
                                       (replicate 22 None))))).
Proof.
  exact (proj2 (Shaders_passes_callbacks _ _ (demo_header_ok _ _ _ _)
                  (first_world_ok 330 true false all_good (replicate 22 0)
                     (replicate 22 None) eq_refl eq_refl))).
Defined.

(** ** Reload after reload *)

Lemma loadShaders_world (env : Env) (w w' : World) (out : list event) :
  header_ok env → world_ok env w →
  Shaders.loadShaders env w = Done tt w' out →
  world_ok env w' ∧ materials_added w' = (22 + materials_added w)%nat.
Proof.
  intros Hhdr Hw. destruct (loadShaders_run env Hhdr w Hw) as (ev & Hev & ->).
  destruct (Shaders.loadShaders_init env (statics w)); [|done].
  intros <-%Done_state. cbn [m_shaders m_callbacks materials_added].
  split; [|done]. split; cbn [m_shaders m_callbacks]; [|apply Hw].
  unfold keep. rewrite length_zip_with, built_length. destruct Hw as [-> _]. lia.
Qed.

Lemma entry_after_valid env K entry added n :
  entry ≠ Some (-1) → entry_after env K entry added n ≠ Some (-1).
Proof.
  revert entry added. induction n as [|n IH]; intros entry added Hentry; [done|].
  cbn [entry_after]. apply IH. case_decide as Hv; [done|]. by intros [= ?].
Qed.

(** X24. After any number of calls of [loadShaders] in a row that all
    return, the entry of every kind is its latest build that was not the
    sentinel, and the entry from before the calls when there is none; so
    an entry that is not the sentinel never becomes the sentinel, however
    often the shaders are reloaded. *)
Theorem reloads_keep_latest_valid (env : Env) (n : nat) (w w' : World)
    (out : list event) (K : ShaderType) :
  header_ok env → world_ok env w →
  reloads n env w = Done tt w' out →
  m_shaders w' !! enum_value env K
    = entry_after env K (m_shaders w !! enum_value env K) (materials_added w) n
  ∧ (m_shaders w !! enum_value env K ≠ Some (-1) →
     m_shaders w' !! enum_value env K ≠ Some (-1)).
Proof.
  intros Hhdr Hw Hrun.
  assert (m_shaders w' !! enum_value env K
          = entry_after env K (m_shaders w !! enum_value env K)
              (materials_added w) n) as Hentry.
  { revert w out Hw Hrun. induction n as [|n IH]; intros w out Hw Hrun.
    { apply Done_state in Hrun. by subst. }
    cbn [reloads] in Hrun. unfold bind in Hrun.
    destruct (Shaders.loadShaders env w) as [[] w1 o1|] eqn:Hload; [|done].
    destruct (reloads n env w1) as [[] w2 o2|] eqn:Hrest; [|done].
    apply Done_state in Hrun. subst w2.
    destruct (loadShaders_world env w w1 o1 Hhdr Hw Hload) as [Hw1 Hadded].
    rewrite (IH w1 o2 Hw1 Hrest), Hadded.
    rewrite (loadShaders_entry env Hhdr w w1 o1 K Hw Hload).
    reflexivity. }
  split; [exact Hentry|]. rewrite Hentry. apply entry_after_valid.
Qed.

Lemma reloads_keep_latest_valid_witness :
  ∃ w' out,
    reloads 2 (demo_env 330 true false (all_but 46)) loaded_world = Done tt w' out
    ∧ m_shaders w' !! 2%nat = Some 48
    ∧ m_shaders w' !! 3%nat = Some 71.
Proof.
  destruct (reloads 2 (demo_env 330 true false (all_but 46)) loaded_world)
    as [[] w' out|why out] eqn:Hrun.
  - exists w', out. split; [reflexivity|]. split.
    + exact (proj1 (reloads_keep_latest_valid _ 2 _ _ _ ES_SKYBOX
                      (demo_header_ok _ _ _ _) (loaded_world_ok _ _ _ _) Hrun)).
    + exact (proj1 (reloads_keep_latest_valid _ 2 _ _ _ ES_SPLATTING
                      (demo_header_ok _ _ _ _) (loaded_world_ok _ _ _ _) Hrun)).
  - exfalso. vm_compute in Hrun. discriminate Hrun.
Defined.

(** ** The constructors, one by one *)

Lemma to_GLuint_idemp z : to_GLuint (to_GLuint z) = to_GLuint z.
Proof. unfold to_GLuint. by rewrite Z.mod_mod by lia. Qed.

Ltac run_constructor :=
  let env := fresh "env" in let s := fresh "s" in
  intros env s; unfold_constructor; run; repeat (split_capability; run).

Ltac each_constructor tac :=
  unfold constructors; repeat (apply Forall_cons; split; [tac|]); constructor.

Lemma constructors_restore_program :
  Forall (λ c : G unit, ∀ env s current,
            bound_after current (out_of (c env s)) =
              if existsb uses_program (out_of (c env s)) then 0 else current)
         constructors.
Proof. each_constructor ltac:(run_constructor; intros current; reflexivity). Qed.

Lemma constructors_restore_vertex_array :
  Forall (λ c : G unit,
            c ≠ void ColoredLine.init → c ≠ void LightShader.PointLightShader.init →
            ∀ env s current,
              vao_after current (out_of (c env s)) =
                if existsb binds_vertex_array (out_of (c env s)) then 0 else current)
         constructors.
Proof.
  each_constructor
    ltac:(intros HA HB; first [by destruct HA | by destruct HB |
            run_constructor; intros current; reflexivity]).
Qed.

Lemma constructors_build_one_program :
  Forall (λ c : G unit, ∀ env s,
            (length (omap (program_built env) (out_of (c env s))) ≤ 1)%nat
            ∧ ∀ p, p ∈ omap program_used (out_of (c env s)) →
                p = 0 ∨ to_GLuint p
                        ∈ to_GLuint <$> omap (program_built env) (out_of (c env s)))
         constructors.
Proof.
  each_constructor
    ltac:(run_constructor; (split; [cbn; lia|]);
          let p := fresh "p" in let H := fresh "H" in
          intros p H; cbn in H;
          repeat (apply elem_of_cons in H as [->|H]; [auto|]);
          [..|by apply elem_of_nil in H];
          right; cbn; rewrite ?to_GLuint_idemp; apply list_elem_of_singleton;
          reflexivity).
Qed.

Lemma constructors_uploads_fit :
  Forall (λ c : G unit, ∀ env s, Forall upload_fits (out_of (c env s)))
         (shared_buffers ++ constructors).
Proof.
  unfold shared_buffers, constructors. cbn [app].
  repeat (apply Forall_cons; split;
          [let env := fresh "env" in let s := fresh "s" in
           intros env s;
           first [unfold_constructor
                 | unfold initQuadVBO, initQuadBuffer, initBillboardVBO,
                     initCubeVBO, initFrustrumVBO, initShadowVPMUBO];
           run; repeat (split_capability; run);
           repeat (apply Forall_cons; split; [exact I || reflexivity|]);
           apply Forall_nil_2|]).
  constructor.
Qed.

Lemma constructors_gate_stages :
  Forall (λ c : G unit, ∀ env s stages,
            stages ∈ builds_in (out_of (c env s)) →
            (GL_GEOMETRY_SHADER ∈ stages.*1 →
               (150 ≤ getGLSLVersion env ∧ hasVSLayerExtension env = false)
               ∨ (GL_GEOMETRY_SHADER,
                  getAsset env "shaders/normal_visualizer.geom") ∈ stages)
            ∧ (GL_COMPUTE_SHADER ∈ stages.*1 →
                 WIN32 env = true ∧ 420 ≤ getGLSLVersion env))
         constructors.
Proof.
  each_constructor
    ltac:(run_constructor;
          let stages := fresh "stages" in let H := fresh "H" in
          intros stages H; cbn in H;
          repeat (apply elem_of_cons in H as [->|H]; [|]);
          [..|by apply elem_of_nil in H];
          (split; cbn [fmap list_fmap fst]; intros Hin;
           repeat (apply elem_of_cons in Hin as [Hin|Hin];
                   [try discriminate Hin|]);
           try (by apply elem_of_nil in Hin));
          first [ left; split; [lia|done]
                | right; do 1 (apply elem_of_cons; right);
                  apply elem_of_cons; by left
                | split; [done|lia] ]).
Qed.

Lemma constructors_point_what_they_enable :
  Forall (λ c : G unit, ∀ env s,
            8 * sizeof_float ≤ sizeof_PointLightInfo env →
            omap enabled_attrib (out_of (c env s))
              = (λ a, a.1.1.1) <$> omap attrib_pointer (out_of (c env s))
            ∧ Forall (λ a, 0 ≤ a.2 ∧ a.2 + a.1.1.2 * 4 ≤ a.1.2)
                     (omap attrib_pointer (out_of (c env s))))
         constructors.
Proof.
  each_constructor
    ltac:(run_constructor; intros Hsize; (split; [reflexivity|]); cbn;
          unfold sizeof_float, sizeof_unsigned in *;
          repeat (apply Forall_cons; split; [cbn; lia|]); apply Forall_nil_2).
Qed.

(** X7. No constructor or [init] function leaves a program of its own
    current: when it returns, program 0 is current if it has made any
    program current, and otherwise the program that was current before. *)
Theorem constructor_restores_program (c : G unit) (env : Env) (s : Statics)
    (current : GLuint) :
  c ∈ constructors →
  bound_after current (out_of (c env s)) =
    if existsb uses_program (out_of (c env s)) then 0 else current.
Proof.
  intros Hc. revert env s current.
  exact (proj1 (Forall_forall _ _) constructors_restore_program c Hc).
Qed.

Lemma constructor_restores_program_witness :
  bound_after 9 (out_of (void MeshShader.SplattingShader
                           (demo_env 330 true false all_good) Statics_at_start)) = 0
  ∧ bound_after 9 (out_of (void MeshShader.BubbleShader.init
                             (demo_env 330 true false all_good) Statics_at_start)) = 9.
Proof.
  split.
  - apply (constructor_restores_program (void MeshShader.SplattingShader)
             (demo_env 330 true false all_good) Statics_at_start 9).
    unfold constructors. do 17 (apply elem_of_cons; right).
    apply elem_of_cons. by left.
  - apply (constructor_restores_program (void MeshShader.BubbleShader.init)
             (demo_env 330 true false all_good) Statics_at_start 9).
    unfold constructors. do 18 (apply elem_of_cons; right).
    apply elem_of_cons. by left.
Defined.

(** X8. Every constructor and [init] function other than
    [ColoredLine::init] and [PointLightShader::init] returns with vertex
    array 0 bound if it has bound any vertex array, and otherwise with the
    one that was bound before. *)
Theorem constructor_restores_vertex_array (c : G unit) (env : Env) (s : Statics)
    (current : GLuint) :
  c ∈ constructors →
  c ≠ void ColoredLine.init → c ≠ void LightShader.PointLightShader.init →
  vao_after current (out_of (c env s)) =
    if existsb binds_vertex_array (out_of (c env s)) then 0 else current.
Proof.
  intros Hc HA HB. revert HA HB env s current.
  exact (proj1 (Forall_forall _ _) constructors_restore_vertex_array c Hc).
Qed.

Lemma constructor_restores_vertex_array_witness :
  vao_after 9 (out_of (void FullScreenShader.BloomShader.init
                         (demo_env 330 true false all_good) Statics_at_start)) = 0.
Proof.
  apply (constructor_restores_vertex_array (void FullScreenShader.BloomShader.init)
           (demo_env 330 true false all_good) Statics_at_start 9).
  - unfold constructors. do 41 (apply elem_of_cons; right).
    apply elem_of_cons. by left.
  - intros E.
    apply (f_equal (λ f : G unit,
             length (out_of (f (demo_env 330 true false all_good)
                               Statics_at_start)))) in E.
    vm_compute in E. discriminate E.
  - intros E.
    apply (f_equal (λ f : G unit,
             length (out_of (f (demo_env 330 true false all_good)
                               Statics_at_start)))) in E.
    vm_compute in E. discriminate E.
Defined.

(** X9. [ColoredLine::init] and [PointLightShader::init] return with the
    vertex array they have generated still bound. *)
Theorem ColoredLine_PointLight_keep_vertex_array (env : Env) (s : Statics)
    (current : GLuint) :
  vao_after current (out_of (ColoredLine.init env s))
    = to_GLuint (gen_name env (gens s))
  ∧ vao_after current (out_of (LightShader.PointLightShader.init env s))
    = to_GLuint (gen_name env (gens s)).
Proof.
  unfold ColoredLine.init, LightShader.PointLightShader.init. run.
  by split.
Qed.

(** X10. A constructor or [init] function builds at most one program, and
    every program it names in a call (to look up a uniform, an attribute or
    a block, to bind a block or to make it current) is program 0 or, as a
    [GLuint], the program it has built. *)
Theorem constructor_uses_its_own_program (c : G unit) (env : Env) (s : Statics)
    (p : GLuint) :
  c ∈ constructors →
  (length (omap (program_built env) (out_of (c env s))) ≤ 1)%nat
  ∧ (p ∈ omap program_used (out_of (c env s)) →
     p = 0 ∨ to_GLuint p
             ∈ to_GLuint <$> omap (program_built env) (out_of (c env s))).
Proof.
  intros Hc.
  destruct (proj1 (Forall_forall _ _) constructors_build_one_program c Hc env s)
    as [Hone Hown].
  split; [exact Hone|apply Hown].
Qed.

Lemma constructor_uses_its_own_program_witness :
  (length (omap (program_built (demo_env 330 true false all_good))
             (out_of (void MeshShader.ObjectPass1Shader
                        (demo_env 330 true false all_good) Statics_at_start)))
     ≤ 1)%nat
  ∧ (4 ∈ omap program_used
           (out_of (void MeshShader.ObjectPass1Shader
                      (demo_env 330 true false all_good) Statics_at_start)) →
     4 = 0 ∨ to_GLuint 4
             ∈ to_GLuint <$> omap (program_built (demo_env 330 true false all_good))
                 (out_of (void MeshShader.ObjectPass1Shader
                            (demo_env 330 true false all_good) Statics_at_start))).
Proof.
  apply (constructor_uses_its_own_program (void MeshShader.ObjectPass1Shader)
           (demo_env 330 true false all_good) Statics_at_start 4).
  unfold constructors. apply elem_of_cons. right. apply elem_of_cons. by left.
Defined.

(** X11. Every [glBufferData] call of the shared-buffer functions and of
    the constructors that reads an array asks for exactly the size of that
    array: four bytes for each of its elements. *)
Theorem uploads_fit_their_arrays (c : G unit) (env : Env) (s : Statics) :
  c ∈ shared_buffers ++ constructors →
  Forall upload_fits (out_of (c env s)).
Proof.
  intros Hc. revert env s.
  exact (proj1 (Forall_forall _ _) constructors_uploads_fit c Hc).
Qed.

Lemma uploads_fit_their_arrays_witness :
  Forall upload_fits
    (out_of (initCubeVBO (demo_env 330 true false all_good) Statics_at_start)).
Proof.
  apply (uploads_fit_their_arrays initCubeVBO
           (demo_env 330 true false all_good) Statics_at_start).
  unfold shared_buffers. apply elem_of_app. left.
  do 3 (apply elem_of_cons; right). apply elem_of_cons. by left.
Defined.

(** X12. The index buffers of the cube and of the view frustum name only
    vertices that their vertex buffers hold, at the three floats a vertex
    with which [SkyboxShader::init] and [ViewFrustrumShader::init] lay
    these buffers out. *)
Theorem index_buffers_stay_in_range (env : Env) (s : Statics) :
  ∃ corners cube_indices frustum_size frustum_indices n1 n2 n3 position position',
    uploads (out_of (initCubeVBO env s))
      = [(GL_ARRAY_BUFFER, n1, float_data corners);
         (GL_ELEMENT_ARRAY_BUFFER, n2, int_data cube_indices)]
    ∧ Forall (λ i, 0 ≤ i ∧ 3 * (i + 1) ≤ Z.of_nat (length corners)) cube_indices
    ∧ uploads (out_of (initFrustrumVBO env s))
      = [(GL_ARRAY_BUFFER, frustum_size, null_data);
         (GL_ELEMENT_ARRAY_BUFFER, n3, int_data frustum_indices)]
    ∧ Forall (λ i, 0 ≤ i ∧ 3 * sizeof_float * (i + 1) ≤ frustum_size)
             frustum_indices
    ∧ omap attrib_pointer (out_of (MeshShader.SkyboxShader.init env s))
      = [(position, 3, 3 * sizeof_float, 0)]
    ∧ omap attrib_pointer (out_of (MeshShader.ViewFrustrumShader.init env s))
      = [(position', 3, 3 * sizeof_float, 0)].
Proof.
  unfold initCubeVBO, initFrustrumVBO, MeshShader.SkyboxShader.init,
    MeshShader.ViewFrustrumShader.init. run.
  do 9 eexists. split; [reflexivity|]. split.
  { repeat (apply Forall_cons; split; [cbn; lia|]). apply Forall_nil_2. }
  split; [reflexivity|]. split.
  { unfold sizeof_float.
    repeat (apply Forall_cons; split; [lia|]). apply Forall_nil_2. }
  split; reflexivity.
Qed.

(** X13. A constructor builds a program with a geometry stage only when
    the GLSL version is at least 150 and the VS-layer extension is absent,
    [NormalVisualizer] apart, which asks for its geometry stage whatever
    the driver; and a program with a compute stage only in a WIN32 build
    and with a GLSL version of at least 420. *)
Theorem constructor_gates_stages (c : G unit) (env : Env) (s : Statics)
    (stages : list stage) :
  c ∈ constructors →
  stages ∈ builds_in (out_of (c env s)) →
  (GL_GEOMETRY_SHADER ∈ stages.*1 →
     (150 ≤ getGLSLVersion env ∧ hasVSLayerExtension env = false)
     ∨ (GL_GEOMETRY_SHADER, getAsset env "shaders/normal_visualizer.geom") ∈ stages)
  ∧ (GL_COMPUTE_SHADER ∈ stages.*1 →
       WIN32 env = true ∧ 420 ≤ getGLSLVersion env).
Proof.
  intros Hc. revert env s stages.
  exact (proj1 (Forall_forall _ _) constructors_gate_stages c Hc).
Qed.

Lemma constructor_gates_stages_witness :
  (GL_GEOMETRY_SHADER
     ∈ [(GL_VERTEX_SHADER, "/data/shaders/slicedscreenquad.vert");
        (GL_GEOMETRY_SHADER, "/data/shaders/rhpassthrough.geom");
        (GL_FRAGMENT_SHADER, "/data/shaders/rh.frag")].*1 →
     (150 ≤ getGLSLVersion (demo_env 330 false false all_good)
      ∧ hasVSLayerExtension (demo_env 330 false false all_good) = false)
     ∨ (GL_GEOMETRY_SHADER,
        getAsset (demo_env 330 false false all_good)
          "shaders/normal_visualizer.geom")
       ∈ [(GL_VERTEX_SHADER, "/data/shaders/slicedscreenquad.vert");
          (GL_GEOMETRY_SHADER, "/data/shaders/rhpassthrough.geom");
          (GL_FRAGMENT_SHADER, "/data/shaders/rh.frag")])
  ∧ (GL_COMPUTE_SHADER
       ∈ [(GL_VERTEX_SHADER, "/data/shaders/slicedscreenquad.vert");
          (GL_GEOMETRY_SHADER, "/data/shaders/rhpassthrough.geom");
          (GL_FRAGMENT_SHADER, "/data/shaders/rh.frag")].*1 →
     WIN32 (demo_env 330 false false all_good) = true
     ∧ 420 ≤ getGLSLVersion (demo_env 330 false false all_good)).
Proof.
  apply (constructor_gates_stages
           (void FullScreenShader.RadianceHintsConstructionShader)
           (demo_env 330 false false all_good) Statics_at_start).
  - unfold constructors. do 48 (apply elem_of_cons; right).
    apply elem_of_cons. by left.
  - vm_compute. apply elem_of_cons. by left.
Defined.

(** X14. In every constructor the attribute arrays that are enabled are
    those that get a pointer, one each and in the same order, and every
    attribute lies within the stride of its pointer (for the point lights
    when a [PointLightInfo] has room for its eight floats). *)
Theorem constructor_points_what_it_enables (c : G unit) (env : Env) (s : Statics) :
  c ∈ constructors →
  8 * sizeof_float ≤ sizeof_PointLightInfo env →
  omap enabled_attrib (out_of (c env s))
    = (λ a, a.1.1.1) <$> omap attrib_pointer (out_of (c env s))
  ∧ Forall (λ a, 0 ≤ a.2 ∧ a.2 + a.1.1.2 * 4 ≤ a.1.2)
           (omap attrib_pointer (out_of (c env s))).
Proof.
  intros Hc. revert env s.
  exact (proj1 (Forall_forall _ _) constructors_point_what_they_enable c Hc).
Qed.

Lemma constructor_points_what_it_enables_witness :
  omap enabled_attrib
    (out_of (void LightShader.PointLightShader.init
               (demo_env 330 true false all_good) Statics_at_start))
    = [8; 6; 5; 6]
  ∧ omap attrib_pointer
      (out_of (void LightShader.PointLightShader.init
                 (demo_env 330 true false all_good) Statics_at_start))
    = [(8, 3, 32, 0); (6, 1, 32, 12); (5, 3, 32, 16); (6, 1, 32, 28)].
Proof.
  destruct (constructor_points_what_it_enables
              (void LightShader.PointLightShader.init)
              (demo_env 330 true false all_good) Statics_at_start) as [H _].
  - unfold constructors. do 36 (apply elem_of_cons; right).
    apply elem_of_cons. by left.
  - by vm_compute.
  - split; [exact H|reflexivity].
Defined.

(** ** The uniforms of the classes with static members *)

(** X15. For each of the four rectangle shaders of the user interface:
    after [init], [setUniforms] writes its arguments at the locations that
    [init] has resolved in the program of the class, in this order and
    under these names, and does nothing else. *)
Theorem UIShader_setUniforms_order (env : Env)
    (center_pos_x center_pos_y width height tex_center_pos_x tex_center_pos_y
       tex_width tex_height : float) (color : SColor) (TU_tex : Z) :
  (∀ program name, is_GLint (uniform_location env program name)) →
  let rectangle :=
    [("tex", value_1i (to_GLint TU_tex));
     ("center", value_2f center_pos_x center_pos_y);
     ("size", value_2f width height);
     ("texcenter", value_2f tex_center_pos_x tex_center_pos_y);
     ("texsize", value_2f tex_width tex_height)] in
  let colour :=
    value_4i (to_GLint (getRed color)) (to_GLint (getGreen color))
             (to_GLint (getBlue color)) (to_GLint (getAlpha color)) in
  sets_in_order env UIShader.TextureRectShader.Program
    UIShader.TextureRectShader.init
    (UIShader.TextureRectShader.setUniforms center_pos_x center_pos_y width height
       tex_center_pos_x tex_center_pos_y tex_width tex_height TU_tex)
    rectangle
  ∧ sets_in_order env UIShader.UniformColoredTextureRectShader.Program
      UIShader.UniformColoredTextureRectShader.init
      (UIShader.UniformColoredTextureRectShader.setUniforms center_pos_x
         center_pos_y width height tex_center_pos_x tex_center_pos_y tex_width
         tex_height color TU_tex)
      (rectangle ++ [("color", colour)])
  ∧ sets_in_order env UIShader.ColoredTextureRectShader.Program
      UIShader.ColoredTextureRectShader.init
      (UIShader.ColoredTextureRectShader.setUniforms center_pos_x center_pos_y
         width height tex_center_pos_x tex_center_pos_y tex_width tex_height
         TU_tex)
      rectangle
  ∧ sets_in_order env UIShader.ColoredRectShader.Program
      UIShader.ColoredRectShader.init
      (UIShader.ColoredRectShader.setUniforms center_pos_x center_pos_y width
         height color)
      [("center", value_2f center_pos_x center_pos_y);
       ("size", value_2f width height);
       ("color", colour)].
Proof.
  intros Hloc. cbv zeta. repeat apply conj; in_order Hloc.
Qed.

Lemma UIShader_setUniforms_order_witness :
  sets_in_order (demo_env 330 true false all_good)
    UIShader.ColoredRectShader.Program UIShader.ColoredRectShader.init
    (UIShader.ColoredRectShader.setUniforms 1%Q 2%Q 3%Q 4%Q (MkSColor 255 10 20 30))
    [("center", value_2f 1%Q 2%Q); ("size", value_2f 3%Q 4%Q);
     ("color", value_4i 10 20 30 255)].
Proof.
  refine (proj2 (proj2 (proj2
    (UIShader_setUniforms_order (demo_env 330 true false all_good)
       1%Q 2%Q 3%Q 4%Q 0%Q 0%Q 0%Q 0%Q (MkSColor 255 10 20 30) 0 _)))).
  intros program name. unfold is_GLint. cbn.
  pose proof (Z.mod_pos_bound (Z.of_nat (String.length name)) 256). lia.
Defined.

(** X16. For the seven full-screen shaders with a [setUniforms] that only
    writes cached locations: after [init], [setUniforms] writes its
    arguments at the locations that [init] has resolved in the program of
    the class, in this order and under these names, and does nothing
    else. *)
Theorem FullScreenShader_setUniforms_order (env : Env)
    (TU_tex TU_tex_128 TU_tex_256 TU_tex_512 TU_cb TU_dtex TU_colorMapG
       TU_edgesMap TU_areaMap TU_colormap TU_blendmap : Z)
    (boost_amount mask_radius : float) (previousVP : matrix4)
    (center sunpos PIXEL_SIZE : vector2df) :
  (∀ program name, is_GLint (uniform_location env program name)) →
  let pixel := ("PIXEL_SIZE", value_2f (X PIXEL_SIZE) (Y PIXEL_SIZE)) in
  sets_in_order env FullScreenShader.BloomShader.Program
    FullScreenShader.BloomShader.init
    (FullScreenShader.BloomShader.setUniforms TU_tex)
    [("tex", value_1i (to_GLint TU_tex))]
  ∧ sets_in_order env FullScreenShader.BloomBlendShader.Program
      FullScreenShader.BloomBlendShader.init
      (FullScreenShader.BloomBlendShader.setUniforms TU_tex_128 TU_tex_256 TU_tex_512)
      [("tex_128", value_1i (to_GLint TU_tex_128));
       ("tex_256", value_1i (to_GLint TU_tex_256));
       ("tex_512", value_1i (to_GLint TU_tex_512))]
  ∧ sets_in_order env FullScreenShader.MotionBlurShader.Program
      FullScreenShader.MotionBlurShader.init
      (FullScreenShader.MotionBlurShader.setUniforms boost_amount previousVP center
         mask_radius TU_cb TU_dtex)
      [("previous_viewproj", value_Matrix4fv 1 false previousVP);
       ("boost_amount", value_1f boost_amount);
       ("center", value_2f (X center) (Y center));
       ("mask_radius", value_1f mask_radius);
       ("color_buffer", value_1i (to_GLint TU_cb));
       ("dtex", value_1i (to_GLint TU_dtex))]
  ∧ sets_in_order env FullScreenShader.GodRayShader.Program
      FullScreenShader.GodRayShader.init
      (FullScreenShader.GodRayShader.setUniforms sunpos TU_tex)
      [("sunpos", value_2f (X sunpos) (Y sunpos));
       ("tex", value_1i (to_GLint TU_tex))]
  ∧ sets_in_order env FullScreenShader.MLAAColorEdgeDetectionSHader.Program
      FullScreenShader.MLAAColorEdgeDetectionSHader.init
      (FullScreenShader.MLAAColorEdgeDetectionSHader.setUniforms PIXEL_SIZE
         TU_colorMapG)
      [("colorMapG", value_1i (to_GLint TU_colorMapG)); pixel]
  ∧ sets_in_order env FullScreenShader.MLAABlendWeightSHader.Program
      FullScreenShader.MLAABlendWeightSHader.init
      (FullScreenShader.MLAABlendWeightSHader.setUniforms PIXEL_SIZE TU_edgesMap
         TU_areaMap)
      [("edgesMap", value_1i (to_GLint TU_edgesMap));
       ("areaMap", value_1i (to_GLint TU_areaMap)); pixel]
  ∧ sets_in_order env FullScreenShader.MLAAGatherSHader.Program
      FullScreenShader.MLAAGatherSHader.init
      (FullScreenShader.MLAAGatherSHader.setUniforms PIXEL_SIZE TU_colormap
         TU_blendmap)
      [("colorMap", value_1i (to_GLint TU_colormap));
       ("blendMap", value_1i (to_GLint TU_blendmap)); pixel].
Proof.
  intros Hloc. cbv zeta. repeat apply conj; in_order Hloc.
Qed.

Lemma FullScreenShader_setUniforms_order_witness :
  sets_in_order (demo_env 330 true false all_good)
    FullScreenShader.GodRayShader.Program FullScreenShader.GodRayShader.init
    (FullScreenShader.GodRayShader.setUniforms (Vector2df 0.5%Q 0.25%Q) 3)
    [("sunpos", value_2f 0.5%Q 0.25%Q); ("tex", value_1i 3)].
Proof.
  refine (proj1 (proj2 (proj2 (proj2
    (FullScreenShader_setUniforms_order (demo_env 330 true false all_good)
       3 0 0 0 0 0 0 0 0 0 0 0%Q 0%Q IdentityMatrix (Vector2df 0%Q 0%Q)
       (Vector2df 0.5%Q 0.25%Q) (Vector2df 0%Q 0%Q) _))))).
  intros program name. unfold is_GLint. cbn.
  pose proof (Z.mod_pos_bound (Z.of_nat (String.length name)) 256). lia.
Defined.

(** X17. After [init], [ViewFrustrumShader::setUniforms] writes the colour
    and the index at the locations resolved for "color" and "idx", and
    [FlipParticleRender::setUniforms] writes five uniforms in the order
    invproj, ProjectionMatrix, ViewMatrix, tex, dtex.  The projection and
    view matrices it writes are those of the driver: its arguments
    [ViewMatrix], [ProjMatrix], [width] and [height] are not used. *)
Theorem ViewFrustrum_FlipParticle_setUniforms_order (env : Env)
    (color : SColor) (idx : Z) (ViewMatrix ProjMatrix InvProjMatrix : matrix4)
    (width height : float) (TU_tex TU_dtex : Z) :
  (∀ program name, is_GLint (uniform_location env program name)) →
  sets_in_order env MeshShader.ViewFrustrumShader.Program
    MeshShader.ViewFrustrumShader.init
    (MeshShader.ViewFrustrumShader.setUniforms color idx)
    [("color", value_4i (to_GLint (getRed color)) (to_GLint (getGreen color))
                        (to_GLint (getBlue color)) (to_GLint (getAlpha color)));
     ("idx", value_1i (to_GLint idx))]
  ∧ sets_in_order env ParticleShader.FlipParticleRender.Program
      ParticleShader.FlipParticleRender.init
      (ParticleShader.FlipParticleRender.setUniforms ViewMatrix ProjMatrix
         InvProjMatrix width height TU_tex TU_dtex)
      [("invproj", value_Matrix4fv 1 false InvProjMatrix);
       ("ProjectionMatrix", value_Matrix4fv 1 false (getProjMatrix env));
       ("ViewMatrix", value_Matrix4fv 1 false (getViewMatrix env));
       ("tex", value_1i (to_GLint TU_tex));
       ("dtex", value_1i (to_GLint TU_dtex))]
  ∧ ∀ ViewMatrix' ProjMatrix' width' height',
      ParticleShader.FlipParticleRender.setUniforms ViewMatrix ProjMatrix
        InvProjMatrix width height TU_tex TU_dtex
      = ParticleShader.FlipParticleRender.setUniforms ViewMatrix' ProjMatrix'
          InvProjMatrix width' height' TU_tex TU_dtex.
Proof.
  intros Hloc. split; [|split]; [in_order Hloc..|reflexivity].
Qed.

Lemma ViewFrustrum_FlipParticle_setUniforms_order_witness :
  sets_in_order (demo_env 330 true false all_good)
    MeshShader.ViewFrustrumShader.Program MeshShader.ViewFrustrumShader.init
    (MeshShader.ViewFrustrumShader.setUniforms (MkSColor 255 10 20 30) 2)
    [("color", value_4i 10 20 30 255); ("idx", value_1i 2)].
Proof.
  refine (proj1
    (ViewFrustrum_FlipParticle_setUniforms_order (demo_env 330 true false all_good)
       (MkSColor 255 10 20 30) 2 IdentityMatrix IdentityMatrix IdentityMatrix
       0%Q 0%Q 0 0 _)).
  intros program name. unfold is_GLint. cbn.
  pose proof (Z.mod_pos_bound (Z.of_nat (String.length name)) 256). lia.
Defined.

(** ** Texture units and locations *)

Lemma VTexUnits_app (v args : list TexUnit) : VTexUnits v args = v ++ args.
Proof.
  revert v. induction args as [|curr rest IH]; intros v; cbn [VTexUnits].
  - by rewrite app_nil_r.
  - by rewrite IH, <- app_assoc.
Qed.

(** X18. [TexUnits] returns its arguments in the order in which they are
    given, and [VTexUnits] appends its arguments to the vector in that
    order. *)
Theorem TexUnits_in_order (v : list TexUnit) (curr : TexUnit) (rest : list TexUnit) :
  TexUnits curr rest = curr :: rest
  ∧ VTexUnits v (curr :: rest) = v ++ curr :: rest.
Proof. unfold TexUnits. by rewrite !VTexUnits_app. Qed.

(** X19. The file-scope [getUniformLocation] returns the location as a
    [GLuint]: a uniform that is not found (-1) comes back as 4294967295,
    and handing the result to a [glUniform*] entry point, which takes a
    [GLint], gives the location back. *)
Theorem getUniformLocation_not_found (env : Env) (s : Statics) (program : GLuint)
    (name : string) :
  is_GLint (uniform_location env program name) →
  ∃ u, getUniformLocation program name env s
         = Done u s [glGetUniformLocation_ program name]
    ∧ (uniform_location env program name = -1 → u = 4294967295)
    ∧ (0 ≤ uniform_location env program name → u = uniform_location env program name)
    ∧ to_GLint u = uniform_location env program name.
Proof.
  intros Hloc. eexists. split; [reflexivity|]. split; [|split].
  - intros ->. reflexivity.
  - intros Hpos. apply to_GLuint_id. unfold is_GLint, is_GLuint in *. lia.
  - by apply to_GLint_to_GLuint.
Qed.

Lemma getUniformLocation_not_found_witness :
  ∃ u, getUniformLocation 3 "tex" (demo_env 330 true false all_good) Statics_at_start
         = Done u Statics_at_start [glGetUniformLocation_ 3 "tex"]
    ∧ u = 3.
Proof.
  destruct (getUniformLocation_not_found (demo_env 330 true false all_good)
              Statics_at_start 3 "tex") as (u & Hrun & _ & Hpos & _).
  - by vm_compute.
  - exists u. split; [exact Hrun|]. by apply Hpos.
Defined.

(** ** The set-up of [loadShaders] as a whole *)

Ltac run_all :=
  cbv beta iota zeta delta
    -[to_GLuint to_GLint Z.mul Z.add Z.sub Z.ltb Z.eqb Z.to_nat Z.of_nat Z.opp
      elem_of take String.append names_ok
      ES_COUNT enum_value shader_names MAXLIGHT sizeof_PointLightInfo WIN32
      getAsset getAsset_SHADER getGLSLVersion hasVSLayerExtension
      needUBOWorkaround getViewMatrix getProjMatrix getInvViewMatrix
      getInvProjMatrix getCurrentScreenSize material_of program_of
      tfb_program_of uniform_location attrib_location uniform_block_index
      gen_name].

Ltac split_run :=
  repeat (match goal with
          | |- context [if ?c then _ else _] =>
              lazymatch c with
              | WIN32 _ => destruct c eqn:?
              | (_ <? _) => destruct c eqn:?
              | (_ =? _) => destruct c eqn:?
              end
          end; run_all).

(** X20. In the set-up at the end of [loadShaders] (the shared buffers,
    then the [init] functions) every buffer that is bound is 0 or was
    generated, as a buffer, earlier in the same call, and likewise every
    vertex array: no [init] binds a shared buffer before the function that
    creates it has run. *)
Theorem loadShaders_init_binds_generated_names (env : Env) (s : Statics) :
  names_ok env (gens s) [] [] (out_of (Shaders.loadShaders_init env s)).
Proof.
  destruct s as [v g]. run_all. split_run.
  all: cbn [names_ok]; repeat apply conj; try exact I.
  all: first [ by left
             | right; rewrite ?to_GLuint_idemp;
               repeat first [apply list_elem_of_here | apply list_elem_of_further] ].
Qed.

(** ** Assertions and overloads *)

(** X21. [SimpleParticleRender::init] stops at its first assertion, right
    after the lookup of "color_from", when that uniform is not found, and
    at its second, right after the lookup of "color_to", when only that
    one is missing; the program and the locations found before are then
    already stored. *)
Theorem SimpleParticleRender_init_aborts (env : Env) (s : Statics) :
  let P := particle_program env in
  (uniform_location env P "color_from" = -1 →
   ∃ tr, ParticleShader.SimpleParticleRender.init env s
           = Failed assertion_failed (tr ++ [glGetUniformLocation_ P "color_from"])
     ∧ glGetUniformLocation_ P "color_to" ∉ tr)
  ∧ (to_GLuint (uniform_location env P "color_from") ≠ to_GLuint (-1) →
     uniform_location env P "color_to" = -1 →
     ∃ tr, ParticleShader.SimpleParticleRender.init env s
             = Failed assertion_failed (tr ++ [glGetUniformLocation_ P "color_to"])).
Proof.
  cbv zeta. unfold particle_program, ParticleShader.SimpleParticleRender.init.
  run. split.
  - intros ->. rewrite Z.eqb_refl. cbv beta iota.
    eexists [_; _; _; _; _; _; _; _; _; _; _]. split; [reflexivity|].
    intros H. repeat (apply elem_of_cons in H as [H|H]; [discriminate H|]).
    by apply elem_of_nil in H.
  - intros Hfrom ->.
    destruct (Z.eqb_spec
                (to_GLuint (uniform_location env
                   (to_GLuint (program_of env
                      [(GL_VERTEX_SHADER, getAsset env "shaders/particle.vert");
                       (GL_FRAGMENT_SHADER, getAsset env "shaders/particle.frag")]))
                   "color_from"))
                (to_GLuint (-1))) as [E|_]; [done|].
    cbv beta iota. rewrite Z.eqb_refl. cbv beta iota.
    by eexists [_; _; _; _; _; _; _; _; _; _; _; _].
Qed.

Lemma SimpleParticleRender_init_aborts_witness :
  ∃ tr, ParticleShader.SimpleParticleRender.init
          {| ES_COUNT := 22; enum_value := build_index;
             shader_names := λ _, ""; MAXLIGHT := 32; sizeof_PointLightInfo := 32;
             WIN32 := false; getAsset := λ name, name;
             getAsset_SHADER := λ name, name; getGLSLVersion := 330;
             hasVSLayerExtension := true; needUBOWorkaround := false;
             getViewMatrix := IdentityMatrix; getProjMatrix := IdentityMatrix;
             getInvViewMatrix := IdentityMatrix;
             getInvProjMatrix := IdentityMatrix;
             getCurrentScreenSize := Vector2df 0%Q 0%Q;
             material_of := λ _, 1; program_of := λ _, 3;
             tfb_program_of := λ _ _, 4;
             uniform_location := λ _ name,
               if String.eqb name "color_from" then -1 else 5;
             attrib_location := λ _ _, 0; uniform_block_index := λ _ _, 0;
             gen_name := λ n, Z.of_nat n |} Statics_at_start
        = Failed assertion_failed (tr ++ [glGetUniformLocation_ 3 "color_from"])
    ∧ glGetUniformLocation_ 3 "color_to" ∉ tr.
Proof.
  refine (proj1 (SimpleParticleRender_init_aborts _ Statics_at_start) _).
  reflexivity.
Defined.

(** X22. The two overloads of [AssignTextureUnit] agree: binding several
    units in one call makes the same uniform writes as one call for each
    unit in turn.  The call for one unit makes [Program] current, looks up
    the sampler of the unit, writes the index of the unit at its location
    and makes program 0 current; so each unit is written once, in
    [Program], and either way program 0 is current at the end. *)
Theorem AssignTextureUnit_overloads_agree (env : Env) (s : Statics)
    (Program : GLuint) (texUnit : TexUnit) (rest : list TexUnit)
    (current : GLuint) :
  (∀ name, is_GLint (uniform_location env Program name)) →
  Forall (λ u, is_GLint (m_index u)) (texUnit :: rest) →
  uniform_writes current (out_of (AssignTextureUnit Program texUnit rest env s))
    = (texUnit :: rest) ≫= (λ u,
        uniform_writes current (out_of (AssignTextureUnit Program u [] env s)))
  ∧ Forall (λ u,
       AssignTextureUnit Program u [] env s
         = Done tt s [glUseProgram_ Program;
                      glGetUniformLocation_ Program (m_uniform u);
                      glUniform1i_ (uniform_location env Program (m_uniform u))
                        (m_index u);
                      glUseProgram_ 0]
       ∧ uniform_writes current (out_of (AssignTextureUnit Program u [] env s))
         = [(Program, uniform_location env Program (m_uniform u),
             value_1i (m_index u))]
       ∧ bound_after current (out_of (AssignTextureUnit Program u [] env s)) = 0)
     (texUnit :: rest)
  ∧ bound_after current (out_of (AssignTextureUnit Program texUnit rest env s)) = 0.
Proof.
  intros Hloc Hunits.
  assert (Forall (λ u,
       AssignTextureUnit Program u [] env s
         = Done tt s [glUseProgram_ Program;
                      glGetUniformLocation_ Program (m_uniform u);
                      glUniform1i_ (uniform_location env Program (m_uniform u))
                        (m_index u);
                      glUseProgram_ 0]
       ∧ uniform_writes current (out_of (AssignTextureUnit Program u [] env s))
         = [(Program, uniform_location env Program (m_uniform u),
             value_1i (m_index u))]
       ∧ bound_after current (out_of (AssignTextureUnit Program u [] env s)) = 0)
     (texUnit :: rest)) as Hsingle.
  { eapply Forall_impl; [exact Hunits|]. intros u Hu. cbv beta in Hu.
    rewrite (AssignTextureUnit_run env Program Hloc s u []) by (by constructor).
    by repeat split. }
  split; [|split; [exact Hsingle|]].
  - rewrite (AssignTextureUnit_run env Program Hloc s texUnit rest Hunits).
    cbn [out_of uniform_writes uniform_call].
    rewrite uniform_writes_units. cbn [uniform_writes]. rewrite app_nil_r.
    clear Hunits. induction Hsingle as [|u units (_ & Hu & _) _ IH]; [done|].
    cbn [fmap list_fmap mbind list_bind]. by rewrite Hu, <- IH.
  - rewrite (AssignTextureUnit_run env Program Hloc s texUnit rest Hunits).
    cbn [out_of bound_after]. by rewrite bound_after_units.
Qed.

Lemma AssignTextureUnit_overloads_agree_witness :
  uniform_writes 9
    (out_of (AssignTextureUnit 3 (MkTexUnit 0 "Albedo") [MkTexUnit 1 "SSAO"]
               (demo_env 330 true false all_good) Statics_at_start))
  = [(3, 6, value_1i 0); (3, 4, value_1i 1)]
  ∧ AssignTextureUnit 3 (MkTexUnit 1 "SSAO") []
      (demo_env 330 true false all_good) Statics_at_start
    = Done tt Statics_at_start
        [glUseProgram_ 3; glGetUniformLocation_ 3 "SSAO"; glUniform1i_ 4 1;
         glUseProgram_ 0]
  ∧ bound_after 9
      (out_of (AssignTextureUnit 3 (MkTexUnit 0 "Albedo") [MkTexUnit 1 "SSAO"]
                 (demo_env 330 true false all_good) Statics_at_start)) = 0.
Proof.
  destruct (AssignTextureUnit_overloads_agree (demo_env 330 true false all_good)
              Statics_at_start 3 (MkTexUnit 0 "Albedo") [MkTexUnit 1 "SSAO"] 9)
    as (Hwrites & Hsingle & Hbound).
  - intros name. unfold is_GLint. cbn.
    pose proof (Z.mod_pos_bound (Z.of_nat (String.length name)) 256). lia.
  - repeat constructor; cbn; lia.
  - split; [rewrite Hwrites; reflexivity|]. split; [|exact Hbound].
    apply Forall_cons in Hsingle as [_ Hsingle].
    apply Forall_cons in Hsingle as [(Hrun & _) _]. exact Hrun.
Defined.
